(** * echopype: combining converted files and the EchoData path pointers

    A shallow embedding of [echopype/convert/convert_combine.py], of
    [echopype/process/echodata.py] and of [_copy_file] of
    [echopype/convert/set_groups_ek80.py].  Python values are modelled by
    small inductive types, dictionaries by [gmap], exceptions by an error
    result, and the calls into xarray, [echopype.utils.io], the file system
    and the clock by interfaces that the theorems are generic in. *)

From Stdlib Require Import ZArith Ascii.
From stdpp Require Import gmap strings list fin_maps sorting pretty.

Local Open Scope Z_scope.

(** ** Python exceptions and results *)

Inductive exn :=
| ValueError (msg : string)
| AttributeError (type_name attr_name : string)
| KeyError (key : string)
| IndexError (msg : string)
| OSError (msg : string)
| ConflictingMetadata (key : string).

Inductive result (A : Type) :=
| Ok (a : A)
| Raise (e : exn).
Arguments Ok {A} a.
Arguments Raise {A} e.

Global Instance exn_eq_dec : EqDecision exn.
Proof. solve_decision. Defined.

Global Instance result_eq_dec `{EqDecision A} : EqDecision (result A).
Proof. solve_decision. Defined.

Definition is_ok {A} (r : result A) : bool :=
  match r with Ok _ => true | Raise _ => false end.

Definition result_bind {A B} (r : result A) (k : A → result B) : result B :=
  match r with Ok a => k a | Raise e => Raise e end.

(** ** Strings *)

Fixpoint str_take (n : nat) (s : string) : string :=
  match n, s with
  | O, _ => ""
  | S _, EmptyString => ""
  | S n', String c s' => String c (str_take n' s')
  end.

Fixpoint str_drop (n : nat) (s : string) : string :=
  match n, s with
  | O, _ => s
  | S _, EmptyString => ""
  | S n', String _ s' => str_drop n' s'
  end.

Fixpoint str_endswith_rev (suffix_rev s_rev : string) : bool :=
  match suffix_rev, s_rev with
  | EmptyString, _ => true
  | String _ _, EmptyString => false
  | String a x, String b y => if decide (a = b) then str_endswith_rev x y else false
  end.

(** [s.endswith(suffix)] *)
Definition str_endswith (s suffix : string) : bool :=
  str_endswith_rev (String.rev suffix) (String.rev s).

(** ** Naive datetimes and their text forms *)

Record datetime := mkDatetime {
  dt_year : Z; dt_month : Z; dt_day : Z;
  dt_hour : Z; dt_minute : Z; dt_second : Z;
  dt_microsecond : Z
}.

Global Instance datetime_eq_dec : EqDecision datetime.
Proof. solve_decision. Defined.

Definition valid_datetime (t : datetime) : Prop :=
  1 ≤ dt_year t ≤ 9999 ∧ 1 ≤ dt_month t ≤ 12 ∧ 1 ≤ dt_day t ≤ 31 ∧
  0 ≤ dt_hour t ≤ 23 ∧ 0 ≤ dt_minute t ≤ 59 ∧ 0 ≤ dt_second t ≤ 59 ∧
  0 ≤ dt_microsecond t ≤ 999999.

Definition digit_char (d : Z) : ascii :=
  ascii_of_N (48 + Z.to_N (d mod 10)).

(** ["%0<width>d"] of a non-negative number: the lowest [width] digits. *)
Fixpoint zero_pad (width : nat) (z : Z) : string :=
  match width with
  | O => ""
  | S w => zero_pad w (z / 10) +:+ String (digit_char z) ""
  end.

(** [t.isoformat(timespec='seconds')] of a naive datetime. *)
Definition isoformat_seconds (t : datetime) : string :=
  zero_pad 4 (dt_year t) +:+ "-" +:+ zero_pad 2 (dt_month t) +:+ "-" +:+
  zero_pad 2 (dt_day t) +:+ "T" +:+ zero_pad 2 (dt_hour t) +:+ ":" +:+
  zero_pad 2 (dt_minute t) +:+ ":" +:+ zero_pad 2 (dt_second t).

(** [t.strftime('%H:%M:%S')] *)
Definition strftime_HMS (t : datetime) : string :=
  zero_pad 2 (dt_hour t) +:+ ":" +:+ zero_pad 2 (dt_minute t) +:+ ":" +:+
  zero_pad 2 (dt_second t).

(** ** Datasets *)

Inductive dtype :=
| DT_U (width : nat)
| DT_object
| DT_int64
| DT_float64
| DT_datetime64.

Inductive scalar :=
| SStr (s : string)
| SInt (z : Z).

Inductive attr :=
| AStr (s : string)
| AInt (z : Z)
| AList (l : list string).

Global Instance dtype_eq_dec : EqDecision dtype.
Proof. solve_decision. Defined.
Global Instance scalar_eq_dec : EqDecision scalar.
Proof. solve_decision. Defined.
Global Instance attr_eq_dec : EqDecision attr.
Proof. solve_decision. Defined.

Record DataArray := mkDataArray {
  da_dims : list string;
  da_dtype : dtype;
  da_values : list scalar;
  da_attrs : gmap string attr
}.

Record Dataset := mkDataset {
  ds_variables : gmap string DataArray;
  ds_coord_names : gset string;
  ds_attrs : gmap string attr;
  ds_chunks : gmap string Z
}.

Global Instance DataArray_eq_dec : EqDecision DataArray.
Proof. solve_decision. Defined.
Global Instance Dataset_eq_dec : EqDecision Dataset.
Proof. solve_decision. Defined.

(** [xr.Dataset()] *)
Definition empty_dataset : Dataset := mkDataset ∅ ∅ ∅ ∅.

(** [ds.assign_attrs(d)]: the entries of [d] are added to the attributes,
    replacing those of the same name. *)
Definition assign_attrs (ds : Dataset) (d : gmap string attr) : Dataset :=
  mkDataset (ds_variables ds) (ds_coord_names ds) (d ∪ ds_attrs ds)
            (ds_chunks ds).

(** [ds[name]] *)
Definition ds_getitem (ds : Dataset) (name : string) : result DataArray :=
  match ds_variables ds !! name with
  | Some da => Ok da
  | None => Raise (KeyError name)
  end.

(** [ds[name] = da]: a coordinate of that name stays a coordinate, any other
    name is a data variable. *)
Definition ds_setitem (ds : Dataset) (name : string) (da : DataArray) : Dataset :=
  mkDataset (<[name := da]> (ds_variables ds)) (ds_coord_names ds)
            (ds_attrs ds) (ds_chunks ds).

(** [ds.data_vars]: the variables that are not coordinates. *)
Definition ds_data_vars (ds : Dataset) : gmap string DataArray :=
  filter (λ kv, kv.1 ∉ ds_coord_names ds) (ds_variables ds).

Definition scalar_str (v : scalar) : string :=
  match v with
  | SStr s => s
  | SInt z => pretty z
  end.

(** [da.astype('<U' + width)]: every value becomes text of at most [width]
    characters, longer text is cut. *)
Definition astype_U (width : nat) (da : DataArray) : DataArray :=
  mkDataArray (da_dims da) (DT_U width)
              ((λ v, SStr (str_take width (scalar_str v))) <$> da_values da)
              (da_attrs da).

Definition max_width (vs : list scalar) : nat :=
  foldr (λ v acc, Nat.max (String.length (scalar_str v)) acc) 1%nat vs.

(** [da.astype('str')]: text as wide as the widest value. *)
Definition astype_str (da : DataArray) : DataArray :=
  astype_U (max_width (da_values da)) da.

(** [ds.astype('str')]: applied to every data variable. *)
Definition ds_astype_str (ds : Dataset) : Dataset :=
  mkDataset
    (map_imap (λ name da,
       Some (if decide (name ∈ ds_coord_names ds) then da else astype_str da))
       (ds_variables ds))
    (ds_coord_names ds) (ds_attrs ds) (ds_chunks ds).

(** [ds.dims]: the dimensions of the variables of [ds], coordinates
    included. *)
Definition ds_dims (ds : Dataset) : gset string :=
  ⋃ ((λ da, list_to_set (da_dims da)) <$> (map_to_list (ds_variables ds)).*2).

(** The text of a set of names, as in [{'a', 'b'}].  Python lists the names
    of a set in the order of their hashes; here they come in the order of
    [elements]. *)
Definition set_repr (names : gset string) : string :=
  "{" +:+ String.concat ", " ((λ name, "'" +:+ name +:+ "'") <$> elements names)
      +:+ "}".

(** [ds.chunk(sizes)]: the chunk size of each named dimension.  xarray
    raises when a name of [sizes] is not a dimension of the dataset. *)
Definition chunk (ds : Dataset) (sizes : gmap string Z) : result Dataset :=
  let bad_dims := dom sizes ∖ ds_dims ds in
  if decide (bad_dims ≠ ∅) then
    Raise (ValueError ("some chunks keys are not dimensions on this object: "
                       +:+ set_repr bad_dims))
  else
    Ok (mkDataset (ds_variables ds) (ds_coord_names ds) (ds_attrs ds)
                  (sizes ∪ ds_chunks ds)).

(** ** Effects: a world, a log of the calls made, and exceptions

    A computation takes the world it runs in and gives its outcome, the
    world it leaves behind and the calls it made, in order.  A raised
    exception stops the computation; what was done before it stays done. *)

Inductive concat_dim_arg :=
| CDname (dim : string)
| CDnames (dims : list string).

(** The keyword arguments [perform_combination] passes to
    [xr.open_mfdataset]; [None] is an argument left at its default. *)
Record mf_kwargs := mkKwargs {
  kw_concat_dim : option concat_dim_arg;
  kw_combine : option string;
  kw_compat : option string;
  kw_data_vars : option string
}.

Global Instance concat_dim_arg_eq_dec : EqDecision concat_dim_arg.
Proof. solve_decision. Defined.
Global Instance mf_kwargs_eq_dec : EqDecision mf_kwargs.
Proof. solve_decision. Defined.

Inductive Event :=
| EvPrint (msg : string)
| EvOpenDataset (path : string) (group : option string) (engine : string)
| EvOpenMfdataset (paths : list string) (group : string) (kw : mf_kwargs)
                  (engine : string)
| EvSaveFile (ds : Dataset) (path : string) (mode : string) (engine : string)
             (group : option string).

Global Instance Event_eq_dec : EqDecision Event.
Proof. solve_decision. Defined.

Definition M (W A : Type) : Type := W → result A * W * list Event.

Definition ret {W A} (a : A) : M W A := λ w, (Ok a, w, []).

Definition raise {W A} (e : exn) : M W A := λ w, (Raise e, w, []).

Definition bind {W A B} (c : M W A) (k : A → M W B) : M W B :=
  λ w,
    match c w with
    | (Ok a, w1, l1) =>
        match k a w1 with
        | (r, w2, l2) => (r, w2, l1 ++ l2)
        end
    | (Raise e, w1, l1) => (Raise e, w1, l1)
    end.

Definition lift {W A} (r : result A) : M W A := λ w, (r, w, []).

Definition emit {W} (ev : Event) : M W unit := λ w, (Ok tt, w, [ev]).

Declare Scope py_scope.
Delimit Scope py_scope with py.
Notation "x <- c ;; k" := (bind c (λ x, k))
  (at level 100, c at next level, right associativity) : py_scope.
Notation "c1 ;;; c2" := (bind c1 (λ _, c2))
  (at level 100, right associativity) : py_scope.

(** The calls that leave the repository's code: xarray, the save helper of
    [echopype.utils.io], and the clock. *)
Class Library (W : Type) := {
  xr_open_dataset : string → option string → string → W → result Dataset * W;
  xr_open_mfdataset :
    list string → string → mf_kwargs → string → W → result Dataset * W;
  io_save_file :
    Dataset → string → string → string → option string → W → result unit * W;
  datetime_now : W → datetime * W;
  datetime_utcnow : W → datetime * W
}.

Section Calls.
Context {W : Type} `{Library W}.

Definition print (msg : string) : M W unit := emit (EvPrint msg).

Definition open_dataset (path : string) (group : option string)
    (engine : string) : M W Dataset :=
  λ w, let '(r, w') := xr_open_dataset path group engine w in
       (r, w', [EvOpenDataset path group engine]).

Definition open_mfdataset (paths : list string) (group : string)
    (kw : mf_kwargs) (engine : string) : M W Dataset :=
  λ w, let '(r, w') := xr_open_mfdataset paths group kw engine w in
       (r, w', [EvOpenMfdataset paths group kw engine]).

Definition save_file (ds : Dataset) (path mode engine : string)
    (group : option string) : M W unit :=
  λ w, let '(r, w') := io_save_file ds path mode engine group w in
       (r, w', [EvSaveFile ds path mode engine group]).

Definition now : M W datetime :=
  λ w, let '(t, w') := datetime_now w in (Ok t, w', []).

Definition utcnow : M W datetime :=
  λ w, let '(t, w') := datetime_utcnow w in (Ok t, w', []).
End Calls.

(** ** convert_combine.py *)

Definition DEFAULT_CHUNK_SIZE : gmap string Z :=
  {[ "range_bin" := 25000; "ping_time" := 2500 ]}.

(** [d[key]] on a dictionary of numbers. *)
Definition dict_getitem (d : gmap string Z) (key : string) : result Z :=
  match d !! key with
  | Some v => Ok v
  | None => Raise (KeyError key)
  end.

(** [paths[0]] *)
Definition first_path (paths : list string) : result string :=
  match paths with
  | p :: _ => Ok p
  | [] => Raise (IndexError "list index out of range")
  end.

Section Combine.
Context {W : Type} `{Library W}.
(** [get_versions()['version']] of the package's [_version] module. *)
Variable ECHOPYPE_VERSION : string.

Local Open Scope py_scope.

Definition assemble_combined_provenance (input_paths : list string)
    : M W Dataset :=
  t <- utcnow ;;
  let prov_dict : gmap string attr :=
    {[ "conversion_software_name" := AStr "echopype";
       "conversion_software_version" := AStr ECHOPYPE_VERSION;
       "conversion_time" := AStr (isoformat_seconds t +:+ "Z");
       "src_filenames" := AList input_paths ]} in
  let ds := empty_dataset in
  ret (assign_attrs ds prov_dict).

(** The local function of [perform_combination]; [ds] is changed in place,
    so the changed dataset is returned. *)
Definition coerce_type (sonar_model : string) (ds : Dataset)
    (group : string) : result Dataset :=
  if decide (group = "Beam") then
    if decide (sonar_model = "EK80") then
      result_bind (ds_getitem ds "transceiver_software_version") (λ v,
      let ds := ds_setitem ds "transceiver_software_version" (astype_U 10 v) in
      result_bind (ds_getitem ds "channel_id") (λ c,
      Ok (ds_setitem ds "channel_id" (astype_U 50 c))))
    else if decide (sonar_model = "EK60") then
      result_bind (ds_getitem ds "gpt_software_version") (λ v,
      let ds := ds_setitem ds "gpt_software_version" (astype_U 10 v) in
      result_bind (ds_getitem ds "channel_id") (λ c,
      Ok (ds_setitem ds "channel_id" (astype_U 50 c))))
    else Ok ds
  else Ok ds.

Definition combine_platform (sonar_model : string)
    (input_paths : list string) (output_path engine : string) : M W unit :=
  if decide (sonar_model = "AZFP") then
    ds_plat <- open_mfdataset input_paths "Platform"
                 (mkKwargs None (Some "nested") (Some "identical") None)
                 engine ;;
    save_file ds_plat output_path "a" engine (Some "Platform")
  else if decide (sonar_model ∈ ["EK80"; "EA640"]) then
    ds_plat <- open_mfdataset input_paths "Platform"
                 (mkKwargs (Some (CDnames ["location_time"; "mru_time"]))
                           None None (Some "minimal"))
                 engine ;;
    c1 <- lift (dict_getitem DEFAULT_CHUNK_SIZE "ping_time") ;;
    c2 <- lift (dict_getitem DEFAULT_CHUNK_SIZE "ping_time") ;;
    ds_plat <- lift (chunk ds_plat
                       {[ "location_time" := c1; "mru_time" := c2 ]}) ;;
    save_file ds_plat output_path "a" engine (Some "Platform")
  else if decide (sonar_model ∈ ["EK60"]) then
    ds_plat <- open_mfdataset input_paths "Platform"
                 (mkKwargs (Some (CDnames ["location_time"; "ping_time"]))
                           None None (Some "minimal"))
                 engine ;;
    c1 <- lift (dict_getitem DEFAULT_CHUNK_SIZE "ping_time") ;;
    c2 <- lift (dict_getitem DEFAULT_CHUNK_SIZE "ping_time") ;;
    ds_plat <- lift (chunk ds_plat
                       {[ "location_time" := c1; "ping_time" := c2 ]}) ;;
    save_file ds_plat output_path "a" engine (Some "Platform")
  else ret tt.

Definition combine_nmea (sonar_model : string)
    (input_paths : list string) (output_path engine : string) : M W unit :=
  if decide (sonar_model ∈ ["EK60"; "EK80"; "EA640"]) then
    ds_nmea <- open_mfdataset input_paths "Platform/NMEA"
                 (mkKwargs (Some (CDname "location_time")) None None
                           (Some "minimal"))
                 engine ;;
    c <- lift (dict_getitem DEFAULT_CHUNK_SIZE "ping_time") ;;
    ds_nmea <- lift (chunk ds_nmea {[ "location_time" := c ]}) ;;
    save_file (ds_astype_str ds_nmea) output_path "a" engine
              (Some "Platform/NMEA")
  else ret tt.

Definition perform_combination (sonar_model : string)
    (input_paths : list string) (output_path engine : string) : M W unit :=
  t0 <- now ;;
  print (strftime_HMS t0 +:+ "  combining files...") ;;;
  (* Top-level group, from the first file *)
  p0 <- lift (first_path input_paths) ;;
  ds_top <- open_dataset p0 None engine ;;
  save_file ds_top output_path "w" engine None ;;;
  (* Sonar group, from the first file *)
  p0 <- lift (first_path input_paths) ;;
  ds_sonar <- open_dataset p0 (Some "Sonar") engine ;;
  save_file ds_sonar output_path "a" engine (Some "Sonar") ;;;
  (* Provenance group *)
  ds_prov <- assemble_combined_provenance input_paths ;;
  save_file ds_prov output_path "a" engine (Some "Provenance") ;;;
  (* Beam *)
  ds_beam <- open_mfdataset input_paths "Beam"
               (mkKwargs (Some (CDname "ping_time")) None None
                         (Some "minimal"))
               engine ;;
  ds_beam <- lift (coerce_type sonar_model ds_beam "Beam") ;;
  c_rb <- lift (dict_getitem DEFAULT_CHUNK_SIZE "range_bin") ;;
  c_pt <- lift (dict_getitem DEFAULT_CHUNK_SIZE "ping_time") ;;
  ds_beam <- lift (chunk ds_beam
                     {[ "range_bin" := c_rb; "ping_time" := c_pt ]}) ;;
  save_file ds_beam output_path "a" engine (Some "Beam") ;;;
  (* Environment group *)
  ds_env <- open_mfdataset input_paths "Environment"
              (mkKwargs (Some (CDname "ping_time")) None None
                        (Some "minimal"))
              engine ;;
  c_pt <- lift (dict_getitem DEFAULT_CHUNK_SIZE "ping_time") ;;
  ds_env <- lift (chunk ds_env {[ "ping_time" := c_pt ]}) ;;
  save_file ds_env output_path "a" engine (Some "Environment") ;;;
  (* Platform group *)
  combine_platform sonar_model input_paths output_path engine ;;;
  (* Platform/NMEA group *)
  combine_nmea sonar_model input_paths output_path engine ;;;
  (* Vendor-specific group *)
  ds_vend <- open_mfdataset input_paths "Vendor"
               (mkKwargs None (Some "nested") (Some "no_conflicts")
                         (Some "minimal"))
               engine ;;
  save_file ds_vend output_path "a" engine (Some "Vendor") ;;;
  t1 <- now ;;
  print (strftime_HMS t1 +:+ "  all files combined into " +:+ output_path).
End Combine.

(** ** Python objects of echodata.py *)

Inductive pyobj :=
| PyNone
| PyStr (s : string)
| PyList (l : list string)
| PyTuple (l : list string)
| PyInt (z : Z)
| PyDataset (ds : Dataset)
| PyFunc (name : string).

Global Instance pyobj_eq_dec : EqDecision pyobj.
Proof. solve_decision. Defined.

Definition type_name (v : pyobj) : string :=
  match v with
  | PyNone => "NoneType"
  | PyStr _ => "str"
  | PyList _ => "list"
  | PyTuple _ => "tuple"
  | PyInt _ => "int"
  | PyDataset _ => "Dataset"
  | PyFunc _ => "function"
  end.

(** [v.endswith(suffix)] *)
Definition py_endswith (v : pyobj) (suffix : string) : result bool :=
  match v with
  | PyStr s => Ok (str_endswith s suffix)
  | _ => Raise (AttributeError (type_name v) "endswith")
  end.

(** ** os.path.splitext (POSIX) *)

(** [s.rfind(c)] with the index of the first character of [s] being [i];
    [-1] when [c] does not occur. *)
Fixpoint str_rfind_from (c : ascii) (s : string) (i : Z) : Z :=
  match s with
  | EmptyString => -1
  | String a s' =>
      let r := str_rfind_from c s' (i + 1) in
      if decide (0 ≤ r) then r
      else if decide (a = c) then i else -1
  end.

Definition str_rfind (c : ascii) (s : string) : Z := str_rfind_from c s 0.

(** The loop that skips the leading dots of the file name: [true] when a
    character other than the dot is met before [dotIndex]. *)
Fixpoint non_dot_before (p : string) (filenameIndex : Z) (steps : nat) : bool :=
  match steps with
  | O => false
  | S n =>
      match String.get (Z.to_nat filenameIndex) p with
      | Some "."%char => non_dot_before p (filenameIndex + 1) n
      | _ => true
      end
  end.

Definition splitext (p : string) : string * string :=
  let sepIndex := str_rfind "/"%char p in
  let dotIndex := str_rfind "."%char p in
  if decide (sepIndex < dotIndex) then
    let filenameIndex := sepIndex + 1 in
    if non_dot_before p filenameIndex (Z.to_nat (dotIndex - filenameIndex))
    then (str_take (Z.to_nat dotIndex) p, str_drop (Z.to_nat dotIndex) p)
    else (p, "")
  else (p, "").

(** ** echodata.py *)

(** What the data pointers need from outside: the children of a directory
    and [xr.open_mfdataset] with its default arguments. *)
Class Storage (W : Type) := {
  os_listdir : string → W → result (list string) * W;
  xr_open_paths : pyobj → W → result Dataset * W
}.

Definition known_ext (name : string) : bool :=
  bool_decide ((splitext name).2 ∈ [".nc"; ".zarr"]).

(** The two writers of [_save_dataset]: [ds.to_netcdf(path, mode=mode)] and
    [ds.to_zarr(path, mode=mode)]. *)
Class DatasetWriter (W : Type) := {
  ds_to_netcdf : Dataset → string → string → W → result unit * W;
  ds_to_zarr : Dataset → string → string → W → result unit * W
}.

Module EchoDataBase.
Section Methods.
Context {W : Type} `{Storage W}.
Local Open Scope py_scope.

(** An instance is its attribute dictionary. *)
Abbreviation obj := (gmap string pyobj).

Definition setattr (self : obj) (name : string) (v : pyobj) : obj :=
  <[name := v]> self.

Definition getattr (self : obj) (name : string) : result pyobj :=
  match self !! name with
  | Some v => Ok v
  | None => Raise (AttributeError "EchoDataBase" name)
  end.

(** Modelled from the spec: [io.get_files_from_dir] of
    [echopype/utils/io.py] is not in the sources; the spec has the immediate
    children of the directory that carry a known container extension, in
    lexical order. *)
Definition get_files_from_dir (folder : string) : M W (list string) :=
  λ w, let '(r, w') := os_listdir folder w in
       (result_bind r (λ children,
          Ok (merge_sort String.le (filter (λ f, known_ext f) children))),
        w', []).

Definition open_paths (paths : pyobj) : M W Dataset :=
  λ w, let '(r, w') := xr_open_paths paths w in (r, w', []).

Definition unavailable_msg : string :=
  "Data has not been calibrated. " +:+
  "Call `Process.calibrate(EchoData)` to calibrate.".

(** The data properties: a function that ends without [return] gives
    [None]. *)
Definition Sv (self : obj) : M W pyobj :=
  v <- lift (getattr self "_Sv") ;;
  if decide (v = PyNone) then print unavailable_msg ;;; ret PyNone
  else ret v.

Definition Sv_clean (self : obj) : M W pyobj :=
  v <- lift (getattr self "_Sv_clean") ;;
  if decide (v = PyNone) then print unavailable_msg ;;; ret PyNone
  else ret v.

Definition TS (self : obj) : M W pyobj :=
  v <- lift (getattr self "_TS") ;;
  if decide (v = PyNone) then print unavailable_msg ;;; ret PyNone
  else ret v.

Definition MVBS (self : obj) : M W pyobj :=
  v <- lift (getattr self "_MVBS") ;;
  if decide (v = PyNone) then print unavailable_msg ;;; ret PyNone
  else ret v.

Definition raw (self : obj) : M W pyobj :=
  v <- lift (getattr self "_raw") ;;
  if decide (v = PyNone) then
    print "No raw backscatter data availible" ;;; ret PyNone
  else ret v.

Definition raw_path (self : obj) : result pyobj := getattr self "_raw_path".

Definition _update_file_list (self : obj) (path : pyobj)
    (file_list : string) : M W obj :=
  match path with
  | PyStr p =>
      let ext := (splitext p).2 in
      if decide (ext = "") then
        files <- get_files_from_dir p ;;
        ret (setattr self file_list (PyList files))
      else if decide (ext ∈ [".nc"; ".zarr"]) then
        ret (setattr self file_list path)
      else raise (ValueError "Unsupported file path")
  | PyList _ => ret (setattr self file_list path)
  | _ => raise (ValueError "Unsupported file path")
  end.

Definition _update_data_pointer (self : obj) (path : pyobj)
    (arr_type : string) : M W obj :=
  let attr := "_" +:+ arr_type in
  let attr_path := attr +:+ "_path" in
  if decide (path = PyNone) then
    let self := setattr self attr PyNone in
    ret (setattr self attr_path PyNone)
  else
    self <- _update_file_list self path attr_path ;;
    paths <- lift (getattr self attr_path) ;;
    ds <- open_paths paths ;;
    ret (setattr self attr (PyDataset ds)).

Definition _set_file_format (self : obj) : result obj :=
  result_bind (raw_path self) (λ p,
  result_bind (py_endswith p ".nc") (λ is_nc,
  if is_nc then Ok (setattr self "_file_format" (PyStr "netcdf"))
  else
    result_bind (raw_path self) (λ p,
    result_bind (py_endswith p ".zarr") (λ is_zarr,
    if is_zarr then Ok (setattr self "_file_format" (PyStr "zarr"))
    else Ok self)))).

Definition _set_dataset_handlers (self : obj) : result obj :=
  result_bind (getattr self "_file_format") (λ f,
  if decide (f = PyStr "netcdf") then
    Ok (setattr self "_open_dataset" (PyFunc "xr.open_dataset"))
  else
    result_bind (getattr self "_file_format") (λ f,
    if decide (f = PyStr "zarr") then
      Ok (setattr self "_open_dataset" (PyFunc "xr.open_zarr"))
    else Ok self)).

(** [_save_dataset(ds, path, mode="w", save_format='zarr')]: an argument
    that is left out is [None] here and takes its default. *)
Definition _save_dataset `{DatasetWriter W} (self : obj) (ds : Dataset)
    (path : string) (mode save_format : option string)
    : W → result unit * W :=
  let mode := default "w" mode in
  let save_format := default "zarr" save_format in
  if decide (save_format = "netcdf") then ds_to_netcdf ds path mode
  else if decide (save_format = "zarr") then ds_to_zarr ds path mode
  else λ w, (Raise (ValueError ("Unsupported save format " +:+ save_format)),
             w).

(** The setters of the data properties. *)
Definition set_Sv (self : obj) (val : pyobj) : obj := setattr self "_Sv" val.

Definition set_Sv_clean (self : obj) (val : pyobj) : obj :=
  setattr self "_Sv_clean" val.

Definition set_TS (self : obj) (val : pyobj) : obj := setattr self "_TS" val.

Definition set_MVBS (self : obj) (val : pyobj) : obj :=
  setattr self "_MVBS" val.

Definition set_raw (self : obj) (val : pyobj) : obj := setattr self "_raw" val.

(** The path properties and their setters. *)
Definition Sv_path (self : obj) : result pyobj := getattr self "_Sv_path".

Definition TS_path (self : obj) : result pyobj := getattr self "_TS_path".

Definition Sv_clean_path (self : obj) : result pyobj :=
  getattr self "_Sv_clean_path".

Definition MVBS_path (self : obj) : result pyobj := getattr self "_MVBS_path".

Definition set_raw_path (self : obj) (val : pyobj) : M W obj :=
  _update_data_pointer self val "raw".

Definition set_Sv_path (self : obj) (val : pyobj) : M W obj :=
  _update_data_pointer self val "Sv".

Definition set_TS_path (self : obj) (val : pyobj) : M W obj :=
  _update_data_pointer self val "TS".

Definition set_Sv_clean_path (self : obj) (val : pyobj) : M W obj :=
  _update_data_pointer self val "Sv_clean".

Definition set_MVBS_path (self : obj) (val : pyobj) : M W obj :=
  _update_data_pointer self val "MVBS".

(** The part of [__init__] that sets the pointers and paths, up to the
    two calls that initialise the data handlers. *)
Definition init_pointers (raw_path Sv_path Sv_clean_path TS_path MVBS_path
    : pyobj) : M W obj :=
  let self : obj := ∅ in
  let self := setattr self "_raw" PyNone in
  let self := setattr self "_Sv" PyNone in
  let self := setattr self "_Sv_clean" PyNone in
  let self := setattr self "_MVBS" PyNone in
  let self := setattr self "_TS" PyNone in
  let self := setattr self "_raw_path" PyNone in
  let self := setattr self "_Sv_path" PyNone in
  let self := setattr self "_Sv_clean_path" PyNone in
  let self := setattr self "_TS_path" PyNone in
  let self := setattr self "_MVBS_path" PyNone in
  self <- _update_data_pointer self raw_path "raw" ;;
  self <- _update_data_pointer self Sv_path "Sv" ;;
  self <- _update_data_pointer self Sv_clean_path "Sv_clean" ;;
  self <- _update_data_pointer self TS_path "TS" ;;
  self <- _update_data_pointer self MVBS_path "MVBS" ;;
  let self := setattr self "range" PyNone in
  let self := setattr self "_file_format" PyNone in
  let self := setattr self "_open_dataset" PyNone in
  ret self.

Definition __init__ (raw_path Sv_path Sv_clean_path TS_path MVBS_path
    : pyobj) : M W obj :=
  self <- init_pointers raw_path Sv_path Sv_clean_path TS_path MVBS_path ;;
  self <- lift (_set_file_format self) ;;
  lift (_set_dataset_handlers self).
End Methods.
End EchoDataBase.

(** The subclasses pass their arguments on to the base class. *)
Module EchoDataAZFP.
Definition __init__ {W} `{Storage W} := @EchoDataBase.__init__ W _.
End EchoDataAZFP.

Module EchoDataEK60.
Definition __init__ {W} `{Storage W} := @EchoDataBase.__init__ W _.
End EchoDataEK60.

Module EchoDataEK80.
Definition __init__ {W} `{Storage W} := @EchoDataBase.__init__ W _.
End EchoDataEK80.

(** ** Files: the calls into os, shutil and fsspec

    [get_combined_save_path] and [remove_indiv_files] of convert_combine.py
    and [_copy_file] of set_groups_ek80.py work on paths and files.  Their
    calls are logged like those of a combine, in a log of their own. *)

(** [isinstance(fs, LocalFileSystem)] holds of the first one only. *)
Inductive filesystem :=
| LocalFileSystem
| RemoteFileSystem (protocol : string).

(** A source path: a string, or an [FSMap] with its [fs] and its [root]. *)
Inductive path_like :=
| PathStr (p : string)
| FSMap (fs : filesystem) (root : string).

(** What [get_combined_save_path] returns: a string, or the value of
    [fs.get_mapper(save_path)]. *)
Inductive save_target :=
| SavePath (p : string)
| GetMapper (fs : filesystem) (save_path : string).

Inductive FileCall :=
| CallPrint (msg : string)
| CallExists (path : string)
| CallRemove (path : string)
| CallRmtree (path : string)
| CallCopytree (src dst : string)
| CallCopyfile (src dst : string)
| CallFsDelete (fs : filesystem) (root : string) (recursive : bool).

Global Instance filesystem_eq_dec : EqDecision filesystem.
Proof. solve_decision. Defined.
Global Instance path_like_eq_dec : EqDecision path_like.
Proof. solve_decision. Defined.
Global Instance save_target_eq_dec : EqDecision save_target.
Proof. solve_decision. Defined.
Global Instance FileCall_eq_dec : EqDecision FileCall.
Proof. solve_decision. Defined.

(** [os.path.exists], [os.remove], [shutil.rmtree], [shutil.copytree],
    [shutil.copyfile] and [fs.delete(root, recursive=...)]. *)
Class Files (W : Type) := {
  os_path_exists : string → W → bool * W;
  os_remove : string → W → result unit * W;
  shutil_rmtree : string → W → result unit * W;
  shutil_copytree : string → string → W → result unit * W;
  shutil_copyfile : string → string → W → result unit * W;
  fs_delete : filesystem → string → bool → W → result unit * W
}.

Definition F (W A : Type) : Type := W → result A * W * list FileCall.

Definition f_ret {W A} (a : A) : F W A := λ w, (Ok a, w, []).

Definition f_bind {W A B} (c : F W A) (k : A → F W B) : F W B :=
  λ w,
    match c w with
    | (Ok a, w1, l1) =>
        match k a w1 with
        | (r, w2, l2) => (r, w2, l1 ++ l2)
        end
    | (Raise e, w1, l1) => (Raise e, w1, l1)
    end.

Declare Scope file_scope.
Delimit Scope file_scope with file.
Notation "x <- c ;; k" := (f_bind c (λ x, k))
  (at level 100, c at next level, right associativity) : file_scope.
Notation "c1 ;;; c2" := (f_bind c1 (λ _, c2))
  (at level 100, right associativity) : file_scope.

Section FileCalls.
Context {W : Type} `{Files W}.

Definition call_print (msg : string) : F W unit :=
  λ w, (Ok tt, w, [CallPrint msg]).

Definition call_exists (path : string) : F W bool :=
  λ w, let '(b, w') := os_path_exists path w in (Ok b, w', [CallExists path]).

Definition call_remove (path : string) : F W unit :=
  λ w, let '(r, w') := os_remove path w in (r, w', [CallRemove path]).

Definition call_rmtree (path : string) : F W unit :=
  λ w, let '(r, w') := shutil_rmtree path w in (r, w', [CallRmtree path]).

Definition call_copytree (src dst : string) : F W unit :=
  λ w, let '(r, w') := shutil_copytree src dst w in
       (r, w', [CallCopytree src dst]).

Definition call_copyfile (src dst : string) : F W unit :=
  λ w, let '(r, w') := shutil_copyfile src dst w in
       (r, w', [CallCopyfile src dst]).

Definition call_delete (fs : filesystem) (root : string) (recursive : bool)
    : F W unit :=
  λ w, let '(r, w') := fs_delete fs root recursive w in
       (r, w', [CallFsDelete fs root recursive]).
End FileCalls.

(** ** convert_combine.py: the path of the combined file, and the removal
    of the files that were combined *)

(** [l[0]] *)
Definition list_first {A} (l : list A) : result A :=
  match l with
  | x :: _ => Ok x
  | [] => Raise (IndexError "list index out of range")
  end.

(** The local function of [get_combined_save_path]. *)
Definition get_combined_fname (path : string) : string :=
  let '(fname, ext) := splitext path in
  (fname +:+ "__combined") +:+ ext.

Definition get_combined_save_path (source_paths : list path_like)
    : result save_target :=
  result_bind (list_first source_paths) (λ sample_file,
  let save_path :=
    match sample_file with
    | FSMap _ root => get_combined_fname root
    | PathStr p => get_combined_fname p
    end in
  match sample_file with
  | FSMap fs _ =>
      if decide (fs ≠ LocalFileSystem) then Ok (GetMapper fs save_path)
      else Ok (SavePath save_path)
  | PathStr _ => Ok (SavePath save_path)
  end).

Section RemoveFiles.
Context {W : Type} `{Files W}.

Definition remove_indiv_files (path : path_like) : F W unit :=
  match path with
  | FSMap fs root => call_delete fs root true
  | PathStr p =>
      let '(fname, ext) := splitext p in
      if decide (ext = ".zarr") then call_rmtree p else call_remove p
  end.
End RemoveFiles.

(** ** set_groups_ek80.py: the copy that takes the power data *)

Module SetGroupsEK80.
Section Methods.
Context {W : Type} `{Files W}.
Local Open Scope file_scope.

Definition _copy_file (file : string) : F W string :=
  let '(fname, ext) := splitext file in
  let new_path := (fname +:+ "_cw") +:+ ext in
  exists_ <- call_exists new_path ;;
  (if exists_ : bool then
     call_print ("          overwriting: " +:+ new_path) ;;;
     if decide (ext = ".zarr") then call_rmtree new_path
     else if decide (ext = ".nc") then call_remove new_path
     else f_ret tt
   else f_ret tt) ;;;
  (if decide (ext = ".zarr") then call_copytree file new_path
   else if decide (ext = ".nc") then call_copyfile file new_path
   else f_ret tt) ;;;
  f_ret new_path.
End Methods.
End SetGroupsEK80.

(** ** The combine policies and the save helper, as the spec has them

    xarray and [echopype/utils/io.py] are not in the sources.  This instance
    of the interface follows the spec's combine policies; it is the one used
    where a statement depends on what the merge of groups gives, and for the
    concrete runs. *)

Module SpecLibrary.

(** A container on disk: its groups by name, the root group under "/". *)
Abbreviation Container := (gmap string Dataset).

Record World := mkWorld {
  files : gmap string Container;
  clock : datetime
}.

Global Instance World_eq_dec : EqDecision World.
Proof. solve_decision. Defined.

Definition group_key (group : option string) : string := default "/" group.

Definition read_group (w : World) (path : string) (group : option string)
    : result Dataset :=
  match files w !! path with
  | None => Raise (OSError path)
  | Some c =>
      match c !! group_key group with
      | Some ds => Ok ds
      | None => Raise (OSError (group_key group))
      end
  end.

Fixpoint read_groups (w : World) (paths : list string) (group : string)
    : result (list Dataset) :=
  match paths with
  | [] => Ok []
  | p :: ps =>
      result_bind (read_group w p (Some group)) (λ ds,
      result_bind (read_groups w ps group) (λ dss, Ok (ds :: dss)))
  end.

(** Modelled from the spec: the merge of [xr.open_mfdataset] under
    [combine='nested', compat='identical'] is xarray code and not in the
    sources; the spec has it as MergeIdenticalRequired, "union variables
    across containers; values for overlapping keys must be bit-identical or
    the combine fails".  The keys are the names of the variables and of the
    group's attributes. *)
Definition merge_identical (a b : Dataset) : result Dataset :=
  if decide (map_agree (ds_variables a) (ds_variables b)) then
    if decide (map_agree (ds_attrs a) (ds_attrs b)) then
      Ok (mkDataset (ds_variables a ∪ ds_variables b)
                    (ds_coord_names a ∪ ds_coord_names b)
                    (ds_attrs a ∪ ds_attrs b)
                    (ds_chunks a ∪ ds_chunks b))
    else Raise (ConflictingMetadata "attribute")
  else Raise (ConflictingMetadata "variable").

(** Modelled from the spec: the merge of [xr.open_mfdataset] under
    [compat='no_conflicts'] is xarray code and not in the sources; the spec
    has it as MergeNoConflict, "union variables across containers;
    overlapping keys must agree where both are defined".  The values of a
    variable are compared, its attributes are those of the first container
    that has it. *)
Definition merge_no_conflicts (a b : Dataset) : result Dataset :=
  if decide (map_agree (da_values <$> ds_variables a)
                       (da_values <$> ds_variables b)) then
    Ok (mkDataset (ds_variables a ∪ ds_variables b)
                  (ds_coord_names a ∪ ds_coord_names b)
                  (ds_attrs a)
                  (ds_chunks a ∪ ds_chunks b))
  else Raise (ConflictingMetadata "variable").

Fixpoint merge_from (merge : Dataset → Dataset → result Dataset)
    (acc : Dataset) (rest : list Dataset) : result Dataset :=
  match rest with
  | [] => Ok acc
  | g :: gs => result_bind (merge acc g) (λ acc', merge_from merge acc' gs)
  end.

Definition merge_all (merge : Dataset → Dataset → result Dataset)
    (groups : list Dataset) : result Dataset :=
  match groups with
  | [] => Raise (OSError "no files to open")
  | g :: gs => merge_from merge g gs
  end.

(** Modelled from the spec: the concatenation of [xr.open_mfdataset] under
    [concat_dim=..., data_vars='minimal'] is xarray code and not in the
    sources; the spec has it as ConcatOrdered, "variables that are identical
    across all containers are stored once, varying ones are concatenated",
    in the order of the containers. *)
Definition concat_ordered (groups : list Dataset) : result Dataset :=
  match groups with
  | [] => Raise (OSError "no files to open")
  | g :: gs =>
      Ok (mkDataset
            (map_imap (λ name da,
               if decide (Forall (λ g', ds_variables g' !! name = Some da) gs)
               then Some da
               else Some (mkDataArray (da_dims da) (da_dtype da)
                            (da_values da ++
                             concat (omap (λ g', da_values <$>
                                                 ds_variables g' !! name) gs))
                            (da_attrs da)))
               (ds_variables g))
            (ds_coord_names g) (ds_attrs g) (ds_chunks g))
  end.

Definition combine_groups (kw : mf_kwargs) (groups : list Dataset)
    : result Dataset :=
  match kw_concat_dim kw with
  | Some _ => concat_ordered groups
  | None =>
      if decide (kw_compat kw = Some "identical")
      then merge_all merge_identical groups
      else merge_all merge_no_conflicts groups
  end.

(** Modelled from the spec: [io.save_file] of [echopype/utils/io.py] is not
    in the sources; the spec has "create on first group, append thereafter",
    and a container format other than the two known ones is rejected. *)
Definition write_group (ds : Dataset) (path mode engine : string)
    (group : option string) (w : World) : result unit * World :=
  if decide (engine ∈ ["netcdf4"; "zarr"]) then
    let old : Container :=
      if decide (mode = "w") then ∅ else default ∅ (files w !! path) in
    (Ok tt,
     mkWorld (<[path := <[group_key group := ds]> old]> (files w)) (clock w))
  else (Raise (ValueError (engine +:+ " is not a supported save format")), w).

Global Instance library : Library World := {|
  xr_open_dataset path group engine w := (read_group w path group, w);
  xr_open_mfdataset paths group kw engine w :=
    (result_bind (read_groups w paths group) (combine_groups kw), w);
  io_save_file := write_group;
  datetime_now w := (clock w, w);
  datetime_utcnow w := (clock w, w)
|}.

End SpecLibrary.

(** The group of that name in a container on disk, and a variable of it. *)
Definition written_group (w : SpecLibrary.World) (path group : string)
    : option Dataset :=
  out ← SpecLibrary.files w !! path; out !! group.

Definition written_variable (w : SpecLibrary.World) (path group name : string)
    : option DataArray :=
  ds ← written_group w path group; ds_variables ds !! name.

(** ** Sample inputs for the concrete runs *)

Module Sample.
Import SpecLibrary.

Definition text_var (dim : string) (vals : list string) : DataArray :=
  mkDataArray [dim] DT_object (SStr <$> vals) ∅.

Definition time_var (dim : string) (vals : list Z) : DataArray :=
  mkDataArray [dim] DT_float64 (SInt <$> vals)
              {[ "units" := AStr "seconds since 1900-01-01" ]}.

Definition long_channel_id : string :=
  "GPT  38 kHz 009072058c8d 1-1 ES38B with a very long transducer label".

Definition beam (version_name : string) (pings : list Z) : Dataset :=
  mkDataset
    {[ "ping_time" := time_var "ping_time" pings;
       "backscatter_r" :=
         mkDataArray ["frequency"; "ping_time"; "range_bin"] DT_float64
                     ((λ _, SInt (-70)) <$> pings) ∅;
       version_name := text_var "frequency" ["070413 build 2"];
       "channel_id" := text_var "frequency" [long_channel_id] ]}
    {[ "ping_time" ]} ∅ ∅.

Definition environment (pings : list Z) : Dataset :=
  mkDataset {[ "ping_time" := time_var "ping_time" pings ]}
            {[ "ping_time" ]} ∅ ∅.

(** The Platform group of a mooring: it has no time axis. *)
Definition platform (name : string) : Dataset :=
  mkDataset ∅ ∅ {[ "platform_name" := AStr name ]} ∅.

(** The Platform group of a ship: a coordinate for each of its time axes. *)
Definition vessel_platform (name : string) (time_dims : list string)
    (times : list Z) : Dataset :=
  mkDataset (list_to_map ((λ dim, (dim, time_var dim times)) <$> time_dims))
            (list_to_set time_dims) {[ "platform_name" := AStr name ]} ∅.

(** The time axes of the Platform group of a converted file: those of the
    position and of the pings for EK60, those of the position and of the
    motion sensor for EK80 and EA640. *)
Definition platform_time_dims (sonar_model : string) : list string :=
  if decide (sonar_model = "EK60") then ["location_time"; "ping_time"]
  else if decide (sonar_model ∈ ["EK80"; "EA640"]) then
    ["location_time"; "mru_time"]
  else [].

Definition nmea (times : list Z) : Dataset :=
  mkDataset
    {[ "location_time" := time_var "location_time" times;
       "NMEA_datagram" := text_var "location_time" ((λ _, "$GPGGA") <$> times) ]}
    {[ "location_time" ]} ∅ ∅.

Definition vendor : Dataset :=
  mkDataset {[ "gain" := mkDataArray ["frequency"] DT_int64 [SInt 26] ∅ ]}
            ∅ ∅ ∅.

Definition container_of (sonar_model version_name : string)
    (ds_plat : Dataset) (pings : list Z) : Container :=
  {[ "/" := mkDataset ∅ ∅ {[ "keywords" := AStr sonar_model ]} ∅;
     "Sonar" := mkDataset ∅ ∅ {[ "sonar_model" := AStr sonar_model ]} ∅;
     "Beam" := beam version_name pings;
     "Environment" := environment pings;
     "Platform" := ds_plat;
     "Platform/NMEA" := nmea pings;
     "Vendor" := vendor ]}.

Definition container (sonar_model version_name platform_name : string)
    (pings : list Z) : Container :=
  container_of sonar_model version_name
    (vessel_platform platform_name (platform_time_dims sonar_model) pings)
    pings.

Definition noon : datetime := mkDatetime 2020 11 4 12 0 7 123456.

Definition world (sonar_model version_name : string)
    (platform1 platform2 : string) : World :=
  mkWorld
    {[ "leg1.nc" := container sonar_model version_name platform1 [100; 101];
       "leg2.nc" := container sonar_model version_name platform2 [200; 201; 202] ]}
    noon.

Definition ek60_world : World :=
  world "EK60" "gpt_software_version" "ship" "ship".
Definition ek80_world : World :=
  world "EK80" "transceiver_software_version" "ship" "ship".
Definition azfp_world : World :=
  world "AZFP" "firmware" "mooring" "mooring".
Definition azfp_conflict_world : World :=
  world "AZFP" "firmware" "mooring A" "mooring B".


Definition inputs : list string := ["leg1.nc"; "leg2.nc"].
End Sample.

(** ** A sample store and sample objects for the data pointers *)

Module SampleStorage.
Record World := mkWorld {
  dirs : gmap string (list string);
  stored : gset string
}.

Global Instance Store_eq_dec : EqDecision World.
Proof. solve_decision. Defined.

Definition open_sample (w : World) (paths : pyobj) : result Dataset :=
  match paths with
  | PyStr p =>
      if decide (p ∈ stored w) then Ok empty_dataset else Raise (OSError p)
  | PyList [] => Raise (OSError "no files to open")
  | PyList l =>
      if decide (Forall (λ p, p ∈ stored w) l) then Ok empty_dataset
      else Raise (OSError "no such file")
  | _ => Raise (ValueError "not a path")
  end.

Global Instance storage : Storage World := {|
  os_listdir folder w :=
    (match dirs w !! folder with
     | Some children => Ok children
     | None => Raise (OSError folder)
     end, w);
  xr_open_paths paths w := (open_sample w paths, w)
|}.

Definition world : World :=
  mkWorld {[ "survey" := ["c.nc"; "a.zarr"; "notes.txt"; "b.zarr"] ]}
          {[ "leg1.nc"; "a.zarr"; "b.zarr"; "c.nc" ]}.
End SampleStorage.

(** The object [EchoDataBase("leg1.nc")] on the sample store. *)
Definition sample_object : gmap string pyobj :=
  {[ "_raw" := PyDataset empty_dataset;
     "_Sv" := PyNone; "_Sv_clean" := PyNone; "_MVBS" := PyNone;
     "_TS" := PyNone;
     "_raw_path" := PyStr "leg1.nc";
     "_Sv_path" := PyNone; "_Sv_clean_path" := PyNone; "_TS_path" := PyNone;
     "_MVBS_path" := PyNone;
     "range" := PyNone;
     "_file_format" := PyStr "netcdf";
     "_open_dataset" := PyFunc "xr.open_dataset" ]}.

(** The object after the pointer assignments of [EchoDataBase()]. *)
Definition default_pointers : gmap string pyobj :=
  {[ "_raw" := PyNone;
     "_Sv" := PyNone; "_Sv_clean" := PyNone; "_MVBS" := PyNone;
     "_TS" := PyNone;
     "_raw_path" := PyNone;
     "_Sv_path" := PyNone; "_Sv_clean_path" := PyNone; "_TS_path" := PyNone;
     "_MVBS_path" := PyNone;
     "range" := PyNone;
     "_file_format" := PyNone;
     "_open_dataset" := PyNone ]}.

(** * The vocabulary of the statements *)

(** ** Text *)

(** [c in s] *)
Fixpoint str_has (c : ascii) (s : string) : bool :=
  match s with
  | EmptyString => false
  | String a s' => if decide (a = c) then true else str_has c s'
  end.

(** Reading a run of decimal digits back as a number. *)
Fixpoint parse_digits (acc : Z) (s : string) : option Z :=
  match s with
  | EmptyString => Some acc
  | String c s' =>
      match Ascii.is_nat c with
      | Some d => parse_digits (10 * acc + Z.of_nat d) s'
      | None => None
      end
  end.

(** ** Provenance *)

Definition provenance_keys : gset string :=
  {[ "conversion_software_name"; "conversion_software_version";
     "conversion_time"; "src_filenames" ]}.

(** ** The calls of a combine *)

(** What a logged call is about: the group it reads or writes, and for a
    write the mode. *)
Inductive Tag :=
| TPrint
| TOpen (group : option string)
| TOpenMf (group : string)
| TSave (group : option string) (mode : string).

Global Instance Tag_eq_dec : EqDecision Tag.
Proof. solve_decision. Defined.

Definition tag (ev : Event) : Tag :=
  match ev with
  | EvPrint _ => TPrint
  | EvOpenDataset _ group _ => TOpen group
  | EvOpenMfdataset _ group _ _ => TOpenMf group
  | EvSaveFile _ _ mode _ group => TSave group mode
  end.

Definition tag_writes (ts : list Tag) : list (option string * string) :=
  omap (λ t, match t with TSave group mode => Some (group, mode) | _ => None end)
       ts.

(** The groups written, with the mode of each write. *)
Definition writes (log : list Event) : list (option string * string) :=
  tag_writes (tag <$> log).

Definition has_platform (sonar_model : string) : bool :=
  bool_decide (sonar_model ∈ ["AZFP"; "EK80"; "EA640"; "EK60"]).

Definition has_nmea (sonar_model : string) : bool :=
  bool_decide (sonar_model ∈ ["EK60"; "EK80"; "EA640"]).

(** The order of the groups as the source has it. *)
Definition combine_tags (sonar_model : string) : list Tag :=
  [ TPrint;
    TOpen None; TSave None "w";
    TOpen (Some "Sonar"); TSave (Some "Sonar") "a";
    TSave (Some "Provenance") "a";
    TOpenMf "Beam"; TSave (Some "Beam") "a";
    TOpenMf "Environment"; TSave (Some "Environment") "a" ] ++
  (if has_platform sonar_model
   then [TOpenMf "Platform"; TSave (Some "Platform") "a"] else []) ++
  (if has_nmea sonar_model
   then [TOpenMf "Platform/NMEA"; TSave (Some "Platform/NMEA") "a"] else []) ++
  [ TOpenMf "Vendor"; TSave (Some "Vendor") "a"; TPrint ].

Definition combine_writes (sonar_model : string)
    : list (option string * string) :=
  [ (None, "w"); (Some "Sonar", "a"); (Some "Provenance", "a");
    (Some "Beam", "a"); (Some "Environment", "a") ] ++
  (if has_platform sonar_model then [(Some "Platform", "a")] else []) ++
  (if has_nmea sonar_model then [(Some "Platform/NMEA", "a")] else []) ++
  [ (Some "Vendor", "a") ].

(** The order of the groups as the spec words it: Environment before Beam. *)
Definition spec_writes (sonar_model : string)
    : list (option string * string) :=
  [ (None, "w"); (Some "Sonar", "a"); (Some "Provenance", "a");
    (Some "Environment", "a"); (Some "Beam", "a"); (Some "Platform", "a") ] ++
  (if has_nmea sonar_model then [(Some "Platform/NMEA", "a")] else []) ++
  [ (Some "Vendor", "a") ].

Definition tag_group (t : Tag) : option string :=
  match t with
  | TPrint => None
  | TOpen group => group
  | TOpenMf group => Some group
  | TSave group _ => group
  end.

(** The group a call reads or writes. *)
Definition ev_group (ev : Event) : option string := tag_group (tag ev).

(** The calls of a combine that has no Platform and no Platform/NMEA step. *)
Definition tags_without_platform : list Tag :=
  [ TPrint;
    TOpen None; TSave None "w";
    TOpen (Some "Sonar"); TSave (Some "Sonar") "a";
    TSave (Some "Provenance") "a";
    TOpenMf "Beam"; TSave (Some "Beam") "a";
    TOpenMf "Environment"; TSave (Some "Environment") "a";
    TOpenMf "Vendor"; TSave (Some "Vendor") "a"; TPrint ].

Section LogPredicates.
Context {W : Type}.

(** The calls of [c] are those of [ts], in that order; when [c] raises,
    the calls made so far are the first ones of [ts]. *)
Definition follows {A} (c : M W A) (ts : list Tag) : Prop :=
  ∀ w, match c w with
       | (Ok _, _, l) => tag <$> l = ts
       | (Raise _, _, l) => tag <$> l `prefix_of` ts
       end.

(** The calls of [c] are those of [front] and then [final]; when [c]
    raises, the calls made so far are among the first ones of [front]. *)
Definition stops_short {A} (c : M W A) (front : list Tag) (final : Tag)
    : Prop :=
  ∀ w, match c w with
       | (Ok _, _, l) => tag <$> l = front ++ [final]
       | (Raise _, _, l) => tag <$> l `prefix_of` front
       end.

(** Every call of [c] satisfies [P]. *)
Definition log_all {A} (P : Event → Prop) (c : M W A) : Prop :=
  ∀ w, Forall P (c w).2.

Context `{Library W}.

(** The call [ev] can raise [e]: in some world the library answers it so. *)
Definition call_raises (ev : Event) (e : exn) : Prop :=
  match ev with
  | EvPrint _ => False
  | EvOpenDataset path group engine =>
      ∃ w0 w1 : W, xr_open_dataset path group engine w0 = (Raise e, w1)
  | EvOpenMfdataset paths group kw engine =>
      ∃ w0 w1 : W, xr_open_mfdataset paths group kw engine w0 = (Raise e, w1)
  | EvSaveFile ds path mode engine group =>
      ∃ w0 w1 : W, io_save_file ds path mode engine group w0 = (Raise e, w1)
  end.

End LogPredicates.

(** ** Chunk sizes and text fields *)

(** The chunk sizes of the dataset a write is given, as the source has them. *)
Definition chunk_rule (sonar_model : string) (ev : Event) : Prop :=
  match ev with
  | EvSaveFile ds _ _ _ group =>
      (group = Some "Beam" →
         ds_chunks ds !! "range_bin" = Some 25000 ∧
         ds_chunks ds !! "ping_time" = Some 2500) ∧
      (group = Some "Environment" →
         ds_chunks ds !! "ping_time" = Some 2500) ∧
      (group = Some "Platform" → sonar_model ∈ ["EK80"; "EA640"] →
         ds_chunks ds !! "location_time" = Some 2500 ∧
         ds_chunks ds !! "mru_time" = Some 2500) ∧
      (group = Some "Platform" → sonar_model = "EK60" →
         ds_chunks ds !! "location_time" = Some 2500 ∧
         ds_chunks ds !! "ping_time" = Some 2500) ∧
      (group = Some "Platform/NMEA" →
         ds_chunks ds !! "location_time" = Some 2500)
  | _ => True
  end.

(** The chunk size of a dimension of a group as the spec words the table:
    [range_bin] 25000, [ping_time] 2500 for the Environment group and 100
    for the Beam and Platform groups, [location_time] and [mru_time] 100. *)
Definition spec_chunk_size (group : option string) (dim : string) : option Z :=
  if decide (dim = "range_bin") then Some 25000
  else if decide (dim = "ping_time") then
    if decide (group = Some "Environment") then Some 2500
    else if decide (group ∈ [Some "Beam"; Some "Platform"]) then Some 100
    else None
  else if decide (dim ∈ ["location_time"; "mru_time"]) then Some 100
  else None.

(** Every chunk size the dataset of a write carries is the one of that
    table. *)
Definition spec_chunk_rule (ev : Event) : Prop :=
  match ev with
  | EvSaveFile ds _ _ _ group =>
      map_Forall (λ dim size, spec_chunk_size group dim = Some size)
                 (ds_chunks ds)
  | _ => True
  end.

Global Instance spec_chunk_rule_dec ev : Decision (spec_chunk_rule ev).
Proof. destruct ev; apply _. Defined.

(** A text variable of a fixed width: its type says so and no value is
    longer. *)
Definition fixed_width (width : nat) (da : DataArray) : Prop :=
  da_dtype da = DT_U width ∧
  Forall (λ v, ∃ s, v = SStr s ∧ (String.length s ≤ width)%nat) (da_values da).

(** The dataset a write of the Beam group is given. *)
Definition beam_rule (sonar_model : string) (ev : Event) : Prop :=
  match ev with
  | EvSaveFile ds _ _ _ group =>
      group = Some "Beam" →
      ∃ ds_beam ds_coerced,
        coerce_type sonar_model ds_beam "Beam" = Ok ds_coerced ∧
        chunk ds_coerced {[ "range_bin" := 25000; "ping_time" := 2500 ]}
        = Ok ds
  | _ => True
  end.

(** ** Groups that conflict, and resolved paths *)

(** Two groups give different values to a variable or to an attribute they
    both have. *)
Definition conflicts (a b : Dataset) : Prop :=
  (∃ name x y, ds_variables a !! name = Some x ∧
               ds_variables b !! name = Some y ∧ x ≠ y) ∨
  (∃ name x y, ds_attrs a !! name = Some x ∧
               ds_attrs b !! name = Some y ∧ x ≠ y).

(** Everything [g] has, [acc] has with the same value. *)
Definition covers (acc g : Dataset) : Prop :=
  ds_variables g ⊆ ds_variables acc ∧ ds_attrs g ⊆ ds_attrs acc.

(** The keyword arguments of the AZFP Platform step. *)
Definition azfp_platform_kwargs : mf_kwargs :=
  mkKwargs None (Some "nested") (Some "identical") None.

(** What a path specification other than [None] is resolved to. *)
Definition resolved (path v : pyobj) : Prop :=
  (∃ l, path = PyList l ∧ v = PyList l) ∨
  (∃ p, path = PyStr p ∧ (splitext p).2 ∈ [".nc"; ".zarr"] ∧ v = PyStr p) ∨
  (∃ p files, path = PyStr p ∧ (splitext p).2 = "" ∧ v = PyList files).

(** ** Paths and file calls *)

(** The path a returned target stands for, and the path of a source. *)
Definition target_path (t : save_target) : string :=
  match t with
  | SavePath p => p
  | GetMapper _ save_path => save_path
  end.

Definition path_root (p : path_like) : string :=
  match p with
  | PathStr s => s
  | FSMap _ root => root
  end.

(** The path a call removes, and whether it removes a whole tree. *)
Definition removed_path (c : FileCall) : option string :=
  match c with
  | CallRemove p | CallRmtree p | CallFsDelete _ p _ => Some p
  | _ => None
  end.

Definition removes_tree (c : FileCall) : bool :=
  match c with
  | CallRmtree _ | CallFsDelete _ _ true => true
  | _ => false
  end.

(** What a call of [_copy_file] may be: a look at, a removal of, or a copy
    of [file] to, the new path, and nothing else. *)
Definition copy_rule (file new_path : string) (c : FileCall) : Prop :=
  match c with
  | CallPrint _ => True
  | CallExists p | CallRemove p | CallRmtree p => p = new_path
  | CallCopytree src dst | CallCopyfile src dst => src = file ∧ dst = new_path
  | CallFsDelete _ _ _ => False
  end.

(** The calls of [_copy_file] on a file with extension [ext], when the new
    path did or did not exist. *)
Definition copy_calls (file new_path ext : string) (existed : bool)
    : list FileCall :=
  [CallExists new_path] ++
  (if existed then
     CallPrint ("          overwriting: " +:+ new_path) ::
     (if decide (ext = ".zarr") then [CallRmtree new_path]
      else if decide (ext = ".nc") then [CallRemove new_path] else [])
   else []) ++
  (if decide (ext = ".zarr") then [CallCopytree file new_path]
   else if decide (ext = ".nc") then [CallCopyfile file new_path] else []).

(** ** The data pointers of an EchoData object *)

Section PointerState.
Context {W : Type} `{Storage W}.

(** What an assignment of [path] to the path property of [arr_type] leaves
    in the object: nothing for [None]; otherwise the resolved path, and the
    dataset that [xr.open_mfdataset] gave for it. *)
Definition pointer_state (path : pyobj) (self : gmap string pyobj)
    (arr_type : string) : Prop :=
  let attr := "_" +:+ arr_type in
  (path = PyNone ∧ self !! attr = Some PyNone ∧
   self !! (attr +:+ "_path") = Some PyNone) ∨
  (path ≠ PyNone ∧
   ∃ v ds, resolved path v ∧ self !! (attr +:+ "_path") = Some v ∧
           self !! attr = Some (PyDataset ds) ∧
           ∃ w0 w1 : W, xr_open_paths v w0 = (Ok ds, w1)).

(** What the two properties of a data type read after [path] has been
    assigned to the path property: for [None], [None] and the message [msg];
    otherwise the resolved path and, with no message, the dataset opened
    from it. *)
Definition reads_pointer (getter : M W pyobj) (path_getter : result pyobj)
    (msg : string) (path : pyobj) : Prop :=
  (path = PyNone ∧ path_getter = Ok PyNone ∧
   ∀ w, getter w = (Ok PyNone, w, [EvPrint msg])) ∨
  (path ≠ PyNone ∧
   ∃ v ds, resolved path v ∧ path_getter = Ok v ∧
           (∀ w, getter w = (Ok (PyDataset ds), w, [])) ∧
           ∃ w0 w1 : W, xr_open_paths v w0 = (Ok ds, w1)).
End PointerState.

(** The attributes of [self'] are those of [self], but for the ones
    named. *)
Definition unchanged_but (names : list string) (self self' : gmap string pyobj)
    : Prop :=
  ∀ name, name ∉ names → self' !! name = self !! name.

(** ** Where the calls of a combine go, and where its exceptions come from *)

(** Every read is of the input paths, every write is to the output path,
    and all of them use the engine of the caller; the two single-file reads
    take the first input path. *)
Definition target_rule (input_paths : list string)
    (output_path engine : string) (ev : Event) : Prop :=
  match ev with
  | EvPrint _ => True
  | EvOpenDataset path _ eng => head input_paths = Some path ∧ eng = engine
  | EvOpenMfdataset paths _ _ eng => paths = input_paths ∧ eng = engine
  | EvSaveFile _ path _ eng _ => path = output_path ∧ eng = engine
  end.

(** The paths a call reads, and the path it writes. *)
Definition paths_read (ev : Event) : list string :=
  match ev with
  | EvOpenDataset path _ _ => [path]
  | EvOpenMfdataset paths _ _ _ => paths
  | _ => []
  end.

Definition path_written (ev : Event) : option string :=
  match ev with
  | EvSaveFile _ path _ _ _ => Some path
  | _ => None
  end.

(** The Provenance group a write is given: no variables, no chunks, and
    the four attributes, the time being that of some reading of the clock. *)
Definition provenance_rule (version : string) (input_paths : list string)
    (ev : Event) : Prop :=
  match ev with
  | EvSaveFile ds _ _ _ group =>
      group = Some "Provenance" →
      ∃ t, ds = mkDataset ∅ ∅
                  {[ "conversion_software_name" := AStr "echopype";
                     "conversion_software_version" := AStr version;
                     "conversion_time" := AStr (isoformat_seconds t +:+ "Z");
                     "src_filenames" := AList input_paths ]} ∅
  | _ => True
  end.

(** The text fields of the Beam group [coerce_type] looks up for a model. *)
Definition beam_text_fields (sonar_model : string) : list string :=
  if decide (sonar_model = "EK80") then
    ["transceiver_software_version"; "channel_id"]
  else if decide (sonar_model = "EK60") then
    ["gpt_software_version"; "channel_id"]
  else [].

(** ** A sample writer and a sample file system *)

(** A sample writer: what was written last at each path, with its format
    and mode. *)
Module SampleWriter.
Abbreviation World := (gmap string (string * string * Dataset)).

Global Instance writer : DatasetWriter World := {|
  ds_to_netcdf ds path mode w := (Ok tt, <[path := ("netcdf", mode, ds)]> w);
  ds_to_zarr ds path mode w := (Ok tt, <[path := ("zarr", mode, ds)]> w)
|}.
End SampleWriter.

(** A sample file system: what is at each path, a file or a directory
    tree. *)
Module SampleFiles.
Inductive node := File | Dir.

Global Instance node_eq_dec : EqDecision node.
Proof. solve_decision. Defined.

Abbreviation World := (gmap string node).

Definition remove_node (kind : node) (path : string) (w : World)
    : result unit * World :=
  if decide (w !! path = Some kind) then (Ok tt, delete path w)
  else (Raise (OSError path), w).

Definition copy_node (kind : node) (src dst : string) (w : World)
    : result unit * World :=
  if decide (w !! src = Some kind) then
    if decide (kind = Dir ∧ is_Some (w !! dst)) then (Raise (OSError dst), w)
    else (Ok tt, <[dst := kind]> w)
  else (Raise (OSError src), w).

Global Instance files : Files World := {|
  os_path_exists path w := (bool_decide (is_Some (w !! path)), w);
  os_remove := remove_node File;
  shutil_rmtree := remove_node Dir;
  shutil_copytree := copy_node Dir;
  shutil_copyfile := copy_node File;
  fs_delete fs root recursive w := (Ok tt, delete root w)
|}.

Definition world : World :=
  {[ "leg1.nc" := File; "data/leg2.zarr" := Dir; "data/leg2_cw.zarr" := Dir ]}.
End SampleFiles.

(** ** What a combine writes, against what it read *)

Section HandsOn.
Context {W : Type} `{Library W}.

(** The read [ev] returned [ds], in some world. *)
Definition returned (ev : Event) (ds : Dataset) : Prop :=
  match ev with
  | EvOpenDataset path group engine =>
      ∃ w0 w1 : W, xr_open_dataset path group engine w0 = (Ok ds, w1)
  | EvOpenMfdataset paths group kw engine =>
      ∃ w0 w1 : W, xr_open_mfdataset paths group kw engine w0 = (Ok ds, w1)
  | _ => False
  end.

(** What a combine does to the dataset [ds_r] of a group between the read
    and the write: the coercion of the text fields and the chunks for Beam,
    the chunks for Environment and for the Platform of the Simrad models,
    the chunks and the conversion to text for Platform/NMEA, and nothing for
    the other groups. *)
Definition combined_from (sonar_model : string) (group : option string)
    (ds_r ds : Dataset) : Prop :=
  if decide (group = Some "Beam") then
    ∃ ds_c, coerce_type sonar_model ds_r "Beam" = Ok ds_c ∧
            chunk ds_c {[ "range_bin" := 25000; "ping_time" := 2500 ]} = Ok ds
  else if decide (group = Some "Environment") then
    chunk ds_r {[ "ping_time" := 2500 ]} = Ok ds
  else if decide (group = Some "Platform") then
    if decide (sonar_model ∈ ["EK80"; "EA640"]) then
      chunk ds_r {[ "location_time" := 2500; "mru_time" := 2500 ]} = Ok ds
    else if decide (sonar_model = "EK60") then
      chunk ds_r {[ "location_time" := 2500; "ping_time" := 2500 ]} = Ok ds
    else ds = ds_r
  else if decide (group = Some "Platform/NMEA") then
    ∃ ds_c, chunk ds_r {[ "location_time" := 2500 ]} = Ok ds_c ∧
            ds = ds_astype_str ds_c
  else ds = ds_r.

(** The call [ev], made right after the call [prev]: a write of a group
    other than Provenance is of what [prev], the read of that group,
    returned. *)
Definition write_follows_read (sonar_model : string) (prev : option Event)
    (ev : Event) : Prop :=
  match ev with
  | EvSaveFile ds _ _ _ group =>
      group = Some "Provenance" ∨
      ∃ ev_r ds_r, prev = Some ev_r ∧ ev_group ev_r = group ∧
                   returned ev_r ds_r ∧
                   combined_from sonar_model group ds_r ds
  | _ => True
  end.

(** Every call of the log [l], which comes after the call [prev]. *)
Fixpoint justified (sonar_model : string) (prev : option Event)
    (l : list Event) : Prop :=
  match l with
  | [] => True
  | ev :: l' =>
      write_follows_read sonar_model prev ev ∧
      justified sonar_model (Some ev) l'
  end.

(** The last call made, after the log [l] that follows the call [prev]. *)
Definition last_call (prev : option Event) (l : list Event) : option Event :=
  match last l with
  | Some ev => Some ev
  | None => prev
  end.

(** From a last call that satisfies [P], the calls of [c] are justified,
    and when [c] returns [a] the last call then satisfies [Q a]. *)
Definition hands_on (sonar_model : string) {A} (P : option Event → Prop)
    (c : M W A) (Q : A → option Event → Prop) : Prop :=
  ∀ prev w, P prev →
    justified sonar_model prev (c w).2 ∧
    ∀ a, (c w).1.1 = Ok a → Q a (last_call prev (c w).2).
End HandsOn.

(** ** Where the exceptions of a combine come from *)

(** The chunk sizes a combine asks for the dataset of a group of a model;
    [None] for a group that it writes as it is. *)
Definition group_chunks (sonar_model group : string) : option (gmap string Z) :=
  if decide (group = "Beam") then
    Some {[ "range_bin" := 25000; "ping_time" := 2500 ]}
  else if decide (group = "Environment") then Some {[ "ping_time" := 2500 ]}
  else if decide (group = "Platform") then
    if decide (sonar_model ∈ ["EK80"; "EA640"]) then
      Some {[ "location_time" := 2500; "mru_time" := 2500 ]}
    else if decide (sonar_model ∈ ["EK60"]) then
      Some {[ "location_time" := 2500; "ping_time" := 2500 ]}
    else None
  else if decide (group = "Platform/NMEA") then
    if decide (sonar_model ∈ ["EK60"; "EK80"; "EA640"]) then
      Some {[ "location_time" := 2500 ]}
    else None
  else None.

(** The exception [e] is raised by what a combine does to the dataset [ds]
    it read for [group], before any write: it is the key error of
    [coerce_type] for a text field that the Beam group [ds] does not have,
    or the error of [chunk] for the sizes of that group. *)
Definition prepare_raises (sonar_model group : string) (ds : Dataset)
    (e : exn) : Prop :=
  (group = "Beam" ∧
   ∃ key, e = KeyError key ∧ key ∈ beam_text_fields sonar_model ∧
          ds_variables ds !! key = None) ∨
  (∃ ds_c sizes, coerce_type sonar_model ds group = Ok ds_c ∧
                 group_chunks sonar_model group = Some sizes ∧
                 chunk ds_c sizes = Raise e).

Section RaiseOrigin.
Context {W : Type} `{Library W}.

(** The exception [e] comes from the call [ev]: the library raised it in
    that call, or the call is the read of a group and [e] is raised by what
    the combine does to the dataset that read returned. *)
Definition raise_origin (sonar_model : string) (ev : Event) (e : exn) : Prop :=
  call_raises ev e ∨
  ∃ paths group kw engine ds,
    ev = EvOpenMfdataset paths group kw engine ∧
    returned (W:=W) ev ds ∧ prepare_raises sonar_model group ds e.

(** From a last call that satisfies [P], whatever [c] raises comes from the
    last call made, and when [c] returns [a] the last call then satisfies
    [Q a]. *)
Definition blames (sonar_model : string) {A} (P : option Event → Prop)
    (c : M W A) (Q : A → option Event → Prop) : Prop :=
  ∀ prev w, P prev →
    match (c w).1.1 with
    | Ok a => Q a (last_call prev (c w).2)
    | Raise e => ∃ ev, last_call prev (c w).2 = Some ev ∧
                       raise_origin sonar_model ev e
    end.
End RaiseOrigin.

(** * Properties *)

(** ** Text helpers *)

Lemma str_app_cons (c : ascii) (s1 s2 : string) :
  String c s1 +:+ s2 = String c (s1 +:+ s2).
Proof. reflexivity. Qed.

Lemma str_length_app (s1 s2 : string) :
  String.length (s1 +:+ s2) = (String.length s1 + String.length s2)%nat.
Proof.
  induction s1 as [|c s1 IH]; [done|].
  rewrite str_app_cons. simpl. by rewrite IH.
Qed.

Lemma str_take_length (n : nat) (s : string) :
  String.length (str_take n s) = Nat.min n (String.length s).
Proof.
  revert s. induction n as [|n IH]; intros [|c s]; simpl; try done.
  by rewrite IH.
Qed.

Lemma str_take_drop (n : nat) (s : string) :
  str_take n s +:+ str_drop n s = s.
Proof.
  revert s. induction n as [|n IH]; intros [|c s]; simpl; try done.
  by rewrite str_app_cons, IH.
Qed.

Lemma str_take_all (n : nat) (s : string) :
  (String.length s ≤ n)%nat → str_take n s = s.
Proof.
  revert s. induction n as [|n IH]; intros [|c s]; simpl; try done; try lia.
  intros Hle. rewrite IH; [done|lia].
Qed.

Lemma zero_pad_length (width : nat) (z : Z) :
  String.length (zero_pad width z) = width.
Proof.
  revert z. induction width as [|width IH]; intros z; simpl; [done|].
  rewrite str_length_app, IH. simpl. lia.
Qed.

Lemma digit_char_is_nat (d : Z) :
  Ascii.is_nat (digit_char d) = Some (Z.to_nat (d mod 10)).
Proof.
  unfold digit_char.
  assert (0 ≤ d mod 10 < 10) as Hr by (apply Z.mod_pos_bound; lia).
  assert (d mod 10 = 0 ∨ d mod 10 = 1 ∨ d mod 10 = 2 ∨ d mod 10 = 3 ∨
          d mod 10 = 4 ∨ d mod 10 = 5 ∨ d mod 10 = 6 ∨ d mod 10 = 7 ∨
          d mod 10 = 8 ∨ d mod 10 = 9) as Hcases by lia.
  destruct Hcases as [->|[->|[->|[->|[->|[->|[->|[->|[->| ->]]]]]]]]];
    reflexivity.
Qed.

Lemma parse_digits_app (acc : Z) (s1 s2 : string) :
  parse_digits acc (s1 +:+ s2) =
  match parse_digits acc s1 with
  | Some acc' => parse_digits acc' s2
  | None => None
  end.
Proof.
  revert acc. induction s1 as [|c s1 IH]; intros acc; simpl; [done|].
  destruct (Ascii.is_nat c); [apply IH|done].
Qed.

(** The padded text of a number that fits the width reads back as that
    number: no digit is lost or invented. *)
Lemma zero_pad_parse (width : nat) (z : Z) :
  0 ≤ z < 10 ^ Z.of_nat width →
  parse_digits 0 (zero_pad width z) = Some z.
Proof.
  revert z. induction width as [|width IH]; intros z Hz.
  - simpl in *. f_equal. lia.
  - simpl zero_pad. rewrite parse_digits_app.
    rewrite Nat2Z.inj_succ, Z.pow_succ_r in Hz by lia.
    rewrite IH by (split; [apply Z.div_pos; lia | apply Z.div_lt_upper_bound; lia]).
    simpl. rewrite digit_char_is_nat. f_equal.
    assert (0 ≤ z mod 10 < 10) by (apply Z.mod_pos_bound; lia).
    rewrite Z2Nat.id by lia.
    pose proof (Z.div_mod z 10). lia.
Qed.

Lemma isoformat_seconds_length (t : datetime) :
  String.length (isoformat_seconds t) = 19%nat.
Proof.
  unfold isoformat_seconds. rewrite !str_length_app, !zero_pad_length. done.
Qed.

(** The separators of the ISO form sit at fixed places. *)
Lemma isoformat_seconds_shape (t : datetime) :
  String.get 4 (isoformat_seconds t) = Some "-"%char ∧
  String.get 7 (isoformat_seconds t) = Some "-"%char ∧
  String.get 10 (isoformat_seconds t) = Some "T"%char ∧
  String.get 13 (isoformat_seconds t) = Some ":"%char ∧
  String.get 16 (isoformat_seconds t) = Some ":"%char.
Proof. by cbv [isoformat_seconds zero_pad String.append String.get]. Qed.

(** The six fields of a valid datetime are all in the text: each one reads
    back from its digits. *)
Lemma isoformat_fields_read_back (t : datetime) :
  valid_datetime t →
  parse_digits 0 (zero_pad 4 (dt_year t)) = Some (dt_year t) ∧
  parse_digits 0 (zero_pad 2 (dt_month t)) = Some (dt_month t) ∧
  parse_digits 0 (zero_pad 2 (dt_day t)) = Some (dt_day t) ∧
  parse_digits 0 (zero_pad 2 (dt_hour t)) = Some (dt_hour t) ∧
  parse_digits 0 (zero_pad 2 (dt_minute t)) = Some (dt_minute t) ∧
  parse_digits 0 (zero_pad 2 (dt_second t)) = Some (dt_second t).
Proof.
  intros (Hy & Hmo & Hd & Hh & Hmi & Hs & _).
  split_and!; apply zero_pad_parse; simpl; lia.
Qed.

Lemma str_endswith_app (s suffix : string) :
  str_endswith (s +:+ suffix) suffix = true.
Proof.
  unfold str_endswith, String.rev.
  assert (∀ a b acc, String.rev_app (a +:+ b) acc
                     = String.rev_app b (String.rev_app a acc)) as Happ.
  { induction a as [|c a IH]; intros b acc; simpl; [done|]. apply IH. }
  assert (∀ b acc1 acc2,
            str_endswith_rev acc1 acc2 = true →
            str_endswith_rev (String.rev_app b acc1) (String.rev_app b acc2)
            = true) as Hrev.
  { induction b as [|c b IH]; intros acc1 acc2 Hacc; simpl; [done|].
    apply IH. simpl. by rewrite decide_True. }
  rewrite Happ. apply Hrev. by destruct (String.rev_app s "").
Qed.

(** ** The provenance group *)

(** C5: for every list of source paths [assemble_combined_provenance]
    succeeds, whatever the clock and the world; the group it gives has no
    variables and exactly four attributes: the tool name "echopype", the
    version string, the UTC time of the call in the 19 characters of the ISO
    form with seconds (the microseconds of the clock do not show) followed by
    the marker "Z", and the list of source paths as it was passed. *)
Theorem assemble_combined_provenance_attrs {W} `{Library W}
    (version : string) (input_paths : list string) (w : W) :
  ∃ ds stamp,
    assemble_combined_provenance version input_paths w
      = (Ok ds, (datetime_utcnow w).2, []) ∧
    ds_variables ds = ∅ ∧
    dom (ds_attrs ds) = provenance_keys ∧
    ds_attrs ds !! "conversion_software_name" = Some (AStr "echopype") ∧
    ds_attrs ds !! "conversion_software_version" = Some (AStr version) ∧
    ds_attrs ds !! "conversion_time" = Some (AStr (stamp +:+ "Z")) ∧
    ds_attrs ds !! "src_filenames" = Some (AList input_paths) ∧
    stamp = isoformat_seconds (datetime_utcnow w).1 ∧
    String.length stamp = 19%nat ∧
    str_endswith (stamp +:+ "Z") "Z" = true ∧
    (∀ us,
       let t := (datetime_utcnow w).1 in
       stamp = isoformat_seconds
                 (mkDatetime (dt_year t) (dt_month t) (dt_day t) (dt_hour t)
                             (dt_minute t) (dt_second t) us)).
Proof.
  unfold assemble_combined_provenance, bind, utcnow, ret.
  destruct (datetime_utcnow w) as [t w'] eqn:Hclock. cbn [fst snd].
  eexists _, (isoformat_seconds t). split; [reflexivity|].
  unfold assign_attrs, empty_dataset; cbn [ds_attrs ds_variables fst snd].
  rewrite (right_id_L ∅ (∪)).
  split; [done|]. split.
  { unfold provenance_keys. rewrite !dom_insert_L, dom_singleton_L.
    set_solver. }
  split; [by simplify_map_eq|]. split; [by simplify_map_eq|].
  split; [by simplify_map_eq|]. split; [by simplify_map_eq|].
  split; [done|]. split; [apply isoformat_seconds_length|].
  split; [apply str_endswith_app|].
  by intros us.
Qed.

(** The provenance of a combine of the two sample files at noon. *)
Example sample_provenance :
  let run :=
    assemble_combined_provenance "0.4.1" Sample.inputs Sample.ek60_world in
  run.2 = [] ∧
  result_bind run.1.1 (λ ds, Ok (ds_attrs ds)) =
  Ok {[ "conversion_software_name" := AStr "echopype";
        "conversion_software_version" := AStr "0.4.1";
        "conversion_time" := AStr "2020-11-04T12:00:07Z";
        "src_filenames" := AList ["leg1.nc"; "leg2.nc"] ]}.
Proof. intros run. compute_done. Qed.

(** ** Reasoning about the log of a computation *)

Section LogRules.
Context {W : Type}.

Lemma follows_bind {A B} (c : M W A) (k : A → M W B) ts1 ts2 :
  follows c ts1 → (∀ a, follows (k a) ts2) → follows (bind c k) (ts1 ++ ts2).
Proof.
  intros Hc Hk w. unfold bind. specialize (Hc w).
  destruct (c w) as [[[a|e] w1] l1].
  - specialize (Hk a w1). destruct (k a w1) as [[[b|e] w2] l2].
    + by rewrite fmap_app, Hc, Hk.
    + rewrite fmap_app, Hc. by apply prefix_app.
  - by apply prefix_app_r.
Qed.

Lemma stops_short_bind {A B} (c : M W A) (k : A → M W B) ts front final :
  follows c ts → (∀ a, stops_short (k a) front final) →
  stops_short (bind c k) (ts ++ front) final.
Proof.
  intros Hc Hk w. unfold bind. specialize (Hc w).
  destruct (c w) as [[[a|e] w1] l1].
  - specialize (Hk a w1). destruct (k a w1) as [[[b|e] w2] l2].
    + by rewrite fmap_app, Hc, Hk, (assoc_L (++)).
    + rewrite fmap_app, Hc. by apply prefix_app.
  - by apply prefix_app_r.
Qed.

Lemma stops_short_print msg : stops_short (print msg : M W unit) [] TPrint.
Proof. by intros w. Qed.

(** What [stops_short] says of a run, with the calls as one list. *)
Lemma stops_short_run {A} (c : M W A) front final ts w :
  stops_short c front final → front ++ [final] = ts →
  tag <$> (c w).2 `prefix_of` ts ∧
  (is_ok (c w).1.1 = true ↔ tag <$> (c w).2 = ts).
Proof.
  intros Hc <-. specialize (Hc w).
  destruct (c w) as [[[a|e] w1] l1]; simpl.
  - by rewrite Hc.
  - split; [by apply prefix_app_r|]. split; [done|]. intros Heq.
    apply prefix_length in Hc. rewrite Heq, length_app in Hc.
    simpl in Hc. lia.
Qed.

Lemma log_all_bind {A B} (P : Event → Prop) (c : M W A) (k : A → M W B) :
  log_all P c → (∀ a, log_all P (k a)) → log_all P (bind c k).
Proof.
  intros Hc Hk w. unfold bind. specialize (Hc w).
  destruct (c w) as [[[a|e] w1] l1]; [|done].
  specialize (Hk a w1). destruct (k a w1) as [[r w2] l2]. simpl in *.
  by apply Forall_app.
Qed.

Lemma follows_ret {A} (a : A) : follows (ret a : M W A) [].
Proof. by intros w. Qed.

Lemma follows_lift {A} (r : result A) : follows (lift r : M W A) [].
Proof. intros w. destruct r; simpl; [done|apply prefix_nil]. Qed.

Lemma follows_print msg : follows (print msg : M W unit) [TPrint].
Proof. by intros w. Qed.

Lemma log_all_ret {A} P (a : A) : log_all P (ret a : M W A).
Proof. intros w. constructor. Qed.

Lemma log_all_lift {A} P (r : result A) : log_all P (lift r : M W A).
Proof. intros w. constructor. Qed.

Lemma log_all_print P msg : P (EvPrint msg) → log_all P (print msg : M W unit).
Proof. intros HP w. by repeat constructor. Qed.

Context `{Library W}.

Lemma follows_now : follows (now : M W datetime) [].
Proof. intros w. unfold now. by destruct (datetime_now w). Qed.

Lemma follows_utcnow : follows (utcnow : M W datetime) [].
Proof. intros w. unfold utcnow. by destruct (datetime_utcnow w). Qed.

Lemma follows_open_dataset path group engine :
  follows (open_dataset path group engine) [TOpen group].
Proof.
  intros w. unfold open_dataset.
  destruct (xr_open_dataset path group engine w) as [[?|?] ?]; simpl; [done|reflexivity].
Qed.

Lemma follows_open_mfdataset paths group kw engine :
  follows (open_mfdataset paths group kw engine) [TOpenMf group].
Proof.
  intros w. unfold open_mfdataset.
  destruct (xr_open_mfdataset paths group kw engine w) as [[?|?] ?]; simpl; [done|reflexivity].
Qed.

Lemma follows_save_file ds path mode engine group :
  follows (save_file ds path mode engine group) [TSave group mode].
Proof.
  intros w. unfold save_file.
  destruct (io_save_file ds path mode engine group w) as [[?|?] ?]; simpl; [done|reflexivity].
Qed.

Lemma log_all_now P : log_all P (now : M W datetime).
Proof. intros w. unfold now. destruct (datetime_now w). constructor. Qed.

Lemma log_all_utcnow P : log_all P (utcnow : M W datetime).
Proof. intros w. unfold utcnow. destruct (datetime_utcnow w). constructor. Qed.

Lemma log_all_open_dataset P path group engine :
  P (EvOpenDataset path group engine) →
  log_all P (open_dataset path group engine).
Proof.
  intros HP w. unfold open_dataset.
  destruct (xr_open_dataset path group engine w). by repeat constructor.
Qed.

Lemma log_all_open_mfdataset P paths group kw engine :
  P (EvOpenMfdataset paths group kw engine) →
  log_all P (open_mfdataset paths group kw engine).
Proof.
  intros HP w. unfold open_mfdataset.
  destruct (xr_open_mfdataset paths group kw engine w). by repeat constructor.
Qed.

Lemma log_all_save_file P ds path mode engine group :
  P (EvSaveFile ds path mode engine group) →
  log_all P (save_file ds path mode engine group).
Proof.
  intros HP w. unfold save_file.
  destruct (io_save_file ds path mode engine group w). by repeat constructor.
Qed.
End LogRules.

Lemma follows_eq {W A} (c : M W A) ts ts' :
  follows c ts → ts = ts' → follows c ts'.
Proof. by intros ? <-. Qed.

Ltac follows_step :=
  lazymatch goal with
  | |- follows (bind _ _) _ => eapply follows_bind; [|intros ?]
  | |- follows now _ => apply follows_now
  | |- follows utcnow _ => apply follows_utcnow
  | |- follows (print _) _ => apply follows_print
  | |- follows (lift _) _ => apply follows_lift
  | |- follows (ret _) _ => apply follows_ret
  | |- follows (open_dataset _ _ _) _ => apply follows_open_dataset
  | |- follows (open_mfdataset _ _ _ _) _ => apply follows_open_mfdataset
  | |- follows (save_file _ _ _ _ _) _ => apply follows_save_file
  end.

Ltac follows_chain :=
  eapply follows_eq; [repeat follows_step | try reflexivity].

Ltac log_all_step :=
  lazymatch goal with
  | |- log_all _ (bind _ _) => apply log_all_bind; [|intros ?]
  | |- log_all _ now => apply log_all_now
  | |- log_all _ utcnow => apply log_all_utcnow
  | |- log_all _ (print _) => apply log_all_print
  | |- log_all _ (lift _) => apply log_all_lift
  | |- log_all _ (ret _) => apply log_all_ret
  | |- log_all _ (open_dataset _ _ _) => apply log_all_open_dataset
  | |- log_all _ (open_mfdataset _ _ _ _) => apply log_all_open_mfdataset
  | |- log_all _ (save_file _ _ _ _ _) => apply log_all_save_file
  end.

(** A model name outside the four known ones has neither a Platform nor a
    Platform/NMEA step. *)
Lemma unknown_model (sonar_model : string) :
  sonar_model ∉ ["AZFP"; "EK80"; "EA640"; "EK60"] →
  has_platform sonar_model = false ∧ has_nmea sonar_model = false.
Proof.
  intros Hm. unfold has_platform, has_nmea.
  rewrite !bool_decide_eq_false. split; [done|].
  intros Hin. apply Hm. revert Hin. rewrite !elem_of_cons. tauto.
Qed.

Lemma has_platform_true (sonar_model : string) :
  sonar_model = "AZFP" ∨ sonar_model ∈ ["EK80"; "EA640"] ∨
  sonar_model ∈ ["EK60"] →
  has_platform sonar_model = true.
Proof.
  unfold has_platform. rewrite bool_decide_eq_true, !elem_of_cons. tauto.
Qed.

Lemma has_platform_false (sonar_model : string) :
  sonar_model ≠ "AZFP" → sonar_model ∉ ["EK80"; "EA640"] →
  sonar_model ∉ ["EK60"] →
  has_platform sonar_model = false.
Proof.
  unfold has_platform. rewrite bool_decide_eq_false, !elem_of_cons. tauto.
Qed.

Section CombineLog.
Context {W : Type} `{Library W}.
Variable version : string.
Variables (input_paths : list string) (output_path engine : string).

Lemma follows_assemble_combined_provenance :
  follows (assemble_combined_provenance version input_paths) [].
Proof. unfold assemble_combined_provenance. follows_chain. Qed.

Lemma follows_combine_platform sonar_model :
  follows (combine_platform sonar_model input_paths output_path engine)
          (if has_platform sonar_model
           then [TOpenMf "Platform"; TSave (Some "Platform") "a"] else []).
Proof.
  unfold combine_platform. repeat case_decide.
  - rewrite has_platform_true by tauto. follows_chain.
  - rewrite has_platform_true by tauto. follows_chain.
  - rewrite has_platform_true by tauto. follows_chain.
  - rewrite has_platform_false by done. follows_chain.
Qed.

Lemma follows_combine_nmea sonar_model :
  follows (combine_nmea sonar_model input_paths output_path engine)
          (if has_nmea sonar_model
           then [TOpenMf "Platform/NMEA"; TSave (Some "Platform/NMEA") "a"]
           else []).
Proof.
  unfold combine_nmea, has_nmea. case_decide.
  - rewrite bool_decide_eq_true_2 by done. follows_chain.
  - rewrite bool_decide_eq_false_2 by done. follows_chain.
Qed.

(** The calls of a combine are those of [combine_tags], in that order; a
    combine that raises has made the first ones of them and not the last. *)
Lemma perform_combination_run sonar_model (w : W) :
  let run :=
    perform_combination version sonar_model input_paths output_path engine w
  in
  tag <$> run.2 `prefix_of` combine_tags sonar_model ∧
  (is_ok run.1.1 = true ↔ tag <$> run.2 = combine_tags sonar_model).
Proof.
  eapply stops_short_run.
  - unfold perform_combination.
    repeat lazymatch goal with
           | |- stops_short (bind (assemble_combined_provenance _ _) _) _ _ =>
               eapply stops_short_bind;
               [apply follows_assemble_combined_provenance|intros ?]
           | |- stops_short (bind (combine_platform _ _ _ _) _) _ _ =>
               eapply stops_short_bind;
               [apply follows_combine_platform|intros ?]
           | |- stops_short (bind (combine_nmea _ _ _ _) _) _ _ =>
               eapply stops_short_bind;
               [apply follows_combine_nmea|intros ?]
           | |- stops_short (bind _ _) _ _ =>
               eapply stops_short_bind; [follows_step|intros ?]
           end.
    apply stops_short_print.
  - unfold combine_tags.
    by destruct (has_platform sonar_model), (has_nmea sonar_model).
Qed.
End CombineLog.

(** ** C1: the order of the groups and the modes of the writes *)

Lemma writes_tag (log : list Event) : writes log = tag_writes (tag <$> log).
Proof. reflexivity. Qed.

Lemma tag_writes_combine_tags (sonar_model : string) :
  tag_writes (combine_tags sonar_model) = combine_writes sonar_model.
Proof.
  unfold combine_tags, combine_writes.
  by destruct (has_platform sonar_model), (has_nmea sonar_model).
Qed.

Lemma tag_writes_prefix (ts1 ts2 : list Tag) :
  ts1 `prefix_of` ts2 → tag_writes ts1 `prefix_of` tag_writes ts2.
Proof.
  intros [k ->]. unfold tag_writes. rewrite omap_app. by apply prefix_app_r.
Qed.

(** C1 (as the source has it): for every combine call the calls made are, in
    this order, the read and then the write of TopLevel (write mode), of
    Sonar, the write of Provenance, the read and then the write of Beam, of
    Environment, of Platform (for AZFP, EK80, EA640 and EK60), of
    Platform/NMEA (for EK60, EK80 and EA640) and of Vendor, every write after
    the first in append mode.  A combine that raises has made the first of
    these calls and lacks at least the last one; a combine that returns has
    made all of them. *)
Theorem combine_write_order {W} `{Library W}
    (version sonar_model : string) (input_paths : list string)
    (output_path engine : string) (w : W) :
  let '(r, _, log) :=
    perform_combination version sonar_model input_paths output_path engine w in
  tag <$> log `prefix_of` combine_tags sonar_model ∧
  writes log `prefix_of` combine_writes sonar_model ∧
  (r = Ok tt ↔ tag <$> log = combine_tags sonar_model) ∧
  (r = Ok tt → writes log = combine_writes sonar_model).
Proof.
  pose proof (perform_combination_run version input_paths output_path
                engine sonar_model w) as [Hpre Hok].
  destruct (perform_combination _ _ _ _ _ w) as [[r w'] log].
  simpl in Hpre, Hok.
  assert (r = Ok tt ↔ is_ok r = true) as Hr by (by destruct r as [[]|]).
  split; [done|]. split.
  { rewrite writes_tag, <-tag_writes_combine_tags. by apply tag_writes_prefix. }
  split; [by rewrite Hr|].
  intros Hrun. rewrite writes_tag, <-tag_writes_combine_tags.
  f_equal. by apply Hok, Hr.
Qed.

(** The theorem at a combine of two sample EK60 files, which returns. *)
Lemma combine_write_order_witness :
  let run :=
    perform_combination "0.4.1" "EK60" Sample.inputs "leg1__combined.nc"
                        "netcdf4" Sample.ek60_world in
  run.1.1 = Ok tt ∧
  tag <$> run.2 = combine_tags "EK60" ∧
  writes run.2 = combine_writes "EK60".
Proof.
  intros run.
  assert (run.1.1 = Ok tt) as Hok by compute_done.
  pose proof (combine_write_order "0.4.1" "EK60" Sample.inputs
                "leg1__combined.nc" "netcdf4" Sample.ek60_world) as Hrun.
  fold run in Hrun. destruct run as [[r w'] log].
  destruct Hrun as (_ & _ & Htags & Hwrites).
  split; [exact Hok|]. split; [exact (proj1 Htags Hok)|exact (Hwrites Hok)].
Defined.

(** The spec's order, Environment before Beam, is not the order of the
    writes of a combine of two EK60 files. *)
Lemma spec_write_order_fails :
  let run :=
    perform_combination "0.4.1" "EK60" Sample.inputs "leg1__combined.nc"
                        "netcdf4" Sample.ek60_world in
  run.1.1 = Ok tt ∧ writes run.2 ≠ spec_writes "EK60" ∧
  writes run.2 !! 3%nat = Some (Some "Beam", "a") ∧
  spec_writes "EK60" !! 3%nat = Some (Some "Environment", "a").
Proof. intros run. compute_done. Qed.

(** ** C3: the chunk sizes of a combine *)

Lemma log_all_bind_lift {W A B} (P : Event → Prop) (r : result A)
    (k : A → M W B) :
  (∀ a, r = Ok a → log_all P (k a)) → log_all P (bind (lift r) k).
Proof.
  intros Hk w. unfold bind, lift. destruct r as [a|e]; [|constructor].
  specialize (Hk a eq_refl w). by destruct (k a w) as [[r w2] l2].
Qed.

Lemma log_all_run {W A} (P : Event → Prop) (c : M W A) (w : W) :
  log_all P c → Forall P (c w).2.
Proof. intros Hc. apply Hc. Qed.

(** What [chunk] returns, and when. *)
Lemma chunk_ok (ds ds' : Dataset) (sizes : gmap string Z) :
  chunk ds sizes = Ok ds' →
  ds' = mkDataset (ds_variables ds) (ds_coord_names ds) (ds_attrs ds)
                  (sizes ∪ ds_chunks ds) ∧
  dom sizes ⊆ ds_dims ds.
Proof.
  unfold chunk. case_decide as Hbad; [done|]. intros [= <-].
  split; [done|].
  destruct (decide (dom sizes ∖ ds_dims ds = ∅)) as [Hnone|?]; [|done].
  intros dim Hdim. destruct (decide (dim ∈ ds_dims ds)) as [?|Hout]; [done|].
  assert (dim ∈ dom sizes ∖ ds_dims ds) as Hin by (by apply elem_of_difference).
  rewrite Hnone in Hin. by apply elem_of_empty in Hin.
Qed.

(** What [chunk] raises, and when. *)
Lemma chunk_raise (ds : Dataset) (sizes : gmap string Z) (e : exn) :
  chunk ds sizes = Raise e →
  e = ValueError ("some chunks keys are not dimensions on this object: "
                  +:+ set_repr (dom sizes ∖ ds_dims ds)) ∧
  ∃ dim, dim ∈ dom sizes ∧ dim ∉ ds_dims ds.
Proof.
  unfold chunk. case_decide as Hbad; [|done]. intros [= <-].
  split; [done|].
  apply set_choose_L in Hbad as [dim Hdim].
  apply elem_of_difference in Hdim. by exists dim.
Qed.

Lemma chunk_lookup (ds ds' : Dataset) (sizes : gmap string Z) dim size :
  chunk ds sizes = Ok ds' → sizes !! dim = Some size →
  ds_chunks ds' !! dim = Some size.
Proof.
  intros [-> _]%chunk_ok Hs. simpl. by apply lookup_union_Some_l.
Qed.

Lemma default_chunk_size (key : string) (size : Z) :
  dict_getitem DEFAULT_CHUNK_SIZE key = Ok size →
  (key = "range_bin" ∧ size = 25000) ∨ (key = "ping_time" ∧ size = 2500).
Proof.
  unfold dict_getitem, DEFAULT_CHUNK_SIZE. intros Hget.
  destruct (decide (key = "range_bin")) as [->|?]; [left|right].
  - by simplify_map_eq.
  - destruct (decide (key = "ping_time")) as [->|?]; by simplify_map_eq.
Qed.

Ltac chunk_goal :=
  lazymatch goal with
  | |- chunk_rule _ (EvSaveFile _ _ _ _ _) =>
      simpl; repeat split; intros; simplify_eq;
      repeat match goal with
             | Hin : _ ∈ _ :: _ |- _ => apply elem_of_cons in Hin as [Hin|Hin]
             | Hin : _ ∈ [] |- _ => by apply elem_of_nil in Hin
             end;
      simplify_eq;
      try (eapply chunk_lookup; [eassumption|by simplify_map_eq])
  | |- chunk_rule _ _ => exact I
  end.

Ltac chunk_lift :=
  lazymatch goal with
  | |- log_all _ (bind (lift (dict_getitem DEFAULT_CHUNK_SIZE _)) _) =>
      apply log_all_bind_lift;
      let a := fresh "c" in let Ha := fresh "Hc" in
      intros a Ha; apply default_chunk_size in Ha as [[? ->]|[? ->]];
      try discriminate
  | |- log_all _ (bind (lift (chunk _ _)) _) =>
      apply log_all_bind_lift;
      let ds := fresh "ds" in let Hds := fresh "Hchunk" in intros ds Hds
  | |- log_all _ (if decide _ then _ else _) => case_decide
  | |- _ => log_all_step
  end.

Section CombineChunks.
Context {W : Type} `{Library W}.
Variable version : string.
Variables (input_paths : list string) (output_path engine : string).

Lemma perform_combination_chunks sonar_model :
  log_all (chunk_rule sonar_model)
    (perform_combination version sonar_model input_paths output_path engine).
Proof.
  unfold perform_combination, combine_platform, combine_nmea,
    assemble_combined_provenance.
  repeat chunk_lift; try chunk_goal.
Qed.
End CombineChunks.

(** C3 (as the source has it): for every combine call the dataset handed to
    each write carries these chunk sizes: Beam 25000 for [range_bin] and 2500
    for [ping_time]; Environment 2500 for [ping_time]; Platform 2500 for
    [location_time] and [mru_time] (EK80, EA640) or for [location_time] and
    [ping_time] (EK60); Platform/NMEA 2500 for [location_time].  The time
    dimensions all take [DEFAULT_CHUNK_SIZE['ping_time']]. *)
Theorem combine_chunk_sizes {W} `{Library W}
    (version sonar_model : string) (input_paths : list string)
    (output_path engine : string) (w : W) :
  DEFAULT_CHUNK_SIZE !! "range_bin" = Some 25000 ∧
  DEFAULT_CHUNK_SIZE !! "ping_time" = Some 2500 ∧
  Forall (chunk_rule sonar_model)
    (perform_combination version sonar_model input_paths output_path engine w).2.
Proof.
  split; [done|]. split; [done|].
  apply log_all_run, perform_combination_chunks.
Qed.

(** The table of the spec does not hold of a combine of two EK60 files: the
    Beam group is written with 2500 for [ping_time], the table has 100. *)
Lemma spec_chunk_sizes_fail :
  let run :=
    perform_combination "0.4.1" "EK60" Sample.inputs "leg1__combined.nc"
                        "netcdf4" Sample.ek60_world in
  run.1.1 = Ok tt ∧
  ¬ Forall spec_chunk_rule run.2 ∧
  ds_chunks <$> written_group run.1.2 "leg1__combined.nc" "Beam"
  = Some {[ "range_bin" := 25000; "ping_time" := 2500 ]} ∧
  spec_chunk_size (Some "Beam") "ping_time" = Some 100.
Proof. intros run. compute_done. Qed.

(** ** Prefixes of a log *)

Lemma Forall_prefix {A} (P : A → Prop) (l1 l2 : list A) :
  l1 `prefix_of` l2 → Forall P l2 → Forall P l1.
Proof. intros [k ->] Hall. by apply Forall_app in Hall as [? _]. Qed.

(** ** C2: the text fields of the Beam group *)

Lemma astype_U_fixed_width (width : nat) (da : DataArray) :
  fixed_width width (astype_U width da).
Proof.
  split; [done|]. simpl. apply Forall_fmap, Forall_true. intros v. simpl.
  eexists. split; [done|]. rewrite str_take_length. lia.
Qed.

(** Text that fits the width is kept as it is. *)
Lemma astype_U_short (width : nat) (da : DataArray) :
  Forall (λ v, ∃ s, v = SStr s ∧ (String.length s ≤ width)%nat) (da_values da) →
  da_values (astype_U width da) = da_values da.
Proof.
  intros Hall. unfold astype_U. cbn [da_values].
  induction Hall as [|v vs (s & -> & Hlen) _ IH]; [done|].
  rewrite fmap_cons, IH. cbn [scalar_str]. by rewrite str_take_all.
Qed.

Lemma ds_getitem_setitem (ds : Dataset) (name : string) (da : DataArray) :
  ds_getitem (ds_setitem ds name da) name = Ok da.
Proof. unfold ds_getitem, ds_setitem. simpl. by rewrite lookup_insert_eq. Qed.

Lemma ds_getitem_setitem_ne (ds : Dataset) (name name' : string)
    (da : DataArray) :
  name ≠ name' →
  ds_getitem (ds_setitem ds name da) name' = ds_getitem ds name'.
Proof.
  intros Hne. unfold ds_getitem, ds_setitem. simpl.
  by rewrite lookup_insert_ne.
Qed.

(** What [coerce_type] does to a Beam group that has the two fields. *)
Lemma coerce_type_fields (ds : Dataset) (version_name : string)
    (v c : DataArray) :
  version_name ≠ "channel_id" →
  ds_getitem ds version_name = Ok v →
  ds_getitem ds "channel_id" = Ok c →
  let ds' := ds_setitem (ds_setitem ds version_name (astype_U 10 v))
                        "channel_id" (astype_U 50 c) in
  result_bind (ds_getitem ds version_name) (λ v,
    let ds := ds_setitem ds version_name (astype_U 10 v) in
    result_bind (ds_getitem ds "channel_id") (λ c,
      Ok (ds_setitem ds "channel_id" (astype_U 50 c)))) = Ok ds' ∧
  ds_getitem ds' version_name = Ok (astype_U 10 v) ∧
  ds_getitem ds' "channel_id" = Ok (astype_U 50 c) ∧
  (∀ name, name ≠ version_name → name ≠ "channel_id" →
           ds_getitem ds' name = ds_getitem ds name).
Proof.
  intros Hne Hv Hc ds'. subst ds'. rewrite Hv. simpl.
  rewrite ds_getitem_setitem_ne, Hc by done. simpl.
  split; [done|]. split.
  { by rewrite ds_getitem_setitem_ne, ds_getitem_setitem. }
  split; [apply ds_getitem_setitem|].
  intros name ? ?. by rewrite !ds_getitem_setitem_ne.
Qed.

Section CombineBeam.
Context {W : Type} `{Library W}.
Variable version : string.
Variables (input_paths : list string) (output_path engine : string).

Lemma perform_combination_beam sonar_model :
  log_all (beam_rule sonar_model)
    (perform_combination version sonar_model input_paths output_path engine).
Proof.
  unfold perform_combination, combine_platform, combine_nmea,
    assemble_combined_provenance.
  repeat lazymatch goal with
         | |- log_all _ (bind (lift (coerce_type _ _ _)) _) =>
             apply log_all_bind_lift; intros ? ?
         | |- _ => chunk_lift
         end;
    try lazymatch goal with
        | |- beam_rule _ (EvSaveFile _ _ _ _ _) =>
            simpl; intros; simplify_eq; eauto
        | |- beam_rule _ _ => exact I
        end.
Qed.
End CombineBeam.

(** C2 (as the source has it): in a combine of EK60 files [coerce_type] makes
    [gpt_software_version] text of width 10 and [channel_id] text of width 50
    and leaves the other variables alone; in a combine of EK80 files it does
    the same with [transceiver_software_version] and [channel_id]; for every
    other model name, EA640 among them, it changes nothing.  The Beam group
    a combine writes is the outcome of [coerce_type], chunked. *)
Theorem coerce_type_beam {W} `{Library W} (ds : Dataset) :
  (∀ v c,
     ds_getitem ds "gpt_software_version" = Ok v →
     ds_getitem ds "channel_id" = Ok c →
     ∃ ds', coerce_type "EK60" ds "Beam" = Ok ds' ∧
       ds_getitem ds' "gpt_software_version" = Ok (astype_U 10 v) ∧
       ds_getitem ds' "channel_id" = Ok (astype_U 50 c) ∧
       fixed_width 10 (astype_U 10 v) ∧ fixed_width 50 (astype_U 50 c) ∧
       (∀ name, name ≠ "gpt_software_version" → name ≠ "channel_id" →
                ds_getitem ds' name = ds_getitem ds name)) ∧
  (∀ v c,
     ds_getitem ds "transceiver_software_version" = Ok v →
     ds_getitem ds "channel_id" = Ok c →
     ∃ ds', coerce_type "EK80" ds "Beam" = Ok ds' ∧
       ds_getitem ds' "transceiver_software_version" = Ok (astype_U 10 v) ∧
       ds_getitem ds' "channel_id" = Ok (astype_U 50 c) ∧
       fixed_width 10 (astype_U 10 v) ∧ fixed_width 50 (astype_U 50 c) ∧
       (∀ name, name ≠ "transceiver_software_version" → name ≠ "channel_id" →
                ds_getitem ds' name = ds_getitem ds name)) ∧
  (∀ sonar_model,
     sonar_model ≠ "EK80" → sonar_model ≠ "EK60" →
     coerce_type sonar_model ds "Beam" = Ok ds) ∧
  coerce_type "EA640" ds "Beam" = Ok ds ∧
  (∀ version sonar_model input_paths output_path engine (w : W),
     Forall (beam_rule sonar_model)
       (perform_combination version sonar_model input_paths output_path
                            engine w).2).
Proof.
  split; [|split; [|split; [|split]]].
  - intros v c Hv Hc.
    destruct (coerce_type_fields ds "gpt_software_version" v c)
      as (Hrun & Hv' & Hc' & Hrest); [done..|].
    eexists. split; [exact Hrun|].
    eauto 10 using astype_U_fixed_width.
  - intros v c Hv Hc.
    destruct (coerce_type_fields ds "transceiver_software_version" v c)
      as (Hrun & Hv' & Hc' & Hrest); [done..|].
    eexists. split; [exact Hrun|].
    eauto 10 using astype_U_fixed_width.
  - intros m ? ?. unfold coerce_type. by repeat case_decide.
  - done.
  - intros. apply log_all_run, perform_combination_beam.
Qed.

(** The theorem at the Beam group of a sample EK60 file, and at a model
    name that is neither EK80 nor EK60. *)
Lemma coerce_type_beam_witness :
  let ds := Sample.beam "gpt_software_version" [100; 101] in
  ∃ v c ds',
    ds_getitem ds "gpt_software_version" = Ok v ∧
    ds_getitem ds "channel_id" = Ok c ∧
    coerce_type "EK60" ds "Beam" = Ok ds' ∧
    ds_getitem ds' "gpt_software_version" = Ok (astype_U 10 v) ∧
    ds_getitem ds' "channel_id" = Ok (astype_U 50 c) ∧
    fixed_width 50 (astype_U 50 c) ∧
    "AZFP" ≠ "EK80" ∧ "AZFP" ≠ "EK60" ∧
    coerce_type "AZFP" ds "Beam" = Ok ds.
Proof.
  intros ds.
  destruct (coerce_type_beam (W:=SpecLibrary.World) ds)
    as (Hek60 & _ & Hother & _).
  assert (ds_getitem ds "gpt_software_version"
          = Ok (Sample.text_var "frequency" ["070413 build 2"])) as Hv
    by compute_done.
  assert (ds_getitem ds "channel_id"
          = Ok (Sample.text_var "frequency" [Sample.long_channel_id])) as Hc
    by compute_done.
  destruct (Hek60 _ _ Hv Hc) as (ds' & Hrun & Hv' & Hc' & _ & Hw & _).
  assert ("AZFP" ≠ "EK80") as Hne1 by discriminate.
  assert ("AZFP" ≠ "EK60") as Hne2 by discriminate.
  exists (Sample.text_var "frequency" ["070413 build 2"]),
         (Sample.text_var "frequency" [Sample.long_channel_id]), ds'.
  exact (conj Hv (conj Hc (conj Hrun (conj Hv' (conj Hc' (conj Hw
           (conj Hne1 (conj Hne2 (Hother _ Hne1 Hne2))))))))).
Defined.

(** The spec has no coercion for EK80: yet for the Beam group of a sample
    EK80 file [coerce_type] does not give the group back as it was, the
    [channel_id] it gives is text of width 50; and so is the one a combine of
    two such files writes, its value of 68 characters cut to 50. *)
Lemma spec_no_coercion_for_EK80_fails :
  let ds := Sample.beam "transceiver_software_version" [100; 101] in
  let run :=
    perform_combination "0.4.1" "EK80" Sample.inputs "leg1__combined.nc"
                        "netcdf4" Sample.ek80_world in
  coerce_type "EK80" ds "Beam" ≠ Ok ds ∧
  da_dtype <$> ds_variables ds !! "channel_id" = Some DT_object ∧
  result_bind (coerce_type "EK80" ds "Beam")
              (λ ds', result_bind (ds_getitem ds' "channel_id")
                                  (λ c, Ok (da_dtype c)))
    = Ok (DT_U 50) ∧
  run.1.1 = Ok tt ∧
  written_variable run.1.2 "leg1__combined.nc" "Beam" "channel_id"
    = Some (mkDataArray ["frequency"] (DT_U 50)
              [SStr (str_take 50 Sample.long_channel_id)] ∅) ∧
  String.length Sample.long_channel_id = 68%nat.
Proof.
  intros ds run. compute_done.
Qed.

(** The combine of two sample EK60 files of 2 and 3 pings, with the groups
    concatenated as the spec has it: 5 pings, [channel_id] of width 50 and
    [gpt_software_version] of width 10. *)
Example ek60_sample_combine :
  let run :=
    perform_combination "0.4.1" "EK60" Sample.inputs "leg1__combined.nc"
                        "netcdf4" Sample.ek60_world in
  let written := written_variable run.1.2 "leg1__combined.nc" "Beam" in
  run.1.1 = Ok tt ∧
  da_values <$> written "ping_time"
  = Some [SInt 100; SInt 101; SInt 200; SInt 201; SInt 202] ∧
  da_dtype <$> written "channel_id" = Some (DT_U 50) ∧
  da_dtype <$> written "gpt_software_version" = Some (DT_U 10) ∧
  da_values <$> written "gpt_software_version" = Some [SStr "070413 bui"].
Proof. intros run written. compute_done. Qed.

(** ** C4: the Platform group of AZFP files *)

Module IdenticalMerge.
Import SpecLibrary.

Lemma conflicts_agree (a b : Dataset) :
  conflicts a b ↔
  ¬ (map_agree (ds_variables a) (ds_variables b) ∧
     map_agree (ds_attrs a) (ds_attrs b)).
Proof.
  unfold conflicts. rewrite <-!map_not_agree. split; [tauto|].
  intros Hnot.
  destruct (decide (map_agree (ds_variables a) (ds_variables b)));
    [right|left]; try tauto.
  all: apply _.
Qed.

Lemma merge_identical_raises (a b : Dataset) :
  conflicts a b → ∃ key, merge_identical a b = Raise (ConflictingMetadata key).
Proof.
  rewrite conflicts_agree. intros Hnot. unfold merge_identical.
  repeat case_decide; eauto. tauto.
Qed.

Lemma map_agree_union_r {A} (m1 m2 : gmap string A) :
  map_agree m1 m2 → m2 ⊆ m1 ∪ m2.
Proof.
  rewrite map_agree_spec. intros Hagree. apply map_subseteq_spec.
  intros k x Hx. apply lookup_union_Some_raw.
  destruct (m1 !! k) as [z|] eqn:Hz; [left|by right].
  f_equal. by eapply Hagree.
Qed.

Lemma merge_identical_covers (a b acc : Dataset) :
  merge_identical a b = Ok acc → covers acc a ∧ covers acc b.
Proof.
  unfold merge_identical, covers. repeat case_decide; try done.
  intros [= <-]. simpl.
  split_and!;
    first [apply map_union_subseteq_l | by apply map_agree_union_r].
Qed.

Lemma conflicts_covers (acc a b : Dataset) :
  covers acc a → conflicts a b → conflicts acc b.
Proof.
  intros [Hv Ha] [(k & x & y & Hx & Hy & Hne)|(k & x & y & Hx & Hy & Hne)].
  - left. exists k, x, y. split; [|done].
    by eapply lookup_weaken.
  - right. exists k, x, y. split; [|done].
    by eapply lookup_weaken.
Qed.

Lemma merge_identical_same (g : Dataset) : merge_identical g g = Ok g.
Proof.
  unfold merge_identical. rewrite !decide_True by done.
  destruct g. simpl. by rewrite !(idemp_L (∪)).
Qed.

Lemma merge_from_same (g : Dataset) (rest : list Dataset) :
  Forall (λ g', g' = g) rest → merge_from merge_identical g rest = Ok g.
Proof.
  induction 1 as [|g' rest -> _ IH]; [done|].
  simpl. by rewrite merge_identical_same.
Qed.

(** A conflict with what has been merged so far, or between two of the
    groups still to come, makes the merge raise. *)
Lemma merge_from_conflict (rest : list Dataset) (acc : Dataset) :
  (∃ g, g ∈ rest ∧ conflicts acc g) ∨
  (∃ i j gi gj, (i < j)%nat ∧ rest !! i = Some gi ∧ rest !! j = Some gj ∧
                conflicts gi gj) →
  ∃ key, merge_from merge_identical acc rest
         = Raise (ConflictingMetadata key).
Proof.
  revert acc. induction rest as [|g' rest IH]; intros acc Hbad.
  { destruct Hbad as [(g & Hin & _)|(i & j & gi & gj & _ & Hi & _)].
    - by apply elem_of_nil in Hin.
    - by rewrite lookup_nil in Hi. }
  simpl. destruct (merge_identical acc g') as [acc'|e] eqn:Hmerge.
  - simpl. apply IH.
    destruct (merge_identical_covers _ _ _ Hmerge) as [Hacc Hg'].
    destruct Hbad as [(g & Hin & Hc)|(i & j & gi & gj & Hlt & Hi & Hj & Hc)].
    + apply elem_of_cons in Hin as [->|Hin].
      * destruct (merge_identical_raises _ _ Hc) as [key Hraise].
        congruence.
      * left. exists g. split; [done|].
        eapply conflicts_covers; [exact Hacc|exact Hc].
    + destruct j as [|j]; [lia|]. simpl in Hj. destruct i as [|i].
      * simpl in Hi. injection Hi as <-. left. exists gj. split.
        { by eapply list_elem_of_lookup_2. }
        eapply conflicts_covers; [exact Hg'|exact Hc].
      * simpl in Hi. right. exists i, j, gi, gj. split; [lia|done].
  - simpl. destruct Hbad as [(g & Hin & Hc)|Hbad].
    + unfold merge_identical in Hmerge.
      repeat case_decide; simplify_eq; eauto.
    + unfold merge_identical in Hmerge.
      repeat case_decide; simplify_eq; eauto.
Qed.

Lemma merge_all_conflict (groups : list Dataset) i j gi gj :
  (i < j)%nat → groups !! i = Some gi → groups !! j = Some gj →
  conflicts gi gj →
  ∃ key, merge_all merge_identical groups = Raise (ConflictingMetadata key).
Proof.
  intros Hlt Hi Hj Hc. destruct groups as [|g rest]; [done|].
  simpl. apply merge_from_conflict.
  destruct j as [|j]; [lia|]. simpl in Hj. destruct i as [|i].
  - simpl in Hi. injection Hi as <-. left. exists gj. split; [|done].
    by eapply list_elem_of_lookup_2.
  - simpl in Hi. right. exists i, j, gi, gj. split; [lia|done].
Qed.

Lemma conflicts_sym (a b : Dataset) : conflicts a b → conflicts b a.
Proof.
  intros [(k & x & y & ? & ? & ?)|(k & x & y & ? & ? & ?)];
    [left|right]; exists k, y, x; eauto.
Qed.
End IdenticalMerge.

Import SpecLibrary IdenticalMerge.

(** C4 (on the spec's MergeIdenticalRequired): let every input container
    have a Platform group and the engine be a known one.  Then the Platform
    step of a combine of AZFP files returns and writes the shared group, in
    append mode, when the Platform groups of all inputs are the same group;
    and it raises the conflicting-metadata error, writing nothing, when two
    of the inputs give different values to a variable or to an attribute of
    their Platform groups. *)
Theorem azfp_platform_identical_required (w : World)
    (input_paths : list string) (output_path engine : string)
    (groups : list Dataset) :
  read_groups w input_paths "Platform" = Ok groups →
  engine ∈ ["netcdf4"; "zarr"] →
  (∀ shared, groups ≠ [] → Forall (λ g, g = shared) groups →
     ∃ w',
       combine_platform "AZFP" input_paths output_path engine w
       = (Ok tt, w',
          [ EvOpenMfdataset input_paths "Platform" azfp_platform_kwargs engine;
            EvSaveFile shared output_path "a" engine (Some "Platform") ]) ∧
       (files w' !! output_path) ≫= (λ out, out !! "Platform") = Some shared) ∧
  (∀ i j gi gj,
     i ≠ j → groups !! i = Some gi → groups !! j = Some gj →
     conflicts gi gj →
     ∃ key,
       combine_platform "AZFP" input_paths output_path engine w
       = (Raise (ConflictingMetadata key), w,
          [ EvOpenMfdataset input_paths "Platform" azfp_platform_kwargs
                            engine ])).
Proof.
  intros Hread Hengine.
  assert (∀ r,
            result_bind (read_groups w input_paths "Platform")
                        (combine_groups azfp_platform_kwargs) = r →
            open_mfdataset input_paths "Platform" azfp_platform_kwargs engine w
            = (r, w, [EvOpenMfdataset input_paths "Platform"
                        azfp_platform_kwargs engine])) as Hopen
    by (by intros r <-).
  rewrite Hread in Hopen. simpl in Hopen.
  unfold combine_groups in Hopen. simpl in Hopen.
  unfold combine_platform. rewrite decide_True by done.
  fold azfp_platform_kwargs. unfold bind.
  split.
  - intros shared Hne Hall.
    destruct groups as [|g rest]; [done|].
    apply Forall_cons in Hall as [-> Hrest].
    rewrite (Hopen (Ok shared)) by (by apply merge_from_same).
    unfold save_file. simpl. unfold write_group.
    rewrite decide_True by done. simpl.
    eexists. split; [reflexivity|]. simpl.
    rewrite lookup_insert_eq. simpl. by rewrite lookup_insert_eq.
  - intros i j gi gj Hij Hi Hj Hc.
    assert (∃ key, merge_all merge_identical groups
                   = Raise (ConflictingMetadata key)) as [key Hraise].
    { destruct (decide (i < j)%nat).
      - by eapply merge_all_conflict.
      - eapply (merge_all_conflict groups j i); [lia|done..|].
        by apply conflicts_sym. }
    exists key. by rewrite (Hopen _ Hraise).
Qed.

(** The theorem on two sample AZFP files with the same Platform group, and
    on two whose platform names differ. *)
Lemma azfp_platform_witness :
  (∃ groups w',
     read_groups Sample.azfp_world Sample.inputs "Platform" = Ok groups ∧
     "netcdf4" ∈ ["netcdf4"; "zarr"] ∧
     groups ≠ [] ∧ Forall (λ g, g = Sample.platform "mooring") groups ∧
     (combine_platform "AZFP" Sample.inputs "leg1__combined.nc" "netcdf4"
                       Sample.azfp_world).1
     = (Ok tt, w') ∧
     (files w' !! "leg1__combined.nc") ≫= (λ out, out !! "Platform")
     = Some (Sample.platform "mooring")) ∧
  (∃ groups key,
     read_groups Sample.azfp_conflict_world Sample.inputs "Platform"
     = Ok groups ∧
     groups !! 0%nat = Some (Sample.platform "mooring A") ∧
     groups !! 1%nat = Some (Sample.platform "mooring B") ∧
     conflicts (Sample.platform "mooring A") (Sample.platform "mooring B") ∧
     (combine_platform "AZFP" Sample.inputs "leg1__combined.nc" "netcdf4"
                       Sample.azfp_conflict_world).1
     = (Raise (ConflictingMetadata key), Sample.azfp_conflict_world)).
Proof.
  assert ("netcdf4" ∈ ["netcdf4"; "zarr"]) as Hengine by (by left).
  split.
  - assert (read_groups Sample.azfp_world Sample.inputs "Platform"
            = Ok [Sample.platform "mooring"; Sample.platform "mooring"])
      as Hread by compute_done.
    destruct (azfp_platform_identical_required _ _ "leg1__combined.nc" _ _
                Hread Hengine) as [Hsame _].
    assert ([Sample.platform "mooring"; Sample.platform "mooring"] ≠ [])
      as Hne by discriminate.
    assert (Forall (λ g, g = Sample.platform "mooring")
              [Sample.platform "mooring"; Sample.platform "mooring"])
      as Hall by (by repeat constructor).
    destruct (Hsame _ Hne Hall) as (w' & Hrun & Hout).
    eexists _, w'. rewrite Hrun.
    exact (conj Hread (conj Hengine (conj Hne (conj Hall
             (conj eq_refl Hout))))).
  - assert (read_groups Sample.azfp_conflict_world Sample.inputs "Platform"
            = Ok [Sample.platform "mooring A"; Sample.platform "mooring B"])
      as Hread by compute_done.
    destruct (azfp_platform_identical_required _ _ "leg1__combined.nc" _ _
                Hread Hengine) as [_ Hdiff].
    assert (conflicts (Sample.platform "mooring A")
                      (Sample.platform "mooring B")) as Hc.
    { right. exists "platform_name", (AStr "mooring A"), (AStr "mooring B").
      split; [compute_done|]. split; [compute_done|discriminate]. }
    destruct (Hdiff 0%nat 1%nat _ _ ltac:(discriminate) eq_refl eq_refl Hc)
      as [key Hrun].
    eexists _, key. rewrite Hrun.
    exact (conj Hread (conj eq_refl (conj eq_refl (conj Hc eq_refl)))).
Defined.

(** ** C7: what a path specification resolves to *)

Lemma str_rfind_from_spec (c : ascii) (s : string) (i : Z) :
  0 ≤ i →
  str_rfind_from c s i = -1 ∨
  (i ≤ str_rfind_from c s i < i + Z.of_nat (String.length s) ∧
   String.get (Z.to_nat (str_rfind_from c s i - i)) s = Some c).
Proof.
  revert i. induction s as [|a s IH]; intros i Hi; simpl; [by left|].
  destruct (IH (i + 1)) as [Hnone|[Hrange Hget]]; [lia|..].
  - rewrite Hnone. destruct (decide (0 ≤ -1)) as [?|_]; [lia|].
    destruct (decide (a = c)) as [->|?]; [right|by left].
    split; [lia|]. by rewrite Z.sub_diag.
  - destruct (decide (0 ≤ str_rfind_from c s (i + 1))) as [_|?]; [|lia].
    right. split; [lia|].
    replace (Z.to_nat (str_rfind_from c s (i + 1) - i))
      with (S (Z.to_nat (str_rfind_from c s (i + 1) - (i + 1)))) by lia.
    done.
Qed.

Lemma str_drop_get (n : nat) (s : string) (c : ascii) :
  String.get n s = Some c → ∃ rest, str_drop n s = String c rest.
Proof.
  revert s. induction n as [|n IH]; intros [|a s]; simpl; try done.
  - intros [= ->]. eauto.
  - apply IH.
Qed.

Lemma str_app_empty_r (s : string) : s +:+ "" = s.
Proof.
  induction s as [|c s IH]; [done|]. by rewrite str_app_cons, IH.
Qed.

(** The two parts [splitext] gives make up the path again. *)
Lemma splitext_app (p : string) : (splitext p).1 +:+ (splitext p).2 = p.
Proof.
  unfold splitext. repeat case_match; simpl;
    first [apply str_take_drop | apply str_app_empty_r
          | idtac].
Qed.

(** The extension is empty or begins with the dot. *)
Lemma splitext_ext_dot (p : string) :
  (splitext p).2 = "" ∨ ∃ rest, (splitext p).2 = String "."%char rest.
Proof.
  unfold splitext. repeat case_match; simpl; try by left.
  right. unfold str_rfind in *.
  destruct (str_rfind_from_spec "."%char p 0) as [Hnone|[Hrange Hget]];
    [lia|..].
  - destruct (str_rfind_from_spec "/"%char p 0) as [Hs|[Hs _]]; lia.
  - rewrite Z.sub_0_r in Hget. by apply str_drop_get.
Qed.

(** A path with an extension ends with it. *)
Lemma splitext_endswith (p : string) :
  str_endswith p (splitext p).2 = true.
Proof. rewrite <-(splitext_app p) at 1. apply str_endswith_app. Qed.

(** *** Paths that end in an extension *)

Lemma str_rfind_from_none (c : ascii) (s : string) (i : Z) :
  str_has c s = false → str_rfind_from c s i = -1.
Proof.
  revert i. induction s as [|a s IH]; intros i; simpl; [done|].
  destruct (decide (a = c)); [done|]. intros Hs. rewrite IH by done.
  by destruct (decide (0 ≤ -1)); [lia|].
Qed.

Lemma str_rfind_from_app (c : ascii) (s1 s2 : string) (i : Z) :
  0 ≤ i →
  str_rfind_from c (s1 +:+ s2) i =
  if decide (0 ≤ str_rfind_from c s2 (i + Z.of_nat (String.length s1)))
  then str_rfind_from c s2 (i + Z.of_nat (String.length s1))
  else str_rfind_from c s1 i.
Proof.
  revert i. induction s1 as [|a s1 IH]; intros i Hi.
  - simpl. replace (i + Z.of_nat 0) with i by lia.
    change ("" +:+ s2) with s2.
    destruct (str_rfind_from_spec c s2 i Hi) as [Hnone|[Hrange _]].
    + rewrite Hnone. by case_decide.
    + rewrite decide_True; [done|lia].
  - rewrite str_app_cons. simpl. rewrite IH by lia.
    replace (i + 1 + Z.of_nat (String.length s1))
      with (i + Z.of_nat (S (String.length s1))) by lia.
    repeat case_decide; try done; lia.
Qed.

Lemma str_get_app_length (s1 s2 : string) :
  String.get (String.length s1) (s1 +:+ s2) = String.get 0 s2.
Proof. induction s1 as [|a s1 IH]; [done|]. by rewrite str_app_cons. Qed.

Lemma str_take_app_length (s1 s2 : string) :
  str_take (String.length s1) (s1 +:+ s2) = s1.
Proof.
  induction s1 as [|a s1 IH]; [done|].
  rewrite str_app_cons. simpl. by rewrite IH.
Qed.

Lemma str_drop_app_length (s1 s2 : string) :
  str_drop (String.length s1) (s1 +:+ s2) = s2.
Proof. induction s1 as [|a s1 IH]; [done|]. by rewrite str_app_cons. Qed.

Lemma str_app_assoc (s1 s2 s3 : string) :
  (s1 +:+ s2) +:+ s3 = s1 +:+ (s2 +:+ s3).
Proof.
  induction s1 as [|a s1 IH]; [done|]. by rewrite !str_app_cons, IH.
Qed.

(** A path made of a directory part that is empty or ends with the
    separator, a file name that has no separator and does not begin with
    the dot, and one of the two container extensions, has that extension. *)
Lemma splitext_container (dir name ext : string) (c : ascii) (rest : string) :
  dir = "" ∨ (∃ d, dir = d +:+ "/") →
  name = String c rest → c ≠ "."%char → str_has "/"%char name = false →
  ext ∈ [".nc"; ".zarr"] →
  splitext (dir +:+ name +:+ ext) = (dir +:+ name, ext).
Proof.
  intros Hdir Hname Hc Hslash Hext.
  assert (str_has "/"%char ext = false ∧
          ∀ k, 0 ≤ k → str_rfind_from "."%char ext k = k) as [Hext_slash Hext_dot].
  { apply elem_of_cons in Hext as [->|Hext].
    { split; [done|]. intros k Hk. simpl.
      repeat case_decide; try lia; try done. }
    apply elem_of_cons in Hext as [->|Hext]; [|by apply elem_of_nil in Hext].
    split; [done|]. intros k Hk. simpl.
    repeat case_decide; try lia; try done. }
  assert (str_rfind "/"%char (dir +:+ name +:+ ext)
          = Z.of_nat (String.length dir) - 1) as Hsep.
  { unfold str_rfind. rewrite str_rfind_from_app by lia.
    rewrite (str_rfind_from_app _ name ext) by lia.
    rewrite (str_rfind_from_none "/"%char ext) by done.
    destruct (decide (0 ≤ -1)) as [?|_]; [lia|].
    rewrite (str_rfind_from_none "/"%char name) by done.
    destruct (decide (0 ≤ -1)) as [?|_]; [lia|].
    destruct Hdir as [->|[d ->]]; [done|].
    rewrite str_rfind_from_app by lia. simpl.
    repeat case_decide; try lia; try done.
    all: rewrite str_length_app in *; simpl in *; lia. }
  assert (str_rfind "."%char (dir +:+ name +:+ ext)
          = Z.of_nat (String.length dir) + Z.of_nat (String.length name))
    as Hdot.
  { unfold str_rfind. rewrite str_rfind_from_app by lia.
    rewrite (str_rfind_from_app _ name ext) by lia.
    rewrite Hext_dot by lia.
    repeat case_decide; try lia; try done. }
  unfold splitext. rewrite Hsep, Hdot.
  rewrite decide_True by lia.
  replace (Z.to_nat (Z.of_nat (String.length dir) +
                     Z.of_nat (String.length name) -
                     (Z.of_nat (String.length dir) - 1 + 1)))
    with (String.length name) by lia.
  replace (Z.of_nat (String.length dir) - 1 + 1)
    with (Z.of_nat (String.length dir)) by lia.
  assert (non_dot_before (dir +:+ name +:+ ext)
            (Z.of_nat (String.length dir)) (String.length name) = true)
    as ->.
  { rewrite Hname at 2. simpl non_dot_before.
    rewrite Nat2Z.id, str_get_app_length. rewrite Hname. simpl String.get.
    revert Hc. clear. by destruct c as [[] [] [] [] [] [] [] []]. }
  replace (Z.to_nat (Z.of_nat (String.length dir) +
                     Z.of_nat (String.length name)))
    with (String.length (dir +:+ name))
    by (rewrite str_length_app; lia).
  rewrite <-str_app_assoc.
  by rewrite str_take_app_length, str_drop_app_length.
Qed.

(** A name made of dots only before the extension has no extension. *)
Example splitext_hidden : splitext ".nc" = (".nc", "").
Proof. reflexivity. Qed.

Section PathResolution.
Context {W : Type} `{Storage W}.
Import EchoDataBase.

Lemma get_files_from_dir_sorted (folder : string) (children : list string)
    (w w' : W) :
  os_listdir folder w = (Ok children, w') →
  ∃ files,
    get_files_from_dir folder w = (Ok files, w', []) ∧
    StronglySorted String.le files ∧
    files ≡ₚ filter (λ f, known_ext f) children.
Proof.
  intros Hls. unfold get_files_from_dir. rewrite Hls. simpl.
  eexists. split; [reflexivity|]. split.
  - apply StronglySorted_merge_sort; apply _.
  - apply merge_sort_Permutation.
Qed.
End PathResolution.

(** C7: what [_update_file_list] makes of a path specification.  A string
    whose extension is [.nc] or [.zarr] ends with that extension and is kept
    as the single file, and so is every path made of a directory part, a file
    name that does not begin with the dot, and [.nc] or [.zarr]; a string
    with no extension is listed as a directory
    and gives the children with a known extension in lexical order; a list
    is kept as it is, in the caller's order; a string with any other
    extension and a value that is neither a string nor a list are rejected
    with the error "Unsupported file path", also when assigned to a pointer
    through [_update_data_pointer]. *)
Theorem update_file_list_resolution {W} `{Storage W}
    (self : gmap string pyobj) (path : pyobj) (file_list : string) (w : W) :
  (∀ p, path = PyStr p → (splitext p).2 ∈ [".nc"; ".zarr"] →
     (str_endswith p ".nc" = true ∨ str_endswith p ".zarr" = true) ∧
     EchoDataBase._update_file_list self path file_list w
     = (Ok (<[file_list := PyStr p]> self), w, [])) ∧
  (∀ dir name ext c rest,
     dir = "" ∨ (∃ d, dir = d +:+ "/") →
     name = String c rest → c ≠ "."%char → str_has "/"%char name = false →
     ext ∈ [".nc"; ".zarr"] →
     EchoDataBase._update_file_list self (PyStr (dir +:+ name +:+ ext))
                                    file_list w
     = (Ok (<[file_list := PyStr (dir +:+ name +:+ ext)]> self), w, [])) ∧
  (∀ p children w', path = PyStr p → (splitext p).2 = "" →
     os_listdir p w = (Ok children, w') →
     ∃ files,
       EchoDataBase._update_file_list self path file_list w
       = (Ok (<[file_list := PyList files]> self), w', []) ∧
       StronglySorted String.le files ∧
       files ≡ₚ filter (λ f, known_ext f) children) ∧
  (∀ l, path = PyList l →
     EchoDataBase._update_file_list self path file_list w
     = (Ok (<[file_list := PyList l]> self), w, [])) ∧
  (∀ p, path = PyStr p → (splitext p).2 ∉ [""; ".nc"; ".zarr"] →
     EchoDataBase._update_file_list self path file_list w
     = (Raise (ValueError "Unsupported file path"), w, [])) ∧
  ((∀ p, path ≠ PyStr p) → (∀ l, path ≠ PyList l) →
     EchoDataBase._update_file_list self path file_list w
     = (Raise (ValueError "Unsupported file path"), w, []) ∧
     (path ≠ PyNone → ∀ arr_type,
        EchoDataBase._update_data_pointer self path arr_type w
        = (Raise (ValueError "Unsupported file path"), w, []))).
Proof.
  assert (∀ p, (splitext p).2 ∈ [".nc"; ".zarr"] →
            EchoDataBase._update_file_list self (PyStr p) file_list w
            = (Ok (<[file_list := PyStr p]> self), w, [])) as Hfile.
  { intros p Hext. unfold EchoDataBase._update_file_list.
    destruct (decide ((splitext p).2 = "")) as [Heq|_].
    { rewrite Heq in Hext. exfalso. revert Hext.
      rewrite !elem_of_cons, elem_of_nil. intros [?|[?|[]]]; discriminate. }
    by rewrite decide_True. }
  split; [|split; [|split; [|split; [|split]]]].
  - intros p -> Hext. split; [|by apply Hfile].
    + pose proof (splitext_endswith p) as Hend.
      apply elem_of_cons in Hext as [Hext|Hext]; [left; by rewrite <-Hext|].
      apply elem_of_cons in Hext as [Hext|Hext]; [right; by rewrite <-Hext|].
      by apply elem_of_nil in Hext.
  - intros dir name ext c rest Hdir Hname Hc Hslash Hext. apply Hfile.
    by rewrite (splitext_container dir name ext c rest).
  - intros p children w' -> Hext Hls.
    destruct (get_files_from_dir_sorted p children w w' Hls)
      as (files & Hfiles & Hsorted & Hperm).
    exists files. split; [|done].
    unfold EchoDataBase._update_file_list. rewrite decide_True by done.
    unfold bind. by rewrite Hfiles.
  - by intros l ->.
  - intros p -> Hext. unfold EchoDataBase._update_file_list.
    rewrite !elem_of_cons, elem_of_nil in Hext.
    rewrite decide_False by tauto.
    rewrite decide_False; [done|].
    rewrite !elem_of_cons, elem_of_nil. tauto.
  - intros Hstr Hlist.
    assert (EchoDataBase._update_file_list self path file_list w
            = (Raise (ValueError "Unsupported file path"), w, [])) as Hraise.
    { destruct path as [|s|l|l|z|ds|f]; try done;
        by first [destruct (Hstr s)|destruct (Hlist l)]. }
    split; [done|]. intros Hnone arr_type.
    unfold EchoDataBase._update_data_pointer.
    rewrite decide_False by done. unfold bind.
    destruct path as [|s|l|l|z|ds|f]; try done;
      by first [destruct (Hstr s)|destruct (Hlist l)].
Qed.

(** The theorem on the sample store: a single file, the directory of the
    spec's example, a list, a text file, a number, and a file in a
    directory. *)
Lemma update_file_list_witness :
  let w := SampleStorage.world in
  let self : gmap string pyobj := ∅ in
  ((splitext "leg1.nc").2 ∈ [".nc"; ".zarr"]) ∧
  EchoDataBase._update_file_list self (PyStr "leg1.nc") "_raw_path" w
  = (Ok {[ "_raw_path" := PyStr "leg1.nc" ]}, w, []) ∧
  (splitext "survey").2 = "" ∧
  os_listdir "survey" w = (Ok ["c.nc"; "a.zarr"; "notes.txt"; "b.zarr"], w) ∧
  EchoDataBase._update_file_list self (PyStr "survey") "_raw_path" w
  = (Ok {[ "_raw_path" := PyList ["a.zarr"; "b.zarr"; "c.nc"] ]}, w, []) ∧
  EchoDataBase._update_file_list self (PyList ["b.nc"; "a.nc"]) "_raw_path" w
  = (Ok {[ "_raw_path" := PyList ["b.nc"; "a.nc"] ]}, w, []) ∧
  ((splitext "notes.txt").2 ∉ [""; ".nc"; ".zarr"]) ∧
  EchoDataBase._update_file_list self (PyStr "notes.txt") "_raw_path" w
  = (Raise (ValueError "Unsupported file path"), w, []) ∧
  EchoDataBase._update_data_pointer self (PyInt 7) "raw" w
  = (Raise (ValueError "Unsupported file path"), w, []) ∧
  str_has "/"%char "leg2" = false ∧
  EchoDataBase._update_file_list self (PyStr ("data/" +:+ "leg2" +:+ ".zarr"))
                                 "_raw_path" w
  = (Ok {[ "_raw_path" := PyStr "data/leg2.zarr" ]}, w, []).
Proof.
  intros w self.
  assert ((splitext "leg1.nc").2 ∈ [".nc"; ".zarr"]) as Hnc by compute_done.
  assert ((splitext "survey").2 = "") as Hdir by (compute_done).
  assert (os_listdir "survey" w
          = (Ok ["c.nc"; "a.zarr"; "notes.txt"; "b.zarr"], w)) as Hls
    by (compute_done).
  assert ((splitext "notes.txt").2 ∉ [""; ".nc"; ".zarr"]) as Htxt
    by compute_done.
  destruct (update_file_list_resolution self (PyStr "leg1.nc") "_raw_path" w)
    as (Hfile & _).
  destruct (update_file_list_resolution self (PyStr "survey") "_raw_path" w)
    as (_ & _ & Hlist & _).
  destruct (update_file_list_resolution self (PyList ["b.nc"; "a.nc"])
              "_raw_path" w) as (_ & _ & _ & Hkeep & _).
  destruct (update_file_list_resolution self (PyStr "notes.txt")
              "_raw_path" w) as (_ & _ & _ & _ & Hbad & _).
  destruct (update_file_list_resolution self (PyInt 7) "_raw_path" w)
    as (_ & _ & _ & _ & _ & Hother).
  destruct (Hfile _ eq_refl Hnc) as [_ Hfile'].
  destruct (Hlist _ _ _ eq_refl Hdir Hls) as (files & Hlist' & _ & _).
  destruct (Hother ltac:(discriminate) ltac:(discriminate)) as [_ Hptr].
  split; [exact Hnc|]. split; [exact Hfile'|]. split; [exact Hdir|].
  split; [exact Hls|]. split; [compute_done|].
  split; [exact (Hkeep _ eq_refl)|]. split; [exact Htxt|].
  split; [exact (Hbad _ eq_refl Htxt)|].
  split; [exact (Hptr ltac:(discriminate) "raw")|].
  destruct (update_file_list_resolution self PyNone "_raw_path" w)
    as (_ & Hname & _).
  assert (str_has "/"%char "leg2" = false) as Hslash by reflexivity.
  split; [exact Hslash|].
  exact (Hname "data/" "leg2" ".zarr" "l"%char "eg2"
           (or_intror (ex_intro _ "data" eq_refl)) eq_refl
           ltac:(discriminate) Hslash ltac:(compute_done)).
Defined.

(** ** C8: reading a data property that has not been set *)

(** C8: for every EchoData object whose [_Sv], [_Sv_clean], [_TS] or [_MVBS]
    is [None], reading the property of that name prints the message that
    the data has not been calibrated, gives [None] and does not raise; the
    world is left as it is. *)
Theorem unset_property_is_none {W} `{Storage W}
    (self : gmap string pyobj) (w : W) :
  (self !! "_Sv" = Some PyNone →
     EchoDataBase.Sv self w
     = (Ok PyNone, w, [EvPrint EchoDataBase.unavailable_msg])) ∧
  (self !! "_Sv_clean" = Some PyNone →
     EchoDataBase.Sv_clean self w
     = (Ok PyNone, w, [EvPrint EchoDataBase.unavailable_msg])) ∧
  (self !! "_TS" = Some PyNone →
     EchoDataBase.TS self w
     = (Ok PyNone, w, [EvPrint EchoDataBase.unavailable_msg])) ∧
  (self !! "_MVBS" = Some PyNone →
     EchoDataBase.MVBS self w
     = (Ok PyNone, w, [EvPrint EchoDataBase.unavailable_msg])).
Proof.
  unfold EchoDataBase.Sv, EchoDataBase.Sv_clean, EchoDataBase.TS,
    EchoDataBase.MVBS, EchoDataBase.getattr, bind, lift.
  split_and!; by intros ->.
Qed.

(** The theorem at that object, none of whose derived data has been set. *)
Lemma unset_property_witness :
  EchoDataBase.__init__ (PyStr "leg1.nc") PyNone PyNone PyNone PyNone
                        SampleStorage.world
  = (Ok sample_object, SampleStorage.world, []) ∧
  sample_object !! "_Sv" = Some PyNone ∧
  sample_object !! "_Sv_clean" = Some PyNone ∧
  sample_object !! "_TS" = Some PyNone ∧
  sample_object !! "_MVBS" = Some PyNone ∧
  EchoDataBase.Sv sample_object SampleStorage.world
  = (Ok PyNone, SampleStorage.world, [EvPrint EchoDataBase.unavailable_msg]) ∧
  EchoDataBase.Sv_clean sample_object SampleStorage.world
  = (Ok PyNone, SampleStorage.world, [EvPrint EchoDataBase.unavailable_msg]) ∧
  EchoDataBase.TS sample_object SampleStorage.world
  = (Ok PyNone, SampleStorage.world, [EvPrint EchoDataBase.unavailable_msg]) ∧
  EchoDataBase.MVBS sample_object SampleStorage.world
  = (Ok PyNone, SampleStorage.world, [EvPrint EchoDataBase.unavailable_msg]).
Proof.
  destruct (unset_property_is_none sample_object SampleStorage.world)
    as (HSv & HSv_clean & HTS & HMVBS).
  assert (sample_object !! "_Sv" = Some PyNone) as H1
    by (compute_done).
  assert (sample_object !! "_Sv_clean" = Some PyNone) as H2
    by (compute_done).
  assert (sample_object !! "_TS" = Some PyNone) as H3
    by (compute_done).
  assert (sample_object !! "_MVBS" = Some PyNone) as H4
    by (compute_done).
  split; [compute_done|].
  split; [exact H1|]. split; [exact H2|]. split; [exact H3|].
  split; [exact H4|]. split; [exact (HSv H1)|].
  split; [exact (HSv_clean H2)|]. split; [exact (HTS H3)|].
  exact (HMVBS H4).
Defined.

(** ** C9: constructing an EchoData object *)

Section Pointers.
Context {W : Type} `{Storage W}.
Import EchoDataBase.

Lemma update_file_list_ok (self self' : gmap string pyobj) (path : pyobj)
    (file_list : string) (w w' : W) l :
  _update_file_list self path file_list w = (Ok self', w', l) →
  ∃ v, self' = <[file_list := v]> self ∧ resolved path v.
Proof.
  unfold _update_file_list, resolved.
  destruct path as [|p|fl|fl|z|ds|f]; try done.
  - destruct (decide ((splitext p).2 = "")) as [Hdir|Hext].
    + unfold bind. destruct (get_files_from_dir p w) as [[[files|e] w1] l1];
        [|done].
      intros [= <- <- <-]. exists (PyList files). split; [done|].
      right; right. by exists p, files.
    + case_decide; [|done]. intros [= <- <- <-].
      exists (PyStr p). split; [done|]. right; left. by exists p.
  - intros [= <- <- <-]. exists (PyList fl). split; [done|]. left.
    by exists fl.
Qed.

Lemma update_data_pointer_ok (self self' : gmap string pyobj) (path : pyobj)
    (arr_type : string) (w w' : W) l :
  _update_data_pointer self path arr_type w = (Ok self', w', l) →
  "_" +:+ arr_type ≠ ("_" +:+ arr_type) +:+ "_path" →
  (∃ v, self' !! (("_" +:+ arr_type) +:+ "_path") = Some v ∧
        ((path = PyNone ∧ v = PyNone) ∨ resolved path v)) ∧
  (∀ name, name ≠ "_" +:+ arr_type →
           name ≠ ("_" +:+ arr_type) +:+ "_path" →
           self' !! name = self !! name).
Proof.
  unfold _update_data_pointer. intros Hrun Hne.
  destruct (decide (path = PyNone)) as [->|Hpath].
  - injection Hrun as <- <- <-. unfold setattr. split.
    + exists PyNone. rewrite lookup_insert_eq. auto.
    + intros name ? ?. by rewrite !lookup_insert_ne.
  - unfold bind in Hrun.
    destruct (_update_file_list _ _ _ w) as [[[self1|e] w1] l1] eqn:Hlist;
      [|done].
    apply update_file_list_ok in Hlist as (v & -> & Hres).
    unfold lift, getattr in Hrun. rewrite lookup_insert_eq in Hrun.
    destruct (open_paths v w1) as [[[ds|e] w2] l2]; [|done].
    injection Hrun as <- <- <-. unfold setattr. split.
    + exists v. rewrite lookup_insert_ne, lookup_insert_eq by done. auto.
    + intros name ? ?. by rewrite !lookup_insert_ne.
Qed.

(** After the five pointer assignments [_raw_path] holds what the
    [raw_path] argument was resolved to. *)
Lemma init_pointers_raw_path
    (raw_path Sv_path Sv_clean_path TS_path MVBS_path : pyobj)
    (self : gmap string pyobj) (w w' : W) l :
  init_pointers raw_path Sv_path Sv_clean_path TS_path MVBS_path w
  = (Ok self, w', l) →
  ∃ v, self !! "_raw_path" = Some v ∧
       ((raw_path = PyNone ∧ v = PyNone) ∨ resolved raw_path v).
Proof.
  unfold init_pointers, bind. intros Hrun.
  repeat match type of Hrun with
         | context [_update_data_pointer ?s ?p ?t ?w0] =>
             let Hup := fresh "Hup" in
             destruct (_update_data_pointer s p t w0)
               as [[[?|?] ?] ?] eqn:Hup; [|done];
             apply update_data_pointer_ok in Hup as [? ?];
             [|by compute_done]
         end.
  injection Hrun as <- <- <-. unfold setattr.
  repeat match goal with
         | Hv : ∃ v, _ !! _ = Some v ∧ _ |- _ => destruct Hv as (? & ? & ?)
         end.
  rewrite !lookup_insert_ne by compute_done.
  repeat match goal with
         | Hframe : ∀ name, _ → _ → ?s' !! name = _ |- context [?s' !! _] =>
             rewrite Hframe by compute_done
         end.
  eauto.
Qed.
End Pointers.

(** C9 (as the source has it): a construction returns only when [raw_path]
    is a string with the extension [.nc] or [.zarr], which then is the
    [_raw_path] of the object.  When [raw_path] is [None], a list, or a
    string with no extension (a directory, resolved to a list) and the five
    pointer assignments have gone through, [_set_file_format] raises the
    attribute error for [endswith] on the value [_raw_path] holds, and so
    does [__init__]; when one of the pointer assignments raises, [__init__]
    raises that exception.  The subclasses construct as the base class. *)
Theorem init_requires_string_raw_path {W} `{Storage W}
    (raw_path Sv_path Sv_clean_path TS_path MVBS_path : pyobj) (w : W) :
  (∀ self w' l,
     EchoDataBase.__init__ raw_path Sv_path Sv_clean_path TS_path MVBS_path w
     = (Ok self, w', l) →
     ∃ p, raw_path = PyStr p ∧ (splitext p).2 ∈ [".nc"; ".zarr"] ∧
          self !! "_raw_path" = Some (PyStr p)) ∧
  (∀ self w' l,
     EchoDataBase.init_pointers raw_path Sv_path Sv_clean_path TS_path
                                MVBS_path w
     = (Ok self, w', l) →
     raw_path = PyNone ∨ (∃ fl, raw_path = PyList fl) ∨
     (∃ p, raw_path = PyStr p ∧ (splitext p).2 = "") →
     ∃ v, self !! "_raw_path" = Some v ∧ (∀ s, v ≠ PyStr s) ∧
          EchoDataBase._set_file_format self
          = Raise (AttributeError (type_name v) "endswith") ∧
          EchoDataBase.__init__ raw_path Sv_path Sv_clean_path TS_path
                                MVBS_path w
          = (Raise (AttributeError (type_name v) "endswith"), w', l)) ∧
  (∀ e w' l,
     EchoDataBase.init_pointers raw_path Sv_path Sv_clean_path TS_path
                                MVBS_path w
     = (Raise e, w', l) →
     EchoDataBase.__init__ raw_path Sv_path Sv_clean_path TS_path MVBS_path w
     = (Raise e, w', l)) ∧
  EchoDataAZFP.__init__ raw_path Sv_path Sv_clean_path TS_path MVBS_path w
  = EchoDataBase.__init__ raw_path Sv_path Sv_clean_path TS_path MVBS_path w ∧
  EchoDataEK60.__init__ raw_path Sv_path Sv_clean_path TS_path MVBS_path w
  = EchoDataBase.__init__ raw_path Sv_path Sv_clean_path TS_path MVBS_path w ∧
  EchoDataEK80.__init__ raw_path Sv_path Sv_clean_path TS_path MVBS_path w
  = EchoDataBase.__init__ raw_path Sv_path Sv_clean_path TS_path MVBS_path w.
Proof.
  assert (∀ self v, self !! "_raw_path" = Some v → (∀ s, v ≠ PyStr s) →
            EchoDataBase._set_file_format self
            = Raise (AttributeError (type_name v) "endswith")) as Hformat.
  { intros self v Hv Hs. unfold EchoDataBase._set_file_format,
      EchoDataBase.raw_path, EchoDataBase.getattr. rewrite Hv. simpl.
    destruct v; try done. by destruct (Hs s). }
  split; [|split; [|split]].
  - intros self w' l. unfold EchoDataBase.__init__, bind.
    destruct (EchoDataBase.init_pointers _ _ _ _ _ w)
      as [[[self0|e] w0] l0] eqn:Hptr; [|done].
    destruct (init_pointers_raw_path _ _ _ _ _ _ _ _ _ Hptr) as (v & Hv & Hres).
    unfold lift.
    destruct (EchoDataBase._set_file_format self0) as [self1|e] eqn:Hfmt;
      [|done].
    destruct (EchoDataBase._set_dataset_handlers self1) as [self2|e] eqn:Hhdl;
      [|done].
    intros [= <- <- <-].
    assert ((∃ p, v = PyStr p) ∨ (∀ s, v ≠ PyStr s)) as [[p ->]|Hnot]
      by (destruct v; eauto).
    2:{ by rewrite (Hformat self0 v) in Hfmt. }
    exists p.
    assert (raw_path = PyStr p ∧ (splitext p).2 ∈ [".nc"; ".zarr"])
      as [-> Hext].
    { destruct Hres as [[_ ?]|[(? & _ & ?)|[(? & -> & ? & [= ->])
                                            |(? & ? & _ & _ & ?)]]];
        done. }
    split; [done|]. split; [done|].
    assert (self1 !! "_raw_path" = Some (PyStr p)) as Hv1.
    { revert Hfmt. unfold EchoDataBase._set_file_format,
        EchoDataBase.raw_path, EchoDataBase.getattr,
        EchoDataBase.setattr. rewrite Hv. simpl.
      repeat case_match; intros [= <-]; by rewrite ?lookup_insert_ne. }
    revert Hhdl. unfold EchoDataBase._set_dataset_handlers,
      EchoDataBase.getattr, EchoDataBase.setattr.
    destruct (self1 !! "_file_format"); simpl; [|done].
    repeat case_decide; intros [= <-]; by rewrite ?lookup_insert_ne.
  - intros self w' l Hptr Hshape.
    destruct (init_pointers_raw_path _ _ _ _ _ _ _ _ _ Hptr) as (v & Hv & Hres).
    assert (∀ s, v ≠ PyStr s) as Hs.
    { intros s ->.
      destruct Hres as [[_ ?]|[(? & _ & ?)|[(p & -> & Hext & _)
                                            |(? & ? & _ & _ & ?)]]];
        try done.
      destruct Hshape as [?|[[? ?]|(? & [= <-] & Hdir)]]; try done.
      rewrite Hdir in Hext. revert Hext.
      rewrite !elem_of_cons, elem_of_nil. intros [?|[?|[]]]; discriminate. }
    exists v. split; [done|]. split; [done|].
    split; [by apply Hformat|].
    unfold EchoDataBase.__init__, bind, lift. rewrite Hptr.
    rewrite (Hformat self v) by done. by rewrite (right_id_L [] (++)).
  - intros e w' l Hptr. unfold EchoDataBase.__init__, bind. by rewrite Hptr.
  - done.
Qed.

(** The theorem at [EchoDataBase("leg1.nc")], which returns, at the default
    [EchoDataBase()], which raises in [_set_file_format], and at a
    construction whose [TS_path] is a number, which raises before. *)
Lemma init_witness :
  let w := SampleStorage.world in
  (EchoDataBase.__init__ (PyStr "leg1.nc") PyNone PyNone PyNone PyNone w
   = (Ok sample_object, w, []) ∧
   ∃ p, PyStr "leg1.nc" = PyStr p ∧ (splitext p).2 ∈ [".nc"; ".zarr"] ∧
        sample_object !! "_raw_path" = Some (PyStr p)) ∧
  (EchoDataBase.init_pointers PyNone PyNone PyNone PyNone PyNone w
   = (Ok default_pointers, w, []) ∧
   ∃ v, default_pointers !! "_raw_path" = Some v ∧ (∀ s, v ≠ PyStr s) ∧
        EchoDataBase._set_file_format default_pointers
        = Raise (AttributeError (type_name v) "endswith") ∧
        EchoDataBase.__init__ PyNone PyNone PyNone PyNone PyNone w
        = (Raise (AttributeError (type_name v) "endswith"), w, [])) ∧
  (EchoDataBase.init_pointers PyNone PyNone PyNone (PyInt 7) PyNone w
   = (Raise (ValueError "Unsupported file path"), w, []) ∧
   EchoDataBase.__init__ PyNone PyNone PyNone (PyInt 7) PyNone w
   = (Raise (ValueError "Unsupported file path"), w, [])).
Proof.
  intros w.
  assert (EchoDataBase.__init__ (PyStr "leg1.nc") PyNone PyNone PyNone PyNone
            w = (Ok sample_object, w, [])) as Hok by compute_done.
  assert (EchoDataBase.init_pointers PyNone PyNone PyNone PyNone PyNone w
          = (Ok default_pointers, w, [])) as Hptr by compute_done.
  destruct (init_requires_string_raw_path (PyStr "leg1.nc") PyNone PyNone
              PyNone PyNone w) as (Hstr & _).
  destruct (init_requires_string_raw_path PyNone PyNone PyNone PyNone PyNone w)
    as (_ & Hnone & _).
  assert (EchoDataBase.init_pointers PyNone PyNone PyNone (PyInt 7) PyNone w
          = (Raise (ValueError "Unsupported file path"), w, [])) as Hbad
    by compute_done.
  destruct (init_requires_string_raw_path PyNone PyNone PyNone (PyInt 7)
              PyNone w) as (_ & _ & Hprop & _).
  split; [|split].
  - split; [exact Hok|]. exact (Hstr _ _ _ Hok).
  - split; [exact Hptr|]. exact (Hnone _ _ _ Hptr (or_introl eq_refl)).
  - split; [exact Hbad|]. exact (Hprop _ _ _ Hbad).
Defined.

(** With the default [raw_path] and a text file as [Sv_path] the exception
    does not come from [_set_file_format]: the assignment of [Sv_path]
    raises the error of the unsupported path, and [__init__] ends there. *)
Lemma init_raises_before_set_file_format :
  let run :=
    EchoDataBase.__init__ PyNone (PyStr "Sv.txt") PyNone PyNone PyNone
                          SampleStorage.world in
  EchoDataBase.init_pointers PyNone (PyStr "Sv.txt") PyNone PyNone PyNone
                             SampleStorage.world
  = (Raise (ValueError "Unsupported file path"), SampleStorage.world, []) ∧
  run = (Raise (ValueError "Unsupported file path"), SampleStorage.world, []) ∧
  ¬ ∃ self, EchoDataBase._set_file_format self
            = Raise (ValueError "Unsupported file path").
Proof.
  intros run. split; [compute_done|]. split; [compute_done|].
  intros [self Hfmt]. revert Hfmt.
  unfold EchoDataBase._set_file_format, EchoDataBase.raw_path,
    EchoDataBase.getattr.
  destruct (self !! "_raw_path") as [[]|]; simpl; try done.
  repeat case_match; done.
Qed.

(** ** A marker put before the extension of a path *)

Lemma str_rfind_from_shift (c : ascii) (s : string) (i j : Z) :
  0 ≤ i → 0 ≤ j →
  str_rfind_from c s j =
  if decide (0 ≤ str_rfind_from c s i) then str_rfind_from c s i - i + j
  else -1.
Proof.
  revert i j. induction s as [|a s IH]; intros i j Hi Hj; simpl.
  { by destruct (decide (0 ≤ -1)); [lia|]. }
  rewrite (IH (i + 1) (j + 1)) by lia.
  destruct (str_rfind_from_spec c s (i + 1)) as [Hnone|[Hrange _]]; [lia|..].
  - rewrite Hnone. repeat case_decide; lia.
  - repeat case_decide; lia.
Qed.

Lemma str_has_rfind (c : ascii) (s : string) (i : Z) :
  0 ≤ i → str_rfind_from c s i = -1 → str_has c s = false.
Proof.
  revert i. induction s as [|a s IH]; intros i Hi; simpl; [done|].
  destruct (str_rfind_from_spec c s (i + 1)) as [Hnone|[Hrange _]]; [lia|..].
  - rewrite Hnone. destruct (decide (0 ≤ -1)) as [?|_]; [lia|].
    destruct (decide (a = c)); [lia|]. intros _. by apply (IH (i + 1)); [lia|].
  - rewrite decide_True by lia. lia.
Qed.

Lemma str_get_app_l (s1 s2 : string) (n : nat) :
  (n < String.length s1)%nat →
  String.get n (s1 +:+ s2) = String.get n s1.
Proof.
  revert n. induction s1 as [|a s1 IH]; intros n Hn; simpl in Hn; [lia|].
  rewrite str_app_cons. destruct n as [|n]; [done|]. simpl. apply IH. lia.
Qed.

(** The scan for a character that is not the dot looks at the characters
    from [filenameIndex] on only. *)
Lemma non_dot_before_agree (p q : string) (filenameIndex : Z) (steps : nat) :
  0 ≤ filenameIndex →
  (∀ n, (n < Z.to_nat filenameIndex + steps)%nat →
        String.get n q = String.get n p) →
  non_dot_before q filenameIndex steps = non_dot_before p filenameIndex steps.
Proof.
  revert filenameIndex. induction steps as [|n IH]; intros fi Hfi Hget;
    simpl; [done|].
  rewrite Hget by lia.
  destruct (String.get (Z.to_nat fi) p) as [a|]; [|done].
  destruct (decide (a = "."%char)) as [->|Hne].
  - apply IH; [lia|]. intros m Hm. apply Hget. lia.
  - clear -Hne. by destruct a as [[] [] [] [] [] [] [] []].
Qed.

Lemma non_dot_before_more (p : string) (filenameIndex : Z) (steps more : nat) :
  non_dot_before p filenameIndex steps = true →
  non_dot_before p filenameIndex (steps + more) = true.
Proof.
  revert filenameIndex. induction steps as [|n IH]; intros fi; simpl; [done|].
  destruct (String.get (Z.to_nat fi) p) as [a|]; [|done].
  destruct (decide (a = "."%char)) as [->|Hne]; [apply IH|].
  clear -Hne. by destruct a as [[] [] [] [] [] [] [] []].
Qed.

(** The marker goes between the two parts [splitext] gives, and the new
    path splits into the old root with the marker, and the old extension. *)
Lemma splitext_insert (p marker : string) :
  str_has "."%char marker = false → str_has "/"%char marker = false →
  splitext (((splitext p).1 +:+ marker) +:+ (splitext p).2)
  = ((splitext p).1 +:+ marker, (splitext p).2).
Proof.
  intros Hdot Hsep.
  assert (∀ c, str_has c marker = false →
            str_rfind c (p +:+ marker) = str_rfind c p) as Hplain.
  { intros c Hc. unfold str_rfind. rewrite str_rfind_from_app by lia.
    rewrite (str_rfind_from_none c marker) by done.
    by destruct (decide (0 ≤ -1)); [lia|]. }
  assert (splitext p = (p, "") →
          splitext (p +:+ marker) = (p +:+ marker, "")) as Hnone.
  { unfold splitext. rewrite !Hplain by done.
    destruct (decide (str_rfind "/"%char p < str_rfind "."%char p))
      as [Hlt|?]; [|done].
    unfold str_rfind in *.
    destruct (str_rfind_from_spec "."%char p 0) as [?|[Hrange Hget]]; [lia|..].
    { destruct (str_rfind_from_spec "/"%char p 0) as [?|[? _]]; lia. }
    assert (-1 ≤ str_rfind_from "/"%char p 0) as Hs.
    { destruct (str_rfind_from_spec "/"%char p 0) as [?|[? _]]; lia. }
    rewrite (non_dot_before_agree p (p +:+ marker)).
    - destruct (non_dot_before p _ _) eqn:Hscan; [|done].
      intros Heq. exfalso.
      assert (str_drop (Z.to_nat (str_rfind_from "."%char p 0)) p = "")
        as Hempty by congruence.
      rewrite Z.sub_0_r in Hget.
      apply str_drop_get in Hget as [rest Hrest]. congruence.
    - lia.
    - intros n Hn. apply str_get_app_l. lia. }
  destruct (splitext p) as [fname ext] eqn:Hsplit. cbn [fst snd].
  revert Hsplit. unfold splitext at 1.
  destruct (decide (str_rfind "/"%char p < str_rfind "."%char p))
    as [Hlt|?].
  2:{ intros [= <- <-]. rewrite str_app_empty_r. by apply Hnone. }
  destruct (non_dot_before p _ _) eqn:Hscan.
  2:{ intros [= <- <-]. rewrite str_app_empty_r. by apply Hnone. }
  intros [= <- <-]. clear Hnone Hplain.
  set (d := str_rfind "."%char p) in *.
  set (s := str_rfind "/"%char p) in *.
  set (t := str_take (Z.to_nat d) p).
  set (dr := str_drop (Z.to_nat d) p).
  assert (p = t +:+ dr) as Hp by (symmetry; apply str_take_drop).
  assert (0 ≤ d < Z.of_nat (String.length p)) as Hd.
  { subst d s. unfold str_rfind in *.
    destruct (str_rfind_from_spec "."%char p 0) as [?|[Hrange _]]; [lia|..].
    - destruct (str_rfind_from_spec "/"%char p 0) as [?|[? _]]; lia.
    - lia. }
  assert (String.length t = Z.to_nat d) as Hlen.
  { subst t. rewrite str_take_length. lia. }
  assert (str_rfind_from "."%char dr d = d) as Hdr_dot.
  { assert (str_rfind_from "."%char (t +:+ dr) 0 = d) as Hall
      by (by rewrite <-Hp).
    rewrite str_rfind_from_app in Hall by lia.
    replace (0 + Z.of_nat (String.length t)) with d in Hall by lia.
    destruct (decide (0 ≤ str_rfind_from "."%char dr d)); [done|].
    destruct (str_rfind_from_spec "."%char t 0) as [?|[? _]]; lia. }
  assert (str_rfind_from "/"%char dr d = -1 ∧
          str_rfind_from "/"%char t 0 = s) as [Hdr_sep Ht_sep].
  { assert (str_rfind_from "/"%char (t +:+ dr) 0 = s) as Hall
      by (by rewrite <-Hp).
    rewrite str_rfind_from_app in Hall by lia.
    replace (0 + Z.of_nat (String.length t)) with d in Hall by lia.
    destruct (str_rfind_from_spec "/"%char dr d) as [Hnone|[? _]]; [lia|..].
    - rewrite Hnone in Hall. by destruct (decide (0 ≤ -1)); [lia|].
    - rewrite decide_True in Hall by lia. lia. }
  assert (str_has "/"%char dr = false) as Hdr_has
    by (by apply (str_has_rfind _ _ d); [lia|]).
  set (m := Z.of_nat (String.length marker)).
  assert (String.length (t +:+ marker) = Z.to_nat (d + m)) as Hlen'.
  { rewrite str_length_app. lia. }
  assert (str_rfind "/"%char ((t +:+ marker) +:+ dr) = s) as Hsep'.
  { unfold str_rfind. rewrite str_rfind_from_app by lia.
    rewrite (str_rfind_from_none "/"%char dr) by done.
    destruct (decide (0 ≤ -1)) as [?|_]; [lia|].
    rewrite str_rfind_from_app by lia.
    rewrite (str_rfind_from_none "/"%char marker) by done.
    by destruct (decide (0 ≤ -1)); [lia|]. }
  assert (str_rfind "."%char ((t +:+ marker) +:+ dr) = d + m) as Hdot'.
  { unfold str_rfind. rewrite str_rfind_from_app by lia.
    rewrite (str_rfind_from_shift _ dr d) by lia.
    rewrite Hdr_dot. rewrite (decide_True (P := 0 ≤ d)) by lia.
    rewrite decide_True by lia. lia. }
  unfold splitext. rewrite Hsep', Hdot'.
  rewrite decide_True by lia.
  replace (Z.to_nat (d + m - (s + 1)))
    with (Z.to_nat (d - (s + 1)) + Z.to_nat m)%nat by lia.
  assert (-1 ≤ s) as Hs.
  { subst s. unfold str_rfind.
    destruct (str_rfind_from_spec "/"%char p 0) as [?|[? _]]; lia. }
  rewrite non_dot_before_more.
  - rewrite <-Hlen'. by rewrite str_take_app_length, str_drop_app_length.
  - rewrite (non_dot_before_agree p); [done|lia|].
    intros n Hn. rewrite Hp, str_app_assoc.
    rewrite !str_get_app_l by lia. done.
Qed.

(** ** The path of the combined file *)

Lemma str_app_length_ne (s1 marker s2 : string) :
  marker ≠ "" → (s1 +:+ marker) +:+ s2 ≠ s1 +:+ s2.
Proof.
  intros Hm Heq. apply (f_equal String.length) in Heq.
  rewrite !str_length_app in Heq. destruct marker; [done|]. simpl in Heq. lia.
Qed.

Lemma get_combined_fname_splitext (p : string) :
  get_combined_fname p = ((splitext p).1 +:+ "__combined") +:+ (splitext p).2.
Proof. unfold get_combined_fname. by destruct (splitext p). Qed.

(** X1: the combined file is named after the first source path: the marker
    "__combined" is put between the root and the extension that
    [os.path.splitext] gives for it, so the new path has the extension of
    the source, its root is the root of the source with the marker at its
    end, and taking the marker out gives the source path back.  A local
    [FSMap] is named after its root in the same way; one on another file
    system gives the mapper of that file system for the new path. *)
Theorem get_combined_save_path_marker (p : string) (rest : list path_like) :
  let fname := (splitext p).1 in
  let ext := (splitext p).2 in
  let save_path := (fname +:+ "__combined") +:+ ext in
  get_combined_save_path (PathStr p :: rest) = Ok (SavePath save_path) ∧
  get_combined_save_path (FSMap LocalFileSystem p :: rest)
  = Ok (SavePath save_path) ∧
  (∀ protocol,
     get_combined_save_path (FSMap (RemoteFileSystem protocol) p :: rest)
     = Ok (GetMapper (RemoteFileSystem protocol) save_path)) ∧
  splitext save_path = (fname +:+ "__combined", ext) ∧
  fname +:+ ext = p.
Proof.
  intros fname ext save_path.
  unfold get_combined_save_path. cbn [list_first result_bind].
  rewrite get_combined_fname_splitext. fold fname ext save_path.
  split; [done|]. split; [done|]. split; [done|]. split.
  - by apply splitext_insert.
  - apply splitext_app.
Qed.

(** X2: [get_combined_save_path] raises the index error on the empty list
    and on no other list; its answer is read off the first source alone; and
    the path it gives is 10 characters longer than the path of that source,
    so it is never the path of the first source itself. *)
Theorem get_combined_save_path_first (source_paths : list path_like) :
  (source_paths = [] ↔
   get_combined_save_path source_paths
   = Raise (IndexError "list index out of range")) ∧
  (∀ sample_file rest, source_paths = sample_file :: rest →
     ∃ target,
       get_combined_save_path source_paths = Ok target ∧
       get_combined_save_path [sample_file] = Ok target ∧
       String.length (target_path target)
       = (String.length (path_root sample_file) + 10)%nat ∧
       target_path target ≠ path_root sample_file).
Proof.
  assert (∀ p, String.length (get_combined_fname p)
               = (String.length p + 10)%nat) as Hlen.
  { intros p. rewrite get_combined_fname_splitext, !str_length_app.
    rewrite <-(splitext_app p) at 3. rewrite str_length_app. simpl. lia. }
  assert (∀ p, get_combined_fname p ≠ p) as Hne.
  { intros p Heq. specialize (Hlen p). rewrite Heq in Hlen. lia. }
  split.
  - split; [by intros ->|]. destruct source_paths as [|[p|fs root] rest];
      [done|done|]. unfold get_combined_save_path. simpl. by case_decide.
  - intros sample_file rest ->. unfold get_combined_save_path.
    destruct sample_file as [p|fs root]; simpl.
    + eexists. split; [done|]. split; [done|]. simpl. eauto.
    + case_decide; (eexists; split; [done|]; split; [done|]; simpl; eauto).
Qed.

(** ** The removal of the files that were combined *)

Lemma splitext_trailing_sep (p : string) :
  splitext (p +:+ "/") = (p +:+ "/", "").
Proof.
  unfold splitext, str_rfind. rewrite !str_rfind_from_app by lia. simpl.
  destruct (decide (0 ≤ 0 + Z.of_nat (String.length p))) as [_|?]; [|lia].
  destruct (str_rfind_from_spec "."%char p 0) as [Hnone|[Hrange _]]; [lia|..].
  - rewrite Hnone. by rewrite decide_False by lia.
  - by rewrite decide_False by lia.
Qed.

(** X3: [remove_indiv_files] makes one call and no other, on the path it
    is given: the recursive delete of the file system for an [FSMap],
    [shutil.rmtree] for a string whose extension is ".zarr", and [os.remove]
    for every other string; its outcome and the files it leaves are those of
    that call. *)
Theorem remove_indiv_files_one_call {W} `{Files W} (path : path_like) (w : W) :
  ∃ call,
    (remove_indiv_files path w).2 = [call] ∧
    removed_path call = Some (path_root path) ∧
    (removes_tree call = true ↔
     (∃ fs root, path = FSMap fs root) ∨
     (∃ p, path = PathStr p ∧ (splitext p).2 = ".zarr")) ∧
    (remove_indiv_files path w).1 =
    match path with
    | FSMap fs root => fs_delete fs root true w
    | PathStr p =>
        if decide ((splitext p).2 = ".zarr") then shutil_rmtree p w
        else os_remove p w
    end.
Proof.
  destruct path as [p|fs root]; simpl.
  - destruct (splitext p) as [fname ext] eqn:Hsplit. cbn [snd]. case_decide.
    + unfold call_rmtree. destruct (shutil_rmtree p w) as [r w'].
      eexists. split; [done|]. split; [done|]. split; [|done].
      split; [|done]. intros _. right. exists p. by rewrite Hsplit.
    + unfold call_remove. destruct (os_remove p w) as [r w'].
      eexists. split; [done|]. split; [done|]. split; [|done].
      split; [done|]. intros [(? & ? & ?)|(? & [= <-] & Hext)]; [done|].
      by rewrite Hsplit in Hext.
  - unfold call_delete. destruct (fs_delete fs root true w) as [r w'].
    eexists. split; [done|]. split; [done|]. split; [|done].
    split; [|done]. intros _. left. eauto.
Qed.

(** X4: a string that ends with the separator has no extension, so a store
    named with a trailing separator, a ".zarr" directory among them, is
    handed to [os.remove] and not to [shutil.rmtree]. *)
Theorem remove_indiv_files_trailing_separator {W} `{Files W}
    (p : string) (w : W) :
  (splitext (p +:+ "/")).2 = "" ∧
  (remove_indiv_files (PathStr (p +:+ "/")) w).2 = [CallRemove (p +:+ "/")] ∧
  (remove_indiv_files (PathStr (p +:+ "/")) w).1 = os_remove (p +:+ "/") w.
Proof.
  unfold remove_indiv_files. rewrite splitext_trailing_sep. simpl.
  unfold call_remove. by destruct (os_remove _ w).
Qed.

(** ** The copy of a converted EK80 file *)

Lemma copy_file_new_path (file : string) :
  let new_path := ((splitext file).1 +:+ "_cw") +:+ (splitext file).2 in
  new_path ≠ file ∧
  splitext new_path = ((splitext file).1 +:+ "_cw", (splitext file).2).
Proof.
  intros new_path. split.
  - subst new_path. rewrite <-(splitext_app file) at 3.
    by apply str_app_length_ne.
  - by apply splitext_insert.
Qed.

Section CopyFile.
Context {W : Type} `{Files W}.
Import SetGroupsEK80.

(** The run of [_copy_file], call by call. *)
Lemma copy_file_run (file : string) (w : W) :
  let ext := (splitext file).2 in
  let new_path := ((splitext file).1 +:+ "_cw") +:+ ext in
  let existed := (os_path_exists new_path w).1 in
  (_copy_file file w).2 `prefix_of` copy_calls file new_path ext existed ∧
  ((_copy_file file w).1.1 = Ok new_path ∧
   (_copy_file file w).2 = copy_calls file new_path ext existed ∨
   ∃ e, (_copy_file file w).1.1 = Raise e ∧ ext ∈ [".zarr"; ".nc"]).
Proof.
  intros ext new_path existed. subst ext new_path existed.
  unfold _copy_file, copy_calls.
  destruct (splitext file) as [fname ext]. cbn [fst snd].
  unfold f_bind, call_exists.
  destruct (os_path_exists _ w) as [existed w1]. cbn [fst snd].
  assert (ext ∈ [".zarr"; ".nc"] ↔ ext = ".zarr" ∨ ext = ".nc") as Hin.
  { rewrite !elem_of_cons, elem_of_nil. tauto. }
  destruct existed; unfold f_bind, call_print, call_rmtree, call_remove,
    call_copytree, call_copyfile, f_ret;
    repeat case_decide; simplify_eq;
    repeat match goal with
           | |- context [shutil_rmtree ?p ?w0] =>
               destruct (shutil_rmtree p w0) as [[[]|?] ?]
           | |- context [os_remove ?p ?w0] =>
               destruct (os_remove p w0) as [[[]|?] ?]
           | |- context [shutil_copytree ?p ?q ?w0] =>
               destruct (shutil_copytree p q w0) as [[[]|?] ?]
           | |- context [shutil_copyfile ?p ?q ?w0] =>
               destruct (shutil_copyfile p q w0) as [[[]|?] ?]
           end;
    cbn [fst snd app];
    (split; [first [done | by repeat apply prefix_cons; apply prefix_nil]|]);
    first [by left | right; eexists; split; [done|]; apply Hin; tauto].
Qed.
End CopyFile.

(** X5: when [_copy_file] returns, it returns the path of the file with
    "_cw" put before its extension: a path that differs from the path of
    the file, has the same extension, and has the root of the file with
    "_cw" at its end.  A file whose extension is neither ".zarr" nor ".nc"
    is not copied at all, and yet the new path is returned. *)
Theorem copy_file_returns {W} `{Files W} (file : string) (w : W) :
  let ext := (splitext file).2 in
  let new_path := ((splitext file).1 +:+ "_cw") +:+ ext in
  let run := SetGroupsEK80._copy_file file w in
  new_path ≠ file ∧
  splitext new_path = ((splitext file).1 +:+ "_cw", ext) ∧
  (∀ r, run.1.1 = Ok r → r = new_path) ∧
  (ext ∉ [".zarr"; ".nc"] →
     run.1.1 = Ok new_path ∧
     Forall (λ c, ∃ msg, c = CallExists new_path ∨ c = CallPrint msg) run.2).
Proof.
  intros ext new_path run.
  destruct (copy_file_new_path file) as [Hne Hsplit].
  destruct (copy_file_run file w) as [Hpre Hrun].
  fold ext new_path run in Hne, Hsplit, Hpre, Hrun.
  split; [done|]. split; [done|]. split.
  - intros r Hr. destruct Hrun as [[Hok _]|(e & He & _)]; congruence.
  - intros Hext. destruct Hrun as [[Hok Hlog]|(e & _ & Hin)]; [|done].
    split; [done|]. rewrite Hlog. unfold copy_calls.
    rewrite !elem_of_cons, elem_of_nil in Hext.
    rewrite !(decide_False (P := ext = ".zarr")) by tauto.
    rewrite !(decide_False (P := ext = ".nc")) by tauto.
    destruct (os_path_exists new_path w).1; repeat constructor; eauto.
    Unshelve. all: exact "".
Qed.

(** X6: [_copy_file] looks at, removes and writes the new path only: every
    removal is of the new path, which is never the file itself, and every
    copy is from the file to the new path.  The calls are, in this order,
    the test whether the new path exists, when it does the message and the
    removal of the old copy, and then the copy; [shutil.rmtree] and
    [shutil.copytree] for ".zarr", [os.remove] and [shutil.copyfile] for
    ".nc".  A run that raises has made the first of these calls. *)
Theorem copy_file_calls {W} `{Files W} (file : string) (w : W) :
  let ext := (splitext file).2 in
  let new_path := ((splitext file).1 +:+ "_cw") +:+ ext in
  let run := SetGroupsEK80._copy_file file w in
  new_path ≠ file ∧
  run.2 `prefix_of` copy_calls file new_path ext (os_path_exists new_path w).1 ∧
  (is_ok run.1.1 = true →
   run.2 = copy_calls file new_path ext (os_path_exists new_path w).1) ∧
  Forall (copy_rule file new_path) run.2 ∧
  Forall (λ c, removed_path c ≠ Some file) run.2.
Proof.
  intros ext new_path run.
  destruct (copy_file_new_path file) as [Hne _].
  destruct (copy_file_run file w) as [Hpre Hrun].
  fold ext new_path run in Hne, Hpre, Hrun.
  assert (Forall (copy_rule file new_path)
            (copy_calls file new_path ext (os_path_exists new_path w).1))
    as Hall.
  { unfold copy_calls.
    destruct (os_path_exists new_path w).1; repeat case_decide;
      repeat constructor. }
  assert (Forall (copy_rule file new_path) run.2) as Hrule
    by (by eapply Forall_prefix).
  split; [done|]. split; [done|]. split.
  { intros Hok. destruct Hrun as [[_ Hlog]|(e & He & _)]; [done|].
    by rewrite He in Hok. }
  split; [done|].
  eapply Forall_impl; [exact Hrule|].
  intros [] Hc; simpl in *; try done; intros [= ->]; done.
Qed.

(** ** The data properties and the path properties *)

Section DataProperties.
Context {W : Type} `{Storage W}.
Import EchoDataBase.

Lemma getter_of_pointer (attr msg : string) (self : gmap string pyobj)
    (v : pyobj) (w : W) :
  self !! attr = Some v →
  bind (lift (getattr self attr))
       (λ v, if decide (v = PyNone) then bind (print msg) (λ _, ret PyNone)
             else ret v) w
  = if decide (v = PyNone) then (Ok PyNone, w, [EvPrint msg])
    else (Ok v, w, []).
Proof.
  intros Hv. unfold bind, lift, getattr. rewrite Hv. by case_decide.
Qed.

Lemma update_data_pointer_state (self self' : gmap string pyobj)
    (path : pyobj) (arr_type : string) (w w' : W) l :
  _update_data_pointer self path arr_type w = (Ok self', w', l) →
  "_" +:+ arr_type ≠ ("_" +:+ arr_type) +:+ "_path" →
  pointer_state path self' arr_type ∧
  unchanged_but ["_" +:+ arr_type; ("_" +:+ arr_type) +:+ "_path"] self self' ∧
  l = [].
Proof.
  unfold _update_data_pointer, pointer_state, unchanged_but.
  intros Hrun Hne.
  assert (∀ name : string,
            name ∉ ["_" +:+ arr_type; ("_" +:+ arr_type) +:+ "_path"] →
            name ≠ "_" +:+ arr_type ∧
            name ≠ ("_" +:+ arr_type) +:+ "_path") as Hnames.
  { intros name. rewrite !elem_of_cons, elem_of_nil. tauto. }
  destruct (decide (path = PyNone)) as [->|Hpath].
  - injection Hrun as <- <- <-. unfold setattr. split; [left|split; [|done]].
    + rewrite lookup_insert_eq, lookup_insert_ne, lookup_insert_eq by done.
      done.
    + intros name [? ?]%Hnames. by rewrite !lookup_insert_ne.
  - unfold bind in Hrun.
    destruct (_update_file_list _ _ _ w) as [[[self1|e] w1] l1] eqn:Hlist;
      [|done].
    assert (l1 = []) as ->.
    { revert Hlist. unfold _update_file_list.
      destruct path as [|p|fl|fl|z|ds|f]; try done;
        [|by intros [= _ _ <-]].
      repeat case_decide; try done; [|by intros [= _ _ <-]].
      unfold bind, get_files_from_dir.
      destruct (os_listdir p w) as [[?|?] ?]; simpl; [|done].
      by intros [= _ _ <-]. }
    apply update_file_list_ok in Hlist as (v & -> & Hres).
    unfold lift, getattr in Hrun. rewrite lookup_insert_eq in Hrun.
    unfold open_paths in Hrun.
    destruct (xr_open_paths v w1) as [[ds|e] w2] eqn:Hopen; [|done].
    injection Hrun as <- <- <-. unfold setattr.
    split; [right|split; [|done]].
    + split; [done|]. exists v, ds. split; [done|].
      rewrite lookup_insert_ne, !lookup_insert_eq by done. eauto.
    + intros name [? ?]%Hnames. by rewrite !lookup_insert_ne.
Qed.

Lemma pointer_state_frame (path : pyobj) (self self' : gmap string pyobj)
    (arr_type : string) :
  pointer_state path self arr_type →
  self' !! ("_" +:+ arr_type) = self !! ("_" +:+ arr_type) →
  self' !! (("_" +:+ arr_type) +:+ "_path")
  = self !! (("_" +:+ arr_type) +:+ "_path") →
  pointer_state (W:=W) path self' arr_type.
Proof. unfold pointer_state. by intros Hst -> ->. Qed.

Lemma reads_pointer_of_state (path : pyobj) (self : gmap string pyobj)
    (arr_type msg : string) :
  pointer_state path self arr_type →
  reads_pointer (W:=W)
    (bind (lift (getattr self ("_" +:+ arr_type)))
          (λ v, if decide (v = PyNone) then bind (print msg) (λ _, ret PyNone)
                else ret v))
    (getattr self (("_" +:+ arr_type) +:+ "_path")) msg path.
Proof.
  unfold pointer_state, reads_pointer.
  intros [(-> & Hattr & Hpath)|(Hne & v & ds & Hres & Hpath & Hattr & Hopen)].
  - left. split; [done|]. split; [unfold getattr; by rewrite Hpath|].
    intros w. by rewrite (getter_of_pointer _ _ _ PyNone).
  - right. split; [done|]. exists v, ds. split; [done|].
    split; [unfold getattr; by rewrite Hpath|]. split; [|done].
    intros w. by rewrite (getter_of_pointer _ _ _ (PyDataset ds)).
Qed.
End DataProperties.

(** X7: a value assigned to a data property is the value read back: after
    [ed.Sv = val] reading [ed.Sv] gives [val] and prints nothing when [val]
    is not [None], and prints the message and gives [None] when it is; the
    same for [Sv_clean], [TS], [MVBS] and [raw].  The assignment leaves
    every other attribute as it was, the path of that data among them. *)
Theorem data_setter_then_getter {W} `{Storage W}
    (self : gmap string pyobj) (val : pyobj) (w : W) :
  let read (msg : string) : result pyobj * W * list Event :=
    if decide (val = PyNone) then (Ok PyNone, w, [EvPrint msg])
    else (Ok val, w, []) in
  EchoDataBase.Sv (EchoDataBase.set_Sv self val) w
  = read EchoDataBase.unavailable_msg ∧
  EchoDataBase.Sv_clean (EchoDataBase.set_Sv_clean self val) w
  = read EchoDataBase.unavailable_msg ∧
  EchoDataBase.TS (EchoDataBase.set_TS self val) w
  = read EchoDataBase.unavailable_msg ∧
  EchoDataBase.MVBS (EchoDataBase.set_MVBS self val) w
  = read EchoDataBase.unavailable_msg ∧
  EchoDataBase.raw (EchoDataBase.set_raw self val) w
  = read "No raw backscatter data availible" ∧
  unchanged_but ["_Sv"] self (EchoDataBase.set_Sv self val) ∧
  unchanged_but ["_Sv_clean"] self (EchoDataBase.set_Sv_clean self val) ∧
  unchanged_but ["_TS"] self (EchoDataBase.set_TS self val) ∧
  unchanged_but ["_MVBS"] self (EchoDataBase.set_MVBS self val) ∧
  unchanged_but ["_raw"] self (EchoDataBase.set_raw self val).
Proof.
  intros read. subst read.
  unfold EchoDataBase.Sv, EchoDataBase.Sv_clean, EchoDataBase.TS,
    EchoDataBase.MVBS, EchoDataBase.raw, EchoDataBase.set_Sv,
    EchoDataBase.set_Sv_clean, EchoDataBase.set_TS, EchoDataBase.set_MVBS,
    EchoDataBase.set_raw, EchoDataBase.setattr.
  split_and!;
    first [ by apply getter_of_pointer, lookup_insert_eq
          | intros name Hname; apply lookup_insert_ne;
            intros <-; apply Hname; by left ].
Qed.

(** X8: a path assigned to a path property is resolved and opened: when
    the assignment [ed.Sv_path = val] returns, reading [ed.Sv_path] gives
    what [val] was resolved to and reading [ed.Sv] gives, with no message,
    the dataset [xr.open_mfdataset] returned for it; for [val = None] both
    read [None], whatever [ed.Sv] held before.  The assignment changes the
    two attributes of that data type and no other, and prints nothing.  The
    same holds of the path properties of [raw], [Sv_clean], [TS] and
    [MVBS]. *)
Theorem path_setter_then_getter {W} `{Storage W}
    (self self' : gmap string pyobj) (val : pyobj) (w w' : W)
    (l : list Event) :
  (EchoDataBase.set_raw_path self val w = (Ok self', w', l) →
     reads_pointer (EchoDataBase.raw self') (EchoDataBase.raw_path self')
                   "No raw backscatter data availible" val ∧
     unchanged_but ["_raw"; "_raw_path"] self self' ∧ l = []) ∧
  (EchoDataBase.set_Sv_path self val w = (Ok self', w', l) →
     reads_pointer (EchoDataBase.Sv self') (EchoDataBase.Sv_path self')
                   EchoDataBase.unavailable_msg val ∧
     unchanged_but ["_Sv"; "_Sv_path"] self self' ∧ l = []) ∧
  (EchoDataBase.set_Sv_clean_path self val w = (Ok self', w', l) →
     reads_pointer (EchoDataBase.Sv_clean self')
                   (EchoDataBase.Sv_clean_path self')
                   EchoDataBase.unavailable_msg val ∧
     unchanged_but ["_Sv_clean"; "_Sv_clean_path"] self self' ∧ l = []) ∧
  (EchoDataBase.set_TS_path self val w = (Ok self', w', l) →
     reads_pointer (EchoDataBase.TS self') (EchoDataBase.TS_path self')
                   EchoDataBase.unavailable_msg val ∧
     unchanged_but ["_TS"; "_TS_path"] self self' ∧ l = []) ∧
  (EchoDataBase.set_MVBS_path self val w = (Ok self', w', l) →
     reads_pointer (EchoDataBase.MVBS self') (EchoDataBase.MVBS_path self')
                   EchoDataBase.unavailable_msg val ∧
     unchanged_but ["_MVBS"; "_MVBS_path"] self self' ∧ l = []).
Proof.
  split_and!; intros Hrun;
    (apply update_data_pointer_state in Hrun as (Hst & Hframe & ->);
     [|by compute_done]);
    (split; [|done]);
    by apply (reads_pointer_of_state _ _ _ _ Hst).
Qed.

(** The theorem at the assignment of the store "a.zarr" to [Sv_path] of
    the sample object, and at the assignment of [None] after it. *)
Lemma path_setter_then_getter_witness :
  let w := SampleStorage.world in
  ∃ self' self'',
    EchoDataBase.set_Sv_path sample_object (PyStr "a.zarr") w
    = (Ok self', w, []) ∧
    EchoDataBase.Sv_path self' = Ok (PyStr "a.zarr") ∧
    EchoDataBase.Sv self' w = (Ok (PyDataset empty_dataset), w, []) ∧
    unchanged_but ["_Sv"; "_Sv_path"] sample_object self' ∧
    EchoDataBase.set_Sv_path self' PyNone w = (Ok self'', w, []) ∧
    EchoDataBase.Sv self'' w
    = (Ok PyNone, w, [EvPrint EchoDataBase.unavailable_msg]).
Proof.
  intros w.
  remember (EchoDataBase.set_Sv_path sample_object (PyStr "a.zarr") w)
    as run eqn:Hrun.
  assert (is_ok run.1.1 = true ∧ run.1.2 = w ∧ run.2 = [] ∧
          result_bind run.1.1 EchoDataBase.Sv_path = Ok (PyStr "a.zarr") ∧
          result_bind run.1.1 (λ self, (EchoDataBase.Sv self w).1.1)
          = Ok (PyDataset empty_dataset)) as Hfacts
    by (subst run; compute_done).
  symmetry in Hrun. destruct run as [[[self'|e] w'] l];
    simpl in Hfacts; destruct Hfacts as (Hok & -> & -> & Hpath & Hds);
    [|done].
  destruct (path_setter_then_getter sample_object self' (PyStr "a.zarr")
              w w []) as (_ & HSv & _).
  destruct (HSv Hrun) as (Hreads & Hframe & _).
  remember (EchoDataBase.set_Sv_path self' PyNone w) as run2 eqn:Hrun2.
  assert (∃ self'', run2 = (Ok self'', w, [])) as [self'' ->].
  { subst run2. unfold EchoDataBase.set_Sv_path,
      EchoDataBase._update_data_pointer. rewrite decide_True by done. eauto. }
  symmetry in Hrun2.
  destruct (path_setter_then_getter self' self'' PyNone w w [])
    as (_ & HSv2 & _).
  destruct (HSv2 Hrun2) as (Hreads2 & _).
  exists self', self''. split; [reflexivity|]. split; [exact Hpath|].
  split.
  { destruct Hreads as [[? _]|(_ & v & ds & _ & _ & Hget & _)]; [done|].
    rewrite Hget in Hds |- *. by injection Hds as ->. }
  split; [exact Hframe|]. split; [exact Hrun2|].
  destruct Hreads2 as [(_ & _ & Hget)|[? _]]; [apply Hget|done].
Defined.

(** ** What a constructed EchoData object holds *)

Lemma str_rev_app_app (a b acc : string) :
  String.rev_app (a +:+ b) acc = String.rev_app b (String.rev_app a acc).
Proof.
  revert acc. induction a as [|c a IH]; intros acc; [done|].
  rewrite str_app_cons. simpl. apply IH.
Qed.

Lemma str_endswith_zarr_nc (s : string) :
  str_endswith (s +:+ ".zarr") ".nc" = false.
Proof. unfold str_endswith, String.rev. by rewrite str_rev_app_app. Qed.

Section Construction.
Context {W : Type} `{Storage W}.
Import EchoDataBase.

Lemma init_pointers_state
    (raw_path Sv_path Sv_clean_path TS_path MVBS_path : pyobj)
    (self : gmap string pyobj) (w w' : W) l :
  init_pointers raw_path Sv_path Sv_clean_path TS_path MVBS_path w
  = (Ok self, w', l) →
  pointer_state (W:=W) raw_path self "raw" ∧
  pointer_state (W:=W) Sv_path self "Sv" ∧
  pointer_state (W:=W) Sv_clean_path self "Sv_clean" ∧
  pointer_state (W:=W) TS_path self "TS" ∧
  pointer_state (W:=W) MVBS_path self "MVBS" ∧
  self !! "range" = Some PyNone ∧
  self !! "_file_format" = Some PyNone ∧
  self !! "_open_dataset" = Some PyNone ∧
  l = [].
Proof.
  unfold init_pointers, bind. intros Hrun.
  repeat match type of Hrun with
         | context [_update_data_pointer ?s ?p ?t ?w0] =>
             let Hup := fresh "Hup" in
             destruct (_update_data_pointer s p t w0)
               as [[[?|?] ?] ?] eqn:Hup; [|done];
             apply update_data_pointer_state in Hup as (? & ? & ->);
             [|by compute_done]
         end.
  injection Hrun as <- <- <-. unfold setattr.
  assert (∀ (names : list string) (s s' : gmap string pyobj) (name : string),
            unchanged_but names s s' → bool_decide (name ∈ names) = false →
            s' !! name = s !! name) as Hframe.
  { intros names s s' name Hs Hname. apply Hs.
    by apply bool_decide_eq_false in Hname. }
  split_and!;
    first [ (eapply pointer_state_frame; [eassumption|..]);
            rewrite !lookup_insert_ne by compute_done;
            repeat (erewrite Hframe; [|eassumption|reflexivity]);
            reflexivity
          | by simplify_map_eq
          | done ].
Qed.

(** The two calls that end [__init__], on what the pointer assignments
    left. *)
Lemma init_handlers (self0 self : gmap string pyobj) (v : pyobj) :
  self0 !! "_raw_path" = Some v →
  self0 !! "_file_format" = Some PyNone →
  result_bind (_set_file_format self0) _set_dataset_handlers = Ok self →
  ∃ p, v = PyStr p ∧
    ((str_endswith p ".nc" = true ∧
      self = <["_open_dataset" := PyFunc "xr.open_dataset"]>
               (<["_file_format" := PyStr "netcdf"]> self0)) ∨
     (str_endswith p ".nc" = false ∧ str_endswith p ".zarr" = true ∧
      self = <["_open_dataset" := PyFunc "xr.open_zarr"]>
               (<["_file_format" := PyStr "zarr"]> self0)) ∨
     (str_endswith p ".nc" = false ∧ str_endswith p ".zarr" = false ∧
      self = self0)).
Proof.
  intros Hv Hfmt. unfold _set_file_format, EchoDataBase.raw_path, getattr.
  rewrite Hv. cbn [result_bind].
  destruct v as [|p| | | | |]; try done. exists p. split; [done|].
  revert H0. cbn [py_endswith result_bind].
  destruct (str_endswith p ".nc"); cbn [result_bind].
  - unfold _set_dataset_handlers, getattr, setattr.
    rewrite lookup_insert_eq. cbn [result_bind].
    rewrite decide_True by done. intros [= <-]. by left.
  - destruct (str_endswith p ".zarr"); cbn [result_bind].
    + unfold _set_dataset_handlers, getattr, setattr.
      rewrite lookup_insert_eq. cbn [result_bind].
      rewrite decide_False by done. rewrite decide_True by done.
      intros [= <-]. right; by left.
    + unfold _set_dataset_handlers, getattr, setattr.
      rewrite Hfmt. cbn [result_bind].
      rewrite !decide_False by done. intros [= <-]. right; by right.
Qed.

Lemma init_run
    (raw_path Sv_path Sv_clean_path TS_path MVBS_path : pyobj)
    (self : gmap string pyobj) (w w' : W) l :
  __init__ raw_path Sv_path Sv_clean_path TS_path MVBS_path w
  = (Ok self, w', l) →
  ∃ self0,
    init_pointers raw_path Sv_path Sv_clean_path TS_path MVBS_path w
    = (Ok self0, w', l) ∧
    result_bind (_set_file_format self0) _set_dataset_handlers = Ok self.
Proof.
  unfold __init__, bind, lift.
  destruct (init_pointers _ _ _ _ _ w) as [[[self0|e] w0] l0]; [|done].
  destruct (_set_file_format self0) as [self1|e] eqn:Hfmt; [|done].
  destruct (_set_dataset_handlers self1) as [self2|e] eqn:Hhdl; [|done].
  rewrite !(right_id_L [] (++)). intros [= <- <- <-].
  exists self0. split; [done|]. by rewrite Hfmt.
Qed.

(** What a construction that returns has made of its arguments. *)
Lemma init_state
    (raw_path Sv_path Sv_clean_path TS_path MVBS_path : pyobj)
    (self : gmap string pyobj) (w w' : W) l :
  __init__ raw_path Sv_path Sv_clean_path TS_path MVBS_path w
  = (Ok self, w', l) →
  ∃ p self0,
    raw_path = PyStr p ∧ self0 !! "_raw_path" = Some (PyStr p) ∧
    pointer_state (W:=W) raw_path self0 "raw" ∧
    pointer_state (W:=W) Sv_path self0 "Sv" ∧
    pointer_state (W:=W) Sv_clean_path self0 "Sv_clean" ∧
    pointer_state (W:=W) TS_path self0 "TS" ∧
    pointer_state (W:=W) MVBS_path self0 "MVBS" ∧
    self0 !! "range" = Some PyNone ∧
    (((splitext p).2 = ".nc" ∧
      self = <["_open_dataset" := PyFunc "xr.open_dataset"]>
               (<["_file_format" := PyStr "netcdf"]> self0)) ∨
     ((splitext p).2 = ".zarr" ∧
      self = <["_open_dataset" := PyFunc "xr.open_zarr"]>
               (<["_file_format" := PyStr "zarr"]> self0))) ∧
    l = [].
Proof.
  intros (self0 & Hptr & Hend)%init_run.
  apply init_pointers_state in Hptr
    as (Hraw & HSv & HSvc & HTS & HMVBS & Hrange & Hfmt & _ & ->).
  assert (∃ v, self0 !! "_raw_path" = Some v ∧
               ((raw_path = PyNone ∧ v = PyNone) ∨ resolved raw_path v))
    as (v & Hv & Hres).
  { destruct Hraw as [(-> & _ & ?)|(_ & v & ds & ? & ? & _)]; eauto. }
  destruct (init_handlers _ _ _ Hv Hfmt Hend) as (p & -> & Hcase).
  assert (raw_path = PyStr p ∧ (splitext p).2 ∈ [".nc"; ".zarr"])
    as [-> Hext].
  { destruct Hres as [[_ ?]|[(? & _ & ?)|[(? & -> & ? & [= ->])
                                          |(? & ? & _ & _ & ?)]]];
      done. }
  exists p, self0. split_and!; try done.
  pose proof (splitext_endswith p) as Hends.
  pose proof (splitext_app p) as Happ.
  apply elem_of_cons in Hext as [Hext|Hext].
  - rewrite Hext in Hends. left. split; [done|].
    destruct Hcase as [[_ ?]|[(? & _)|(? & _)]]; [done|congruence..].
  - apply elem_of_cons in Hext as [Hext|Hext]; [|by apply elem_of_nil in Hext].
    rewrite Hext in Hends, Happ. right. split; [done|].
    assert (str_endswith p ".nc" = false) as Hnc
      by (rewrite <-Happ; apply str_endswith_zarr_nc).
    destruct Hcase as [[? _]|[(_ & _ & ?)|(_ & ? & _)]]; [congruence|done|].
    congruence.
Qed.
End Construction.

(** X9: an EchoData object that has been constructed knows the format of
    its raw file: [raw_path] was a string, it is what [ed.raw_path] reads,
    and when its extension is ".nc" the file format is "netcdf" and the
    handler [xr.open_dataset], when it is ".zarr" the file format is "zarr"
    and the handler [xr.open_zarr]; there is no third case.  [ed.range] is
    [None], and the construction has printed nothing. *)
Theorem init_file_format {W} `{Storage W}
    (raw_path Sv_path Sv_clean_path TS_path MVBS_path : pyobj)
    (self : gmap string pyobj) (w w' : W) (l : list Event) :
  EchoDataBase.__init__ raw_path Sv_path Sv_clean_path TS_path MVBS_path w
  = (Ok self, w', l) →
  ∃ p, raw_path = PyStr p ∧
       EchoDataBase.raw_path self = Ok (PyStr p) ∧
       (((splitext p).2 = ".nc" ∧
         self !! "_file_format" = Some (PyStr "netcdf") ∧
         self !! "_open_dataset" = Some (PyFunc "xr.open_dataset")) ∨
        ((splitext p).2 = ".zarr" ∧
         self !! "_file_format" = Some (PyStr "zarr") ∧
         self !! "_open_dataset" = Some (PyFunc "xr.open_zarr"))) ∧
       self !! "range" = Some PyNone ∧
       l = [].
Proof.
  intros (p & self0 & -> & Hp & _ & _ & _ & _ & _ & Hrange & Hcase & ->)
    %init_state.
  exists p. split; [done|].
  unfold EchoDataBase.raw_path, EchoDataBase.getattr.
  destruct Hcase as [[Hext ->]|[Hext ->]];
    (split; [by rewrite !lookup_insert_ne, Hp by done|]);
    (split; [|split; [by rewrite !lookup_insert_ne by done|done]]);
    [left|right];
    (split; [done|]);
    (split; [by rewrite lookup_insert_ne, lookup_insert_eq by done
            |by rewrite lookup_insert_eq]).
Qed.

(** X10: an EchoData object that has been constructed has its raw data
    loaded: [ed.raw] gives, with no message, the dataset
    [xr.open_mfdataset] returned for the raw file.  Each of [Sv],
    [Sv_clean], [TS] and [MVBS] reads according to its path argument: [None]
    with the message when the argument was [None] (the default), and
    otherwise the dataset opened from what the argument was resolved to,
    which is what the path property reads. *)
Theorem init_loads_pointers {W} `{Storage W}
    (raw_path Sv_path Sv_clean_path TS_path MVBS_path : pyobj)
    (self : gmap string pyobj) (w w' : W) (l : list Event) :
  EchoDataBase.__init__ raw_path Sv_path Sv_clean_path TS_path MVBS_path w
  = (Ok self, w', l) →
  raw_path ≠ PyNone ∧
  (∃ ds, ∀ w0 : W, EchoDataBase.raw self w0 = (Ok (PyDataset ds), w0, [])) ∧
  reads_pointer (EchoDataBase.raw self) (EchoDataBase.raw_path self)
                "No raw backscatter data availible" raw_path ∧
  reads_pointer (EchoDataBase.Sv self) (EchoDataBase.Sv_path self)
                EchoDataBase.unavailable_msg Sv_path ∧
  reads_pointer (EchoDataBase.Sv_clean self) (EchoDataBase.Sv_clean_path self)
                EchoDataBase.unavailable_msg Sv_clean_path ∧
  reads_pointer (EchoDataBase.TS self) (EchoDataBase.TS_path self)
                EchoDataBase.unavailable_msg TS_path ∧
  reads_pointer (EchoDataBase.MVBS self) (EchoDataBase.MVBS_path self)
                EchoDataBase.unavailable_msg MVBS_path.
Proof.
  intros (p & self0 & -> & Hp & Hraw & HSv & HSvc & HTS & HMVBS & _ & Hcase
          & ->)%init_state.
  assert (∀ path arr_type,
            pointer_state (W:=W) path self0 arr_type →
            bool_decide (("_" +:+ arr_type) ∈ ["_file_format"; "_open_dataset"])
            = false →
            bool_decide ((("_" +:+ arr_type) +:+ "_path")
                         ∈ ["_file_format"; "_open_dataset"]) = false →
            pointer_state (W:=W) path self arr_type) as Hkeep.
  { intros path arr_type Hst Ha%bool_decide_eq_false Hb%bool_decide_eq_false.
    rewrite !elem_of_cons, elem_of_nil in Ha, Hb.
    eapply pointer_state_frame; [exact Hst|..];
      destruct Hcase as [[_ ->]|[_ ->]];
      by rewrite !lookup_insert_ne
        by (intros Heq; solve [ apply Ha; rewrite <-Heq; auto
                              | apply Hb; rewrite <-Heq; auto ]). }
  assert (reads_pointer (EchoDataBase.raw self) (EchoDataBase.raw_path self)
            "No raw backscatter data availible" (PyStr p)) as Hreads
    by (by apply (reads_pointer_of_state _ _ "raw"), Hkeep).
  split; [done|]. split.
  { destruct Hreads as [[? _]|(_ & v & ds & _ & _ & Hget & _)]; [done|].
    by exists ds. }
  split; [done|].
  split_and!.
  - by apply (reads_pointer_of_state _ _ "Sv"), Hkeep.
  - by apply (reads_pointer_of_state _ _ "Sv_clean"), Hkeep.
  - by apply (reads_pointer_of_state _ _ "TS"), Hkeep.
  - by apply (reads_pointer_of_state _ _ "MVBS"), Hkeep.
Qed.

(** The theorem at [EchoDataBase("a.zarr")] and at [EchoDataBase("leg1.nc")]
    on the sample store. *)
Lemma init_file_format_witness :
  let w := SampleStorage.world in
  (∃ self,
     EchoDataBase.__init__ (PyStr "a.zarr") PyNone PyNone PyNone PyNone w
     = (Ok self, w, []) ∧
     self !! "_file_format" = Some (PyStr "zarr") ∧
     self !! "_open_dataset" = Some (PyFunc "xr.open_zarr")) ∧
  (∃ self,
     EchoDataBase.__init__ (PyStr "leg1.nc") PyNone PyNone PyNone PyNone w
     = (Ok self, w, []) ∧
     self !! "_file_format" = Some (PyStr "netcdf") ∧
     self !! "_open_dataset" = Some (PyFunc "xr.open_dataset")).
Proof.
  intros w. split.
  - remember (EchoDataBase.__init__ (PyStr "a.zarr") PyNone PyNone PyNone PyNone w) as run eqn:Hrun.
    assert (is_ok run.1.1 = true ∧ run.1.2 = w ∧ run.2 = []) as Hfacts
      by (subst run; compute_done).
    symmetry in Hrun.
    destruct run as [[[self|e] w'] l];
      simpl in Hfacts; destruct Hfacts as (Hok & -> & ->); [|done].
    destruct (init_file_format _ _ _ _ _ _ _ _ _ Hrun)
      as (p & [= <-] & _ & Hcase & _).
    exists self. split; [reflexivity|].
    destruct Hcase as [(Hext & _)|(_ & Hfmt & Hhdl)];
      [by vm_compute in Hext|exact (conj Hfmt Hhdl)].
  - remember (EchoDataBase.__init__ (PyStr "leg1.nc") PyNone PyNone PyNone PyNone w) as run eqn:Hrun.
    assert (is_ok run.1.1 = true ∧ run.1.2 = w ∧ run.2 = []) as Hfacts
      by (subst run; compute_done).
    symmetry in Hrun.
    destruct run as [[[self|e] w'] l];
      simpl in Hfacts; destruct Hfacts as (Hok & -> & ->); [|done].
    destruct (init_file_format _ _ _ _ _ _ _ _ _ Hrun)
      as (p & [= <-] & _ & Hcase & _).
    exists self. split; [reflexivity|].
    destruct Hcase as [(_ & Hfmt & Hhdl)|(Hext & _)];
      [exact (conj Hfmt Hhdl)|by vm_compute in Hext].
Defined.

(** The theorem at [EchoDataBase("leg1.nc", Sv_path="survey")] on the
    sample store: the raw data and the Sv data are loaded, the latter from
    the files of the directory; the other three read [None]. *)
Lemma init_loads_pointers_witness :
  let w := SampleStorage.world in
  ∃ self,
    EchoDataBase.__init__ (PyStr "leg1.nc") (PyStr "survey") PyNone PyNone
                          PyNone w
    = (Ok self, w, []) ∧
    EchoDataBase.raw self w = (Ok (PyDataset empty_dataset), w, []) ∧
    EchoDataBase.Sv_path self = Ok (PyList ["a.zarr"; "b.zarr"; "c.nc"]) ∧
    reads_pointer (EchoDataBase.Sv self) (EchoDataBase.Sv_path self)
                  EchoDataBase.unavailable_msg (PyStr "survey") ∧
    reads_pointer (EchoDataBase.TS self) (EchoDataBase.TS_path self)
                  EchoDataBase.unavailable_msg PyNone.
Proof.
  intros w.
  remember (EchoDataBase.__init__ (PyStr "leg1.nc") (PyStr "survey") PyNone PyNone PyNone w) as run eqn:Hrun.
    assert (is_ok run.1.1 = true ∧ run.1.2 = w ∧ run.2 = [] ∧
          result_bind run.1.1 (λ self, (EchoDataBase.raw self w).1.1)
          = Ok (PyDataset empty_dataset) ∧
          result_bind run.1.1 EchoDataBase.Sv_path
          = Ok (PyList ["a.zarr"; "b.zarr"; "c.nc"])) as Hfacts
      by (subst run; compute_done).
    symmetry in Hrun.
    destruct run as [[[self|e] w'] l];
    simpl in Hfacts; destruct Hfacts as (Hok & -> & -> & Hraw & HSv); [|done].
  destruct (init_loads_pointers _ _ _ _ _ _ _ _ _ Hrun)
    as (_ & [ds Hds] & _ & HrSv & _ & HrTS & _).
  exists self. split; [reflexivity|]. split.
  { rewrite Hds in Hraw |- *. by injection Hraw as ->. }
  exact (conj HSv (conj HrSv HrTS)).
Defined.

(** ** Saving with the file format of the object *)

(** X11: the file format a constructed object holds is one [_save_dataset]
    accepts: saving with it goes to [to_netcdf] when the raw file is a ".nc"
    file and to [to_zarr] when it is a ".zarr" store, in write mode when no
    mode is given.  A format other than "netcdf" and "zarr" raises the value
    error that names it and writes nothing; a format that is left out is
    "zarr". *)
Theorem save_dataset_file_format {W V} `{Storage W} `{DatasetWriter V}
    (raw_path Sv_path Sv_clean_path TS_path MVBS_path : pyobj)
    (self : gmap string pyobj) (w w' : W) (l : list Event) :
  EchoDataBase.__init__ raw_path Sv_path Sv_clean_path TS_path MVBS_path w
  = (Ok self, w', l) →
  (∃ p f,
     raw_path = PyStr p ∧ self !! "_file_format" = Some (PyStr f) ∧
     f ∈ ["netcdf"; "zarr"] ∧
     ∀ ds path mode (v : V),
       EchoDataBase._save_dataset self ds path mode (Some f) v
       = if decide ((splitext p).2 = ".nc")
         then ds_to_netcdf ds path (default "w" mode) v
         else ds_to_zarr ds path (default "w" mode) v) ∧
  (∀ ds path mode save_format (v : V),
     save_format ∉ ["netcdf"; "zarr"] →
     EchoDataBase._save_dataset self ds path mode (Some save_format) v
     = (Raise (ValueError ("Unsupported save format " +:+ save_format)), v)) ∧
  (∀ ds path (v : V),
     EchoDataBase._save_dataset self ds path None None v
     = ds_to_zarr ds path "w" v).
Proof.
  intros (p & self0 & -> & _ & _ & _ & _ & _ & _ & _ & Hcase & _)%init_state.
  split; [|split].
  - exists p. destruct Hcase as [[Hext ->]|[Hext ->]].
    + exists "netcdf". split; [done|].
      split; [by rewrite lookup_insert_ne, lookup_insert_eq|].
      split; [by left|]. intros ds path mode v.
      unfold EchoDataBase._save_dataset. simpl.
      by rewrite !decide_True.
    + exists "zarr". split; [done|].
      split; [by rewrite lookup_insert_ne, lookup_insert_eq|].
      split; [by right; left|]. intros ds path mode v.
      unfold EchoDataBase._save_dataset. simpl.
      rewrite decide_False; [done|]. by rewrite Hext.
  - intros ds path mode save_format v Hf.
    rewrite !elem_of_cons, elem_of_nil in Hf.
    unfold EchoDataBase._save_dataset. simpl.
    by rewrite !decide_False by tauto.
  - done.
Qed.

(** The theorem at [EchoDataBase("a.zarr")] on the sample store, saving to
    the sample writer; the engine name "netcdf4" of a combine is not a
    format. *)
Lemma save_dataset_file_format_witness :
  let w := SampleStorage.world in
  ∃ self,
    EchoDataBase.__init__ (PyStr "a.zarr") PyNone PyNone PyNone PyNone w
    = (Ok self, w, []) ∧
    EchoDataBase._save_dataset self empty_dataset "out.zarr" None (Some "zarr")
                               (∅ : SampleWriter.World)
    = (Ok tt, {[ "out.zarr" := ("zarr", "w", empty_dataset) ]}) ∧
    EchoDataBase._save_dataset self empty_dataset "out.nc" None
                               (Some "netcdf4") (∅ : SampleWriter.World)
    = (Raise (ValueError "Unsupported save format netcdf4"), ∅).
Proof.
  intros w.
  remember (EchoDataBase.__init__ (PyStr "a.zarr") PyNone PyNone PyNone PyNone w) as run eqn:Hrun.
    assert (is_ok run.1.1 = true ∧ run.1.2 = w ∧ run.2 = []) as Hfacts
      by (subst run; compute_done).
    symmetry in Hrun.
    destruct run as [[[self|e] w'] l];
    simpl in Hfacts; destruct Hfacts as (Hok & -> & ->); [|done].
  destruct (save_dataset_file_format (V:=SampleWriter.World)
              _ _ _ _ _ _ _ _ _ Hrun)
    as ((p & f & [= <-] & _ & _ & Hsave) & Hbad & _).
  exists self. split; [done|]. split; [done|].
  apply Hbad. by compute_done.
Defined.

(** ** A combine of no files *)

(** X12: a combine of an empty list of inputs prints that it combines,
    raises the index error of [input_paths[0]], and has opened and written
    nothing. *)
Theorem perform_combination_no_inputs {W} `{Library W}
    (version sonar_model output_path engine : string) (w : W) :
  perform_combination version sonar_model [] output_path engine w
  = (Raise (IndexError "list index out of range"), (datetime_now w).2,
     [EvPrint (strftime_HMS (datetime_now w).1 +:+ "  combining files...")]).
Proof.
  unfold perform_combination.
  unfold bind at 1. unfold now at 1. destruct (datetime_now w) as [t0 w0].
  unfold bind at 1. unfold print at 1, emit at 1.
  by unfold bind at 1.
Qed.

(** ** The paths and the engine of the calls of a combine *)

Section CombineTargets.
Context {W : Type} `{Library W}.
Variable version : string.
Variables (input_paths : list string) (output_path engine : string).

Lemma first_path_head (p0 : string) :
  first_path input_paths = Ok p0 → head input_paths = Some p0.
Proof. destruct input_paths; [done|]. by intros [= ->]. Qed.

Lemma perform_combination_targets sonar_model :
  log_all (target_rule input_paths output_path engine)
    (perform_combination version sonar_model input_paths output_path engine).
Proof.
  unfold perform_combination, combine_platform, combine_nmea,
    assemble_combined_provenance.
  repeat lazymatch goal with
         | |- log_all _ (bind (lift (first_path _)) _) =>
             apply log_all_bind_lift; intros ? ?%first_path_head
         | |- log_all _ (bind (lift _) _) =>
             apply log_all_bind_lift; intros ? _
         | |- log_all _ (if decide _ then _ else _) => case_decide
         | |- _ => log_all_step
         end; done.
Qed.

Lemma assemble_combined_provenance_run (w : W) :
  ∃ t w',
    assemble_combined_provenance version input_paths w
    = (Ok (mkDataset ∅ ∅
             {[ "conversion_software_name" := AStr "echopype";
                "conversion_software_version" := AStr version;
                "conversion_time" := AStr (isoformat_seconds t +:+ "Z");
                "src_filenames" := AList input_paths ]} ∅), w', []).
Proof.
  unfold assemble_combined_provenance, bind, utcnow, ret.
  destruct (datetime_utcnow w) as [t w']. exists t, w'.
  unfold assign_attrs, empty_dataset. cbn [ds_variables ds_coord_names
    ds_attrs ds_chunks]. by rewrite (right_id_L ∅ (∪)).
Qed.

Lemma log_all_bind_provenance {B} (P : Event → Prop) (k : Dataset → M W B) :
  (∀ t, log_all P
          (k (mkDataset ∅ ∅
                {[ "conversion_software_name" := AStr "echopype";
                   "conversion_software_version" := AStr version;
                   "conversion_time" := AStr (isoformat_seconds t +:+ "Z");
                   "src_filenames" := AList input_paths ]} ∅))) →
  log_all P (bind (assemble_combined_provenance version input_paths) k).
Proof.
  intros Hk w. unfold bind.
  destruct (assemble_combined_provenance_run w) as (t & w1 & ->).
  specialize (Hk t w1). by destruct (k _ w1) as [[r w2] l2].
Qed.

Lemma perform_combination_provenance sonar_model :
  log_all (provenance_rule version input_paths)
    (perform_combination version sonar_model input_paths output_path engine).
Proof.
  unfold perform_combination, combine_platform, combine_nmea.
  repeat lazymatch goal with
         | |- log_all _ (bind (assemble_combined_provenance _ _) _) =>
             apply log_all_bind_provenance; intros ?
         | |- log_all _ (if decide _ then _ else _) => case_decide
         | |- _ => log_all_step
         end;
    try lazymatch goal with
        | |- provenance_rule _ _ (EvSaveFile _ _ _ _ _) =>
            simpl; intros; simplify_eq; eauto
        | |- provenance_rule _ _ _ => exact I
        end.
Qed.
End CombineTargets.

(** X13: a combine writes to the output path only, and reads the input
    paths only: every write is to [output_path], the reads of the top-level
    group and of the Sonar group are of the first input path, every other
    read is of the whole list of input paths as it was given, and every
    read and write is made with the engine of the caller.  So when the
    output path is not one of the inputs, no call reads the output and no
    call writes an input. *)
Theorem combine_targets {W} `{Library W}
    (version sonar_model : string) (input_paths : list string)
    (output_path engine : string) (w : W) :
  let log :=
    (perform_combination version sonar_model input_paths output_path engine
                         w).2 in
  Forall (target_rule input_paths output_path engine) log ∧
  (output_path ∉ input_paths →
     Forall (λ ev, (output_path ∉ paths_read ev) ∧
                   ∀ p, p ∈ input_paths → path_written ev ≠ Some p) log).
Proof.
  intros log.
  assert (Forall (target_rule input_paths output_path engine) log) as Hall
    by apply log_all_run, perform_combination_targets.
  split; [done|]. intros Hout.
  eapply Forall_impl; [exact Hall|].
  intros [msg|path group eng|paths group kw eng|ds path mode eng group];
    simpl.
  - intros _. split; [apply not_elem_of_nil|done].
  - intros [Hhead ->]. split; [|done].
    rewrite list_elem_of_singleton. intros <-.
    apply Hout. destruct input_paths; [done|].
    injection Hhead as ->. by left.
  - by intros [-> ->].
  - intros [-> ->]. split; [apply not_elem_of_nil|].
    intros p Hp [= <-]. by apply Hout.
Qed.

(** X14: the Provenance group of a combine is written by its sixth call,
    in append mode, to the output path: it is the group
    [assemble_combined_provenance] gives for the whole list of inputs, with
    no variable and with the tool name, the version, a time of the form of
    C5 and the input paths in the order of the caller as its attributes.  A
    combine that returns has made that call, and no call of a combine writes
    a Provenance group of another form. *)
Theorem combine_provenance_write {W} `{Library W}
    (version sonar_model : string) (input_paths : list string)
    (output_path engine : string) (w : W) :
  let run :=
    perform_combination version sonar_model input_paths output_path engine w
  in
  Forall (provenance_rule version input_paths) run.2 ∧
  (∀ ev, run.2 !! 5%nat = Some ev →
     ∃ t, ev = EvSaveFile
                 (mkDataset ∅ ∅
                    {[ "conversion_software_name" := AStr "echopype";
                       "conversion_software_version" := AStr version;
                       "conversion_time" :=
                         AStr (isoformat_seconds t +:+ "Z");
                       "src_filenames" := AList input_paths ]} ∅)
                 output_path "a" engine (Some "Provenance")) ∧
  (is_ok run.1.1 = true → is_Some (run.2 !! 5%nat)).
Proof.
  intros run.
  pose proof (perform_combination_run version input_paths output_path
                engine sonar_model w) as [Hpre Hok].
  pose proof (log_all_run _ _ w
                (perform_combination_provenance version input_paths
                   output_path engine sonar_model)) as Hprov.
  pose proof (log_all_run _ _ w
                (perform_combination_targets version input_paths
                   output_path engine sonar_model)) as Htarget.
  fold run in Hpre, Hok, Hprov, Htarget.
  split; [done|]. split.
  - intros ev Hev.
    assert (tag ev = TSave (Some "Provenance") "a") as Htag.
    { assert ((tag <$> run.2) !! 5%nat = Some (tag ev)) as Hlk
        by (by rewrite list_lookup_fmap, Hev).
      eapply prefix_lookup_Some in Hlk; [|exact Hpre].
      unfold combine_tags in Hlk. simpl in Hlk. by injection Hlk. }
    rewrite Forall_lookup in Hprov, Htarget.
    specialize (Hprov _ _ Hev). specialize (Htarget _ _ Hev).
    destruct ev as [|? ? ?|? ? ? ?|ds path mode eng group]; try done.
    injection Htag as -> ->. destruct Htarget as [-> ->].
    destruct (Hprov eq_refl) as [t ->]. by exists t.
  - intros Hret. apply Hok in Hret.
    apply (f_equal (λ ts, ts !! 5%nat)) in Hret.
    rewrite list_lookup_fmap in Hret. unfold combine_tags in Hret.
    simpl in Hret. destruct (run.2 !! 5%nat); [eauto|done].
Qed.

(** ** The groups taken from the first file *)

Lemma bind_ok_log {W A B} (c : M W A) (k : A → M W B) (w w1 : W) a l1 :
  c w = (Ok a, w1, l1) → (bind c k w).2 = l1 ++ (k a w1).2.
Proof. unfold bind. intros ->. by destruct (k a w1) as [[r w2] l2]. Qed.

Lemma bind_log_head {W A B} (c : M W A) (k : A → M W B) (ev : Event) :
  (∀ w, (c w).2 = [ev]) → ∀ w, ∃ later, (bind c k w).2 = ev :: later.
Proof.
  intros Hc w. specialize (Hc w). unfold bind.
  destruct (c w) as [[[a|e] w1] l1]; simpl in Hc; subst l1.
  - destruct (k a w1) as [[r w2] l2]. by exists l2.
  - by exists [].
Qed.

(** X15: the top-level group and the Sonar group of the combined file are
    those of the first input and of no other: the first calls of a combine
    of at least one file are the message, the read of the top-level group of
    the first input and the write, in write mode, of the dataset that read
    returned; and when that write returns, the read of the Sonar group of
    the first input and the write, in append mode, of the dataset that read
    returned. *)
Theorem combine_takes_first {W} `{Library W}
    (version sonar_model p0 : string) (rest : list string)
    (output_path engine : string) (w w1 w2 w3 : W) (ds_top ds_sonar : Dataset) :
  xr_open_dataset p0 None engine (datetime_now w).2 = (Ok ds_top, w1) →
  io_save_file ds_top output_path "w" engine None w1 = (Ok tt, w2) →
  xr_open_dataset p0 (Some "Sonar") engine w2 = (Ok ds_sonar, w3) →
  ∃ later,
    (perform_combination version sonar_model (p0 :: rest) output_path engine
                         w).2
    = [ EvPrint (strftime_HMS (datetime_now w).1 +:+ "  combining files...");
        EvOpenDataset p0 None engine;
        EvSaveFile ds_top output_path "w" engine None;
        EvOpenDataset p0 (Some "Sonar") engine;
        EvSaveFile ds_sonar output_path "a" engine (Some "Sonar") ] ++ later.
Proof.
  destruct (datetime_now w) as [t0 w0] eqn:Hnow. cbn [fst snd].
  intros Htop Hsave Hsonar.
  unfold perform_combination.
  erewrite bind_ok_log by (unfold now; rewrite Hnow; reflexivity).
  erewrite bind_ok_log by reflexivity.
  erewrite bind_ok_log by reflexivity.
  erewrite bind_ok_log by (unfold open_dataset; rewrite Htop; reflexivity).
  erewrite bind_ok_log by (unfold save_file; rewrite Hsave; reflexivity).
  erewrite bind_ok_log by reflexivity.
  erewrite bind_ok_log by (unfold open_dataset; rewrite Hsonar; reflexivity).
  cbn [app].
  edestruct (bind_log_head (B:=unit)
               (save_file ds_sonar output_path "a" engine (Some "Sonar")))
    as [later ->]; [|eauto].
  intros w4. unfold save_file. by destruct (io_save_file _ _ _ _ _ w4).
Qed.

(** The theorem at the combine of the two sample EK60 files, whose first
    calls read and write the top-level and Sonar groups of "leg1.nc". *)
Lemma combine_takes_first_witness :
  let w := Sample.ek60_world in
  let top := mkDataset ∅ ∅ {[ "keywords" := AStr "EK60" ]} ∅ in
  let sonar := mkDataset ∅ ∅ {[ "sonar_model" := AStr "EK60" ]} ∅ in
  ∃ w2 later,
    xr_open_dataset "leg1.nc" None "netcdf4" (datetime_now w).2 = (Ok top, w) ∧
    io_save_file top "leg1__combined.nc" "w" "netcdf4" None w = (Ok tt, w2) ∧
    xr_open_dataset "leg1.nc" (Some "Sonar") "netcdf4" w2 = (Ok sonar, w2) ∧
    (perform_combination "0.4.1" "EK60" ("leg1.nc" :: ["leg2.nc"])
                         "leg1__combined.nc" "netcdf4" w).2
    = [ EvPrint "12:00:07  combining files...";
        EvOpenDataset "leg1.nc" None "netcdf4";
        EvSaveFile top "leg1__combined.nc" "w" "netcdf4" None;
        EvOpenDataset "leg1.nc" (Some "Sonar") "netcdf4";
        EvSaveFile sonar "leg1__combined.nc" "a" "netcdf4" (Some "Sonar") ]
      ++ later.
Proof.
  intros w top sonar.
  set (w2 := (io_save_file top "leg1__combined.nc" "w" "netcdf4" None w).2).
  assert (xr_open_dataset "leg1.nc" None "netcdf4" (datetime_now w).2
          = (Ok top, w)) as Htop by compute_done.
  assert (io_save_file top "leg1__combined.nc" "w" "netcdf4" None w
          = (Ok tt, w2)) as Hsave by compute_done.
  assert (xr_open_dataset "leg1.nc" (Some "Sonar") "netcdf4" w2
          = (Ok sonar, w2)) as Hsonar by compute_done.
  destruct (combine_takes_first "0.4.1" "EK60" "leg1.nc" ["leg2.nc"]
              "leg1__combined.nc" "netcdf4" w w w2 w2 top sonar
              Htop Hsave Hsonar) as [later Hlog].
  exists w2, later.
  exact (conj Htop (conj Hsave (conj Hsonar Hlog))).
Defined.

(** ** The coercion of the text fields, twice, and on a group without them *)

Lemma str_take_take (n : nat) (s : string) :
  str_take n (str_take n s) = str_take n s.
Proof. apply str_take_all. rewrite str_take_length. lia. Qed.

Lemma astype_U_twice (width : nat) (da : DataArray) :
  astype_U width (astype_U width da) = astype_U width da.
Proof.
  unfold astype_U. cbn [da_dims da_values da_attrs]. f_equal.
  rewrite <-list_fmap_compose. apply list_fmap_ext. intros _ v _. simpl.
  by rewrite str_take_take.
Qed.

(** The two lookups and updates of [coerce_type], for the version field of
    the model. *)
Lemma coerce_fields_run (ds : Dataset) (version_name : string) :
  version_name ≠ "channel_id" →
  result_bind (ds_getitem ds version_name) (λ v,
    let ds := ds_setitem ds version_name (astype_U 10 v) in
    result_bind (ds_getitem ds "channel_id") (λ c,
      Ok (ds_setitem ds "channel_id" (astype_U 50 c)))) =
  match ds_variables ds !! version_name, ds_variables ds !! "channel_id" with
  | Some v, Some c =>
      Ok (mkDataset (<["channel_id" := astype_U 50 c]>
                       (<[version_name := astype_U 10 v]> (ds_variables ds)))
                    (ds_coord_names ds) (ds_attrs ds) (ds_chunks ds))
  | Some _, None => Raise (KeyError "channel_id")
  | None, _ => Raise (KeyError version_name)
  end.
Proof.
  intros Hne. unfold ds_getitem at 1.
  destruct (ds_variables ds !! version_name) as [v|]; [|done].
  cbn [result_bind]. rewrite ds_getitem_setitem_ne by done.
  unfold ds_getitem. by destruct (ds_variables ds !! "channel_id").
Qed.

Lemma coerce_type_run (sonar_model : string) (ds : Dataset) :
  coerce_type sonar_model ds "Beam" =
  match beam_text_fields sonar_model with
  | version_name :: _ =>
      match ds_variables ds !! version_name,
            ds_variables ds !! "channel_id" with
      | Some v, Some c =>
          Ok (mkDataset
                (<["channel_id" := astype_U 50 c]>
                   (<[version_name := astype_U 10 v]> (ds_variables ds)))
                (ds_coord_names ds) (ds_attrs ds) (ds_chunks ds))
      | Some _, None => Raise (KeyError "channel_id")
      | None, _ => Raise (KeyError version_name)
      end
  | [] => Ok ds
  end.
Proof.
  unfold coerce_type, beam_text_fields. rewrite decide_True by done.
  repeat case_decide; [| |done]; by rewrite coerce_fields_run.
Qed.

Lemma coerce_type_raise (sonar_model : string) (ds : Dataset) (e : exn) :
  coerce_type sonar_model ds "Beam" = Raise e →
  ∃ key, e = KeyError key ∧ key ∈ beam_text_fields sonar_model ∧
         ds_variables ds !! key = None.
Proof.
  rewrite coerce_type_run. unfold beam_text_fields.
  repeat case_decide; [| |done];
    destruct (ds_variables ds !! _) as [v|] eqn:Hv;
    try destruct (ds_variables ds !! "channel_id") as [c|] eqn:Hc;
    intros [= <-]; eexists; (split; [done|]); (split; [|done]);
    rewrite !elem_of_cons; auto.
Qed.

(** X16: coercing twice is coercing once.  When [coerce_type] returns a
    group, coercing that group again returns it unchanged; the group it
    returns has the variables of the group it was given, by name, and the
    same coordinates, attributes and chunks; and a group other than the Beam
    group is returned as it is. *)
Theorem coerce_type_idempotent (sonar_model : string) (ds ds' : Dataset)
    (group : string) :
  coerce_type sonar_model ds group = Ok ds' →
  coerce_type sonar_model ds' group = Ok ds' ∧
  dom (ds_variables ds') = dom (ds_variables ds) ∧
  ds_coord_names ds' = ds_coord_names ds ∧
  ds_attrs ds' = ds_attrs ds ∧
  ds_chunks ds' = ds_chunks ds ∧
  (group ≠ "Beam" → ds' = ds).
Proof.
  destruct (decide (group = "Beam")) as [->|Hgroup].
  2:{ unfold coerce_type. rewrite !decide_False by done.
      by intros [= <-]. }
  rewrite !coerce_type_run. unfold beam_text_fields.
  assert (∀ version_name,
            version_name ≠ "channel_id" →
            match ds_variables ds !! version_name,
                  ds_variables ds !! "channel_id" with
            | Some v, Some c =>
                Ok (mkDataset
                      (<["channel_id" := astype_U 50 c]>
                         (<[version_name := astype_U 10 v]> (ds_variables ds)))
                      (ds_coord_names ds) (ds_attrs ds) (ds_chunks ds))
            | Some _, None => Raise (KeyError "channel_id")
            | None, _ => Raise (KeyError version_name)
            end = Ok ds' →
            match ds_variables ds' !! version_name,
                  ds_variables ds' !! "channel_id" with
            | Some v, Some c =>
                Ok (mkDataset
                      (<["channel_id" := astype_U 50 c]>
                         (<[version_name := astype_U 10 v]>
                            (ds_variables ds')))
                      (ds_coord_names ds') (ds_attrs ds') (ds_chunks ds'))
            | Some _, None => Raise (KeyError "channel_id")
            | None, _ => Raise (KeyError version_name)
            end = Ok ds' ∧
            dom (ds_variables ds') = dom (ds_variables ds) ∧
            ds_coord_names ds' = ds_coord_names ds ∧
            ds_attrs ds' = ds_attrs ds ∧
            ds_chunks ds' = ds_chunks ds ∧
            ("Beam" ≠ "Beam" → ds' = ds)) as Hfields.
  { intros version_name Hne.
    destruct (ds_variables ds !! version_name) as [v|] eqn:Hv; [|done].
    destruct (ds_variables ds !! "channel_id") as [c|] eqn:Hc; [|done].
    intros [= <-]. cbn [ds_variables ds_coord_names ds_attrs ds_chunks].
    rewrite lookup_insert_ne, !lookup_insert_eq by done.
    rewrite !astype_U_twice.
    split.
    { do 2 f_equal. apply map_eq. intros k.
      destruct (decide (k = "channel_id")) as [->|?];
        [by rewrite !lookup_insert_eq|].
      rewrite !(lookup_insert_ne _ "channel_id") by done.
      destruct (decide (k = version_name)) as [->|?];
        [by rewrite !lookup_insert_eq|].
      by rewrite !lookup_insert_ne by done. }
    split; [|done].
    rewrite !dom_insert_L.
    apply elem_of_dom_2 in Hv, Hc. set_solver. }
  repeat case_decide; [by apply Hfields..|].
  by intros [= <-].
Qed.

(** The theorem at the Beam group of a sample EK60 file. *)
Lemma coerce_type_idempotent_witness :
  let ds := Sample.beam "gpt_software_version" [100; 101] in
  ∃ ds', coerce_type "EK60" ds "Beam" = Ok ds' ∧
         coerce_type "EK60" ds' "Beam" = Ok ds' ∧ ds' ≠ ds.
Proof.
  intros ds.
  remember (coerce_type "EK60" ds "Beam") as r eqn:Hr.
  assert (is_ok r = true ∧ r ≠ Ok ds) as [Hok Hne]
    by (subst r; compute_done).
  symmetry in Hr. destruct r as [ds'|e]; [|done].
  destruct (coerce_type_idempotent _ _ _ _ Hr) as (Hagain & _).
  exists ds'. split; [reflexivity|]. split; [exact Hagain|].
  intros ->. by apply Hne.
Defined.

(** X17: [coerce_type] raises on a Beam group of EK60 or EK80 files that
    lacks a text field, and on no other group: what it raises is the key
    error for the first of the version field and [channel_id] that the
    group does not have, and it returns when the group has both; for every
    other model it returns whatever the group holds. *)
Theorem coerce_type_key_error (sonar_model : string) (ds : Dataset) :
  (∀ e, coerce_type sonar_model ds "Beam" = Raise e →
     ∃ key, e = KeyError key ∧ key ∈ beam_text_fields sonar_model ∧
            ds_variables ds !! key = None) ∧
  (is_ok (coerce_type sonar_model ds "Beam") = true ↔
   Forall (λ key, is_Some (ds_variables ds !! key))
          (beam_text_fields sonar_model)) ∧
  (∀ version_name rest,
     beam_text_fields sonar_model = version_name :: rest →
     ds_variables ds !! version_name = None →
     coerce_type sonar_model ds "Beam" = Raise (KeyError version_name)) ∧
  (beam_text_fields sonar_model ≠ [] ↔ sonar_model ∈ ["EK80"; "EK60"]).
Proof.
  split; [|split; [|split]].
  - intros e. apply coerce_type_raise.
  - rewrite coerce_type_run. unfold beam_text_fields.
    repeat case_decide; rewrite ?Forall_cons, ?Forall_nil;
      repeat case_match; unfold is_Some; simpl; naive_solver.
  - intros version_name rest Hfields Hnone. rewrite coerce_type_run, Hfields.
    by rewrite Hnone.
  - unfold beam_text_fields. rewrite !elem_of_cons, elem_of_nil.
    repeat case_decide; split; try done; tauto.
Qed.

(** ** Where an exception of a combine comes from *)

Lemma last_call_app (prev : option Event) (l1 l2 : list Event) :
  last_call prev (l1 ++ l2) = last_call (last_call prev l1) l2.
Proof.
  unfold last_call. rewrite last_app.
  destruct (last l2); [done|]. by destruct (last l1).
Qed.

Lemma last_call_first (l : list Event) : last_call None l = last l.
Proof. unfold last_call. by destruct (last l). Qed.

Lemma coerce_type_other (sonar_model : string) (ds : Dataset) (group : string) :
  sonar_model ≠ "EK80" → sonar_model ≠ "EK60" →
  coerce_type sonar_model ds group = Ok ds.
Proof. intros ? ?. unfold coerce_type. by repeat case_decide. Qed.

Lemma coerce_type_other_group (sonar_model : string) (ds : Dataset)
    (group : string) :
  group ≠ "Beam" → coerce_type sonar_model ds group = Ok ds.
Proof. intros ?. unfold coerce_type. by rewrite decide_False. Qed.

Section BlameRules.
Context {W : Type} `{Library W}.
Variable sonar_model : string.

Lemma blames_bind {A B} (P : option Event → Prop) (c : M W A)
    (Q : A → option Event → Prop) (k : A → M W B)
    (R : B → option Event → Prop) :
  blames sonar_model P c Q → (∀ a, blames sonar_model (Q a) (k a) R) →
  blames sonar_model P (bind c k) R.
Proof.
  intros Hc Hk prev w HP. specialize (Hc prev w HP). unfold bind.
  destruct (c w) as [[[a|e] w1] l1]; simpl in *; [|done].
  specialize (Hk a _ w1 Hc). destruct (k a w1) as [[r w2] l2]. simpl in *.
  by rewrite last_call_app.
Qed.

(** A computation that makes no call and does not raise keeps what is known
    of the last call. *)
Lemma blames_lift_ok {A} (P : option Event → Prop) (r : result A) :
  is_ok r = true →
  blames sonar_model P (lift r : M W A) (λ a prev, P prev ∧ r = Ok a).
Proof. intros Hok prev w HP. by destruct r. Qed.

(** One that may raise has its exceptions put down to the last call. *)
Lemma blames_lift {A} (P : option Event → Prop) (r : result A) :
  (∀ prev e, P prev → r = Raise e →
     ∃ ev, prev = Some ev ∧ raise_origin (W:=W) sonar_model ev e) →
  blames sonar_model P (lift r : M W A) (λ a prev, P prev ∧ r = Ok a).
Proof. intros Hr prev w HP. destruct r as [a|e]; simpl; [done|]. eauto. Qed.

Lemma blames_ret {A} (P : option Event → Prop) (a : A) :
  blames sonar_model P (ret a : M W A) (λ _ _, True).
Proof. by intros prev w HP. Qed.

Lemma blames_now (P : option Event → Prop) :
  blames sonar_model P (now : M W datetime) (λ _ _, True).
Proof. intros prev w HP. unfold now. by destruct (datetime_now w). Qed.

Lemma blames_print (P : option Event → Prop) msg :
  blames sonar_model P (print msg : M W unit) (λ _ _, True).
Proof. by intros prev w HP. Qed.

Lemma blames_provenance (P : option Event → Prop) version input_paths :
  blames sonar_model P
    (assemble_combined_provenance version input_paths : M W Dataset)
    (λ _ _, True).
Proof.
  intros prev w HP. unfold assemble_combined_provenance, bind, utcnow, ret.
  by destruct (datetime_utcnow w).
Qed.

Lemma blames_open_dataset (P : option Event → Prop) path group engine :
  blames sonar_model P (open_dataset path group engine) (λ _ _, True).
Proof.
  intros prev w HP. unfold open_dataset.
  destruct (xr_open_dataset path group engine w) as [[ds|e] w1] eqn:Hcall;
    simpl; [done|].
  eexists. split; [done|]. left. simpl. eauto.
Qed.

Lemma blames_open_mfdataset (P : option Event → Prop) paths group kw engine :
  blames sonar_model P (open_mfdataset paths group kw engine)
    (λ ds prev, prev = Some (EvOpenMfdataset paths group kw engine) ∧
                returned (W:=W) (EvOpenMfdataset paths group kw engine) ds).
Proof.
  intros prev w HP. unfold open_mfdataset.
  destruct (xr_open_mfdataset paths group kw engine w) as [[ds|e] w1] eqn:Hcall;
    simpl.
  - split; [done|]. eauto.
  - eexists. split; [done|]. left. simpl. eauto.
Qed.

Lemma blames_save_file (P : option Event → Prop) ds path mode engine group :
  blames sonar_model P (save_file ds path mode engine group) (λ _ _, True).
Proof.
  intros prev w HP. unfold save_file.
  destruct (io_save_file ds path mode engine group w) as [[[]|e] w1] eqn:Hcall;
    simpl; [done|].
  eexists. split; [done|]. left. simpl. eauto.
Qed.

Ltac blame_prepare :=
  let prev := fresh "prev" in
  let e := fresh "e" in
  let Hacc := fresh "Hacc" in
  let Hr := fresh "Hr" in
  intros prev e Hacc Hr; cbv beta in Hacc; destruct_and?;
  repeat match goal with
         | Hin : _ ∈ [_] |- _ => apply list_elem_of_singleton in Hin
         end;
  simplify_eq;
  repeat match goal with
         | Hc : dict_getitem DEFAULT_CHUNK_SIZE _ = Ok _ |- _ =>
             apply default_chunk_size in Hc as [[? ->]|[? ->]];
             try discriminate
         end;
  eexists; split; [reflexivity|]; right; do 5 eexists;
  split; [reflexivity|]; split; [eassumption|];
  first [ left; split; [reflexivity|]; by apply coerce_type_raise
        | right; do 2 eexists;
          split; [first [eassumption | by apply coerce_type_other_group]|];
          split; [|eassumption];
          unfold group_chunks;
          repeat (first [ rewrite decide_True by first [done|compute_done]
                        | rewrite decide_False
                            by first [done|compute_done] ]);
          reflexivity ].

Lemma perform_combination_blames (version : string)
    (input_paths : list string) (output_path engine : string) :
  input_paths ≠ [] →
  blames sonar_model (λ _, True)
    (perform_combination version sonar_model input_paths output_path engine)
    (λ _ _, True).
Proof.
  intros Hin. destruct input_paths as [|p0 rest]; [done|].
  unfold perform_combination, combine_platform, combine_nmea.
  repeat lazymatch goal with
         | |- blames _ _ (bind (lift (coerce_type _ _ _)) _) _ =>
             eapply blames_bind; [apply blames_lift; blame_prepare|intros ?]
         | |- blames _ _ (bind (lift (chunk _ _)) _) _ =>
             eapply blames_bind; [apply blames_lift; blame_prepare|intros ?]
         | |- blames _ _ (bind (lift _) _) _ =>
             eapply blames_bind; [by apply blames_lift_ok|intros ?]
         | |- blames _ _ (bind (save_file _ _ _ _ _) _) _ =>
             eapply blames_bind; [apply blames_save_file|intros ?]
         | |- blames _ _ (save_file _ _ _ _ _) _ => apply blames_save_file
         | |- blames _ _ (bind (assemble_combined_provenance _ _) _) _ =>
             eapply blames_bind; [apply blames_provenance|intros ?]
         | |- blames _ _ (bind (open_dataset _ _ _) _) _ =>
             eapply blames_bind; [apply blames_open_dataset|intros ?]
         | |- blames _ _ (bind (open_mfdataset _ _ _ _) _) _ =>
             eapply blames_bind; [apply blames_open_mfdataset|intros ?]
         | |- blames _ _ (bind now _) _ =>
             eapply blames_bind; [apply blames_now|intros ?]
         | |- blames _ _ (bind (print _) _) _ =>
             eapply blames_bind; [apply blames_print|intros ?]
         | |- blames _ _ (bind (if decide _ then _ else _) _) _ =>
             eapply blames_bind; [case_decide|intros ?]
         | |- blames _ _ (if decide _ then _ else _) _ => case_decide
         | |- blames _ _ (ret _) _ => apply blames_ret
         | |- blames _ _ (print _) _ => apply blames_print
         end.
Qed.

(** An exception of a combine of at least one file comes from the last call
    the combine made. *)
Lemma perform_combination_raises (version : string)
    (input_paths : list string) (output_path engine : string) (w w' : W)
    (e : exn) (l : list Event) :
  input_paths ≠ [] →
  perform_combination version sonar_model input_paths output_path engine w
  = (Raise e, w', l) →
  ∃ ev, last l = Some ev ∧ raise_origin (W:=W) sonar_model ev e.
Proof.
  intros Hin Hrun.
  pose proof (perform_combination_blames version input_paths output_path
                engine Hin None w I) as Hb.
  rewrite Hrun in Hb. simpl in Hb. by rewrite last_call_first in Hb.
Qed.
End BlameRules.

(** ** C10: a model name outside the known ones *)

(** C10: for every model name other than AZFP, EK80, EA640 and EK60 the
    Platform step and the Platform/NMEA step of a combine make no call, leave
    the world as it is and return normally; the calls of the whole combine
    are the reads and writes of TopLevel, Sonar, Provenance, Beam, Environment
    and Vendor in that order (all of them when the combine returns), and no
    call reads or writes Platform or Platform/NMEA.  An exception of a
    combine of at least one input comes from the last call made: xarray or
    the save helper raised it in that call, or that call is the read of the
    Beam or of the Environment group and the exception is the one of [chunk]
    for a dimension that the dataset read does not have.  None is about the
    model name. *)
Theorem unknown_model_omits_platform {W} `{Library W}
    (version sonar_model : string) (input_paths : list string)
    (output_path engine : string) (w : W) :
  sonar_model ∉ ["AZFP"; "EK80"; "EA640"; "EK60"] →
  combine_platform sonar_model input_paths output_path engine w
    = (Ok tt, w, []) ∧
  combine_nmea sonar_model input_paths output_path engine w
    = (Ok tt, w, []) ∧
  let '(r, _, log) :=
    perform_combination version sonar_model input_paths output_path engine w in
  tag <$> log `prefix_of` tags_without_platform ∧
  (r = Ok tt ↔ tag <$> log = tags_without_platform) ∧
  (r = Ok tt →
     writes log = [ (None, "w"); (Some "Sonar", "a"); (Some "Provenance", "a");
                    (Some "Beam", "a"); (Some "Environment", "a");
                    (Some "Vendor", "a") ]) ∧
  Forall (λ ev, ev_group ev ∉ [Some "Platform"; Some "Platform/NMEA"]) log ∧
  (∀ e, r = Raise e → input_paths ≠ [] →
        ∃ ev, last log = Some ev ∧
          (call_raises ev e ∨
           ∃ paths group kw eng ds sizes,
             ev = EvOpenMfdataset paths group kw eng ∧
             group ∈ ["Beam"; "Environment"] ∧
             returned (W:=W) ev ds ∧
             group_chunks sonar_model group = Some sizes ∧
             chunk ds sizes = Raise e ∧
             ∃ dim, dim ∈ dom sizes ∧ dim ∉ ds_dims ds)).
Proof.
  intros Hm. destruct (unknown_model _ Hm) as [Hplat Hnmea].
  assert (combine_tags sonar_model = tags_without_platform) as Htags
    by (unfold combine_tags; by rewrite Hplat, Hnmea).
  split.
  { unfold combine_platform. rewrite !elem_of_cons in Hm.
    repeat case_decide; try done; exfalso; apply Hm;
      repeat match goal with
             | Hin : _ ∈ _ :: _ |- _ => apply elem_of_cons in Hin as [Hin|Hin]
             | Hin : _ ∈ [] |- _ => by apply elem_of_nil in Hin
             end; tauto. }
  split.
  { unfold combine_nmea. rewrite !elem_of_cons in Hm.
    case_decide; [|done]. exfalso; apply Hm.
    revert select (_ ∈ _). rewrite !elem_of_cons. tauto. }
  pose proof (perform_combination_run version input_paths output_path
                engine sonar_model w) as [Hpre Hok].
  rewrite Htags in Hpre, Hok.
  destruct (perform_combination _ _ _ _ _ w) as [[r w'] log] eqn:Hrun.
  simpl in Hpre, Hok.
  assert (r = Ok tt ↔ is_ok r = true) as Hr by (by destruct r as [[]|]).
  split; [done|]. split; [by rewrite Hr|]. split.
  { intros Hret. unfold writes. by rewrite (proj1 Hok (proj1 Hr Hret)). }
  split.
  { unfold ev_group.
    eapply (Forall_fmap tag (λ t, tag_group t ∉ _)), Forall_prefix; [done|].
    unfold tags_without_platform.
    repeat (apply Forall_cons; split; [simpl; rewrite !elem_of_cons, elem_of_nil;
                                       intros [?|[?|[]]]; discriminate|]).
    constructor. }
  intros e -> Hin.
  destruct (perform_combination_raises _ _ _ _ _ _ _ _ _ Hin Hrun)
    as (ev & Hlast & Horigin).
  exists ev. split; [done|].
  destruct Horigin as [?|(paths & group & kw & eng & ds & -> & Hret & Hprep)];
    [by left|right].
  rewrite !elem_of_cons, elem_of_nil in Hm.
  destruct Hprep as [(_ & key & _ & Hkey & _)|(ds_c & sizes & Hco & Hsizes & Hch)].
  { revert Hkey. unfold beam_text_fields.
    repeat case_decide; [tauto..|]. by intros ?%elem_of_nil. }
  rewrite coerce_type_other in Hco by tauto. injection Hco as <-.
  exists paths, group, kw, eng, ds, sizes.
  split; [done|]. split.
  { revert Hsizes. unfold group_chunks.
    destruct (decide (group = "Beam")) as [->|?]; [intros _; by left|].
    destruct (decide (group = "Environment")) as [->|?];
      [intros _; right; by left|].
    repeat case_decide; try done;
      repeat match goal with
             | Hin : _ ∈ _ :: _ |- _ => apply elem_of_cons in Hin as [Hin|Hin]
             | Hin : _ ∈ [] |- _ => by apply elem_of_nil in Hin
             end; tauto. }
  split; [done|]. split; [done|]. split; [done|].
  by apply chunk_raise in Hch as [_ ?].
Qed.

(** The theorem at a model name that is not known: on two sample files,
    and on a list of inputs the second of which does not exist. *)
Lemma unknown_model_witness :
  let w := Sample.world "EK500" "firmware" "ship" "ship" in
  let run :=
    perform_combination "0.4.1" "EK500" Sample.inputs "leg1__combined.nc"
      "netcdf4" w in
  let lost :=
    perform_combination "0.4.1" "EK500" ["leg1.nc"; "lost.nc"]
      "leg1__combined.nc" "netcdf4" w in
  ("EK500" ∉ ["AZFP"; "EK80"; "EA640"; "EK60"]) ∧
  run.1.1 = Ok tt ∧
  Forall (λ ev, ev_group ev ∉ [Some "Platform"; Some "Platform/NMEA"]) run.2 ∧
  lost.1.1 = Raise (OSError "lost.nc") ∧
  ∃ ev, last lost.2 = Some ev ∧ call_raises ev (OSError "lost.nc").
Proof.
  intros w run lost.
  assert ("EK500" ∉ ["AZFP"; "EK80"; "EA640"; "EK60"]) as Hm by compute_done.
  assert (run.1.1 = Ok tt) as Hok by compute_done.
  assert (lost.1.1 = Raise (OSError "lost.nc")) as Hlost by compute_done.
  split; [exact Hm|]. split; [exact Hok|].
  pose proof (unknown_model_omits_platform "0.4.1" "EK500" Sample.inputs
                "leg1__combined.nc" "netcdf4" w Hm) as (_ & _ & Hrun).
  pose proof (unknown_model_omits_platform "0.4.1" "EK500"
                ["leg1.nc"; "lost.nc"] "leg1__combined.nc" "netcdf4" w Hm)
    as (_ & _ & Hbad).
  fold run in Hrun. fold lost in Hbad.
  destruct run as [[r w'] log]. destruct lost as [[r' w''] log'].
  destruct Hrun as (_ & _ & _ & Hnone & _).
  destruct Hbad as (_ & _ & _ & _ & Hraise).
  split; [exact Hnone|]. split; [exact Hlost|].
  destruct (Hraise _ Hlost ltac:(discriminate)) as (ev & Hlast & Hev).
  exists ev. split; [exact Hlast|].
  destruct Hev as [Hcall|(? & ? & ? & ? & ? & ? & _ & _ & _ & _ & Hch & _)];
    [exact Hcall|].
  apply chunk_raise in Hch as [Hch _]. discriminate Hch.
Defined.

(** ** Where an exception of a combine comes from, for every model *)





(** ** Container paths: removal, and the combined file as a data source *)

(** X19: a path made of a directory part, a file name that does not begin
    with the dot, and a container extension is removed as the extension
    says: a ".zarr" store by [shutil.rmtree], a ".nc" file by [os.remove]. *)
Theorem remove_indiv_files_container {W} `{Files W} (dir name : string)
    (c : ascii) (rest : string) (w : W) :
  dir = "" ∨ (∃ d, dir = d +:+ "/") →
  name = String c rest → c ≠ "."%char → str_has "/"%char name = false →
  (remove_indiv_files (PathStr (dir +:+ name +:+ ".zarr")) w).2
  = [CallRmtree (dir +:+ name +:+ ".zarr")] ∧
  (remove_indiv_files (PathStr (dir +:+ name +:+ ".zarr")) w).1
  = shutil_rmtree (dir +:+ name +:+ ".zarr") w ∧
  (remove_indiv_files (PathStr (dir +:+ name +:+ ".nc")) w).2
  = [CallRemove (dir +:+ name +:+ ".nc")] ∧
  (remove_indiv_files (PathStr (dir +:+ name +:+ ".nc")) w).1
  = os_remove (dir +:+ name +:+ ".nc") w.
Proof.
  intros Hdir Hname Hc Hslash. unfold remove_indiv_files.
  rewrite (splitext_container dir name ".zarr" c rest)
    by (try done; rewrite !elem_of_cons; auto).
  rewrite (splitext_container dir name ".nc" c rest)
    by (try done; rewrite !elem_of_cons; auto).
  rewrite decide_True by done. rewrite decide_False by done.
  unfold call_rmtree, call_remove.
  destruct (shutil_rmtree _ w), (os_remove _ w). done.
Qed.

(** The theorem at the store "data/leg2.zarr" and at a file "data/leg2.nc"
    of the sample file system, which has the first and lacks the second. *)
Lemma remove_indiv_files_container_witness :
  let w := SampleFiles.world in
  str_has "/"%char "leg2" = false ∧
  remove_indiv_files (PathStr ("data/" +:+ "leg2" +:+ ".zarr")) w
  = (Ok tt, delete "data/leg2.zarr" w, [CallRmtree "data/leg2.zarr"]) ∧
  remove_indiv_files (PathStr ("data/" +:+ "leg2" +:+ ".nc")) w
  = (Raise (OSError "data/leg2.nc"), w, [CallRemove "data/leg2.nc"]).
Proof.
  intros w.
  assert (str_has "/"%char "leg2" = false) as Hslash by reflexivity.
  destruct (remove_indiv_files_container "data/" "leg2" "l"%char "eg2" w
              (or_intror (ex_intro _ "data" eq_refl)) eq_refl
              ltac:(discriminate) Hslash) as (Hz & Hzr & Hn & Hnr).
  split; [exact Hslash|]. split.
  - destruct (remove_indiv_files _ w) as [[r w'] l]. simpl in Hz, Hzr.
    rewrite Hz. by injection Hzr as -> ->.
  - destruct (remove_indiv_files (PathStr ("data/" +:+ "leg2" +:+ ".nc")) w)
      as [[r w'] l]. simpl in Hn, Hnr.
    rewrite Hn. by injection Hnr as -> ->.
Defined.

(** X20: the combined file of a container is a container of the same
    type: when the extension of the first source is ".nc" or ".zarr", the
    path [get_combined_save_path] gives has that extension, so a path
    property of an EchoData object takes it as a single file, and
    [remove_indiv_files] removes it as it removes the source. *)
Theorem combined_path_is_container {W V} `{Storage W} `{Files V}
    (p : string) (rest : list path_like) (self : gmap string pyobj)
    (file_list : string) (w : W) (v : V) :
  (splitext p).2 ∈ [".nc"; ".zarr"] →
  ∃ save_path,
    get_combined_save_path (PathStr p :: rest) = Ok (SavePath save_path) ∧
    (splitext save_path).2 = (splitext p).2 ∧
    EchoDataBase._update_file_list self (PyStr save_path) file_list w
    = (Ok (<[file_list := PyStr save_path]> self), w, []) ∧
    (remove_indiv_files (PathStr save_path) v).2
    = [if decide ((splitext p).2 = ".zarr") then CallRmtree save_path
       else CallRemove save_path].
Proof.
  intros Hext. eexists. split; [reflexivity|].
  rewrite get_combined_fname_splitext.
  pose proof (splitext_insert p "__combined" eq_refl eq_refl) as Hsplit.
  rewrite Hsplit. cbn [snd]. split; [done|]. split.
  - unfold EchoDataBase._update_file_list. rewrite Hsplit. cbn [snd].
    rewrite decide_False. { by rewrite decide_True. }
    intros Hnone. rewrite Hnone in Hext. revert Hext.
    rewrite !elem_of_cons, elem_of_nil. intros [?|[?|[]]]; discriminate.
  - unfold remove_indiv_files. rewrite Hsplit.
    case_decide; [unfold call_rmtree|unfold call_remove].
    + by destruct (shutil_rmtree _ v).
    + by destruct (os_remove _ v).
Qed.

(** The theorem at the first of the sample inputs, "leg1.nc". *)
Lemma combined_path_is_container_witness :
  ((splitext "leg1.nc").2 ∈ [".nc"; ".zarr"]) ∧
  get_combined_save_path [PathStr "leg1.nc"; PathStr "leg2.nc"]
  = Ok (SavePath "leg1__combined.nc") ∧
  EchoDataBase._update_file_list ∅ (PyStr "leg1__combined.nc") "_raw_path"
                                 SampleStorage.world
  = (Ok {[ "_raw_path" := PyStr "leg1__combined.nc" ]}, SampleStorage.world,
     []) ∧
  (remove_indiv_files (PathStr "leg1__combined.nc") SampleFiles.world).2
  = [CallRemove "leg1__combined.nc"].
Proof.
  assert ((splitext "leg1.nc").2 ∈ [".nc"; ".zarr"]) as Hext by compute_done.
  destruct (combined_path_is_container "leg1.nc" [PathStr "leg2.nc"] ∅
              "_raw_path" SampleStorage.world SampleFiles.world Hext)
    as (save_path & Hpath & _ & Hlist & Hremove).
  assert (save_path = "leg1__combined.nc") as ->.
  { assert (get_combined_save_path [PathStr "leg1.nc"; PathStr "leg2.nc"]
            = Ok (SavePath "leg1__combined.nc")) as Hrun by reflexivity.
    rewrite Hrun in Hpath. by injection Hpath. }
  exact (conj Hext (conj Hpath (conj Hlist Hremove))).
Defined.

(** The copy of the sample store "data/leg2.zarr": the old copy is removed
    first, as a tree, and the store is copied as a tree. *)
Example copy_file_sample :
  SetGroupsEK80._copy_file "data/leg2.zarr" SampleFiles.world
  = (Ok "data/leg2_cw.zarr", SampleFiles.world,
     [ CallExists "data/leg2_cw.zarr";
       CallPrint "          overwriting: data/leg2_cw.zarr";
       CallRmtree "data/leg2_cw.zarr";
       CallCopytree "data/leg2.zarr" "data/leg2_cw.zarr" ]).
Proof. compute_done. Qed.

(** ** A combine writes what it read *)

Section HandsOnRules.
Context {W : Type} `{Library W}.
Variable sonar_model : string.

Lemma justified_app (prev : option Event) (l1 l2 : list Event) :
  justified (W:=W) sonar_model prev (l1 ++ l2) ↔
  justified (W:=W) sonar_model prev l1 ∧
  justified (W:=W) sonar_model (last_call prev l1) l2.
Proof.
  revert prev. induction l1 as [|ev l1 IH]; intros prev.
  { simpl. unfold last_call. simpl. tauto. }
  simpl. rewrite IH.
  assert (last_call prev (ev :: l1) = last_call (Some ev) l1) as ->.
  { unfold last_call. destruct l1 as [|ev' l1]; [done|]. simpl.
    destruct (last (ev' :: l1)) eqn:Hl; [done|]. by apply last_None in Hl. }
  tauto.
Qed.

Lemma justified_lookup (l : list Event) (i : nat) (ev : Event) :
  justified (W:=W) sonar_model None l → l !! i = Some ev →
  write_follows_read (W:=W) sonar_model
    (match i with O => None | S j => l !! j end) ev.
Proof.
  assert (∀ prev l i ev,
            justified (W:=W) sonar_model prev l → l !! i = Some ev →
            write_follows_read (W:=W) sonar_model
              (match i with O => prev | S j => l !! j end) ev) as Hgen.
  { clear. intros prev l. revert prev.
    induction l as [|ev0 l IH]; intros prev i ev Hl Hi; [done|].
    destruct Hl as [Hev0 Hl]. destruct i as [|i].
    - by injection Hi as <-.
    - simpl in Hi. specialize (IH _ _ _ Hl Hi). by destruct i. }
  apply Hgen.
Qed.

Lemma hands_on_bind {A B} (P : option Event → Prop) (c : M W A)
    (Q : A → option Event → Prop) (k : A → M W B)
    (R : B → option Event → Prop) :
  hands_on sonar_model P c Q → (∀ a, hands_on sonar_model (Q a) (k a) R) →
  hands_on sonar_model P (bind c k) R.
Proof.
  intros Hc Hk prev w HP. destruct (Hc prev w HP) as [Hj HQ].
  unfold bind. destruct (c w) as [[[a|e] w1] l1]; simpl in *; [|done].
  destruct (Hk a _ w1 (HQ a eq_refl)) as [Hj2 HR].
  destruct (k a w1) as [[r w2] l2]. simpl in *.
  split; [by apply justified_app|].
  intros b Hb. rewrite last_call_app. by apply HR.
Qed.

Lemma hands_on_post {A} (P : option Event → Prop) (c : M W A)
    (Q Q' : A → option Event → Prop) :
  hands_on sonar_model P c Q → (∀ a prev, Q a prev → Q' a prev) →
  hands_on sonar_model P c Q'.
Proof.
  intros Hc HQ prev w HP. destruct (Hc prev w HP) as [Hj Hpost].
  split; [done|]. intros a Ha. by apply HQ, Hpost.
Qed.

(** A computation that makes no call keeps what is known of the last one. *)
Lemma hands_on_lift {A} (P : option Event → Prop) (r : result A) :
  hands_on sonar_model P (lift r : M W A) (λ a prev, P prev ∧ r = Ok a).
Proof. intros prev w HP. split; [done|]. unfold lift. simpl. by intros a ->. Qed.

Lemma hands_on_ret {A} (P : option Event → Prop) (a : A) :
  hands_on sonar_model P (ret a : M W A) (λ _ _, True).
Proof. by intros prev w HP. Qed.

Lemma hands_on_now (P : option Event → Prop) :
  hands_on sonar_model P (now : M W datetime) (λ _ _, True).
Proof. intros prev w HP. unfold now. by destruct (datetime_now w). Qed.

Lemma hands_on_print (P : option Event → Prop) msg :
  hands_on sonar_model P (print msg : M W unit) (λ _ _, True).
Proof. by intros prev w HP. Qed.

Lemma hands_on_provenance (P : option Event → Prop) version input_paths :
  hands_on sonar_model P
    (assemble_combined_provenance version input_paths : M W Dataset)
    (λ _ _, True).
Proof.
  intros prev w HP. unfold assemble_combined_provenance, bind, utcnow, ret.
  by destruct (datetime_utcnow w).
Qed.

Lemma hands_on_open_dataset (P : option Event → Prop) path group engine :
  hands_on sonar_model P (open_dataset path group engine)
    (λ ds prev, prev = Some (EvOpenDataset path group engine) ∧
                returned (W:=W) (EvOpenDataset path group engine) ds).
Proof.
  intros prev w HP. unfold open_dataset.
  destruct (xr_open_dataset path group engine w) as [r w1] eqn:Hcall.
  split; [done|]. simpl. intros ds ->. split; [done|]. eauto.
Qed.

Lemma hands_on_open_mfdataset (P : option Event → Prop) paths group kw
    engine :
  hands_on sonar_model P (open_mfdataset paths group kw engine)
    (λ ds prev, prev = Some (EvOpenMfdataset paths group kw engine) ∧
                returned (W:=W) (EvOpenMfdataset paths group kw engine) ds).
Proof.
  intros prev w HP. unfold open_mfdataset.
  destruct (xr_open_mfdataset paths group kw engine w) as [r w1] eqn:Hcall.
  split; [done|]. simpl. intros ds ->. split; [done|]. eauto.
Qed.

Lemma hands_on_save_file (P : option Event → Prop) ds path mode engine group :
  (∀ prev, P prev →
     write_follows_read (W:=W) sonar_model prev
       (EvSaveFile ds path mode engine group)) →
  hands_on sonar_model P (save_file ds path mode engine group) (λ _ _, True).
Proof.
  intros Hpre prev w HP. unfold save_file.
  destruct (io_save_file ds path mode engine group w) as [r w1].
  split; [|done]. simpl. split; [by apply Hpre|done].
Qed.

Ltac hands_on_write :=
  let prev := fresh "prev" in
  let Hacc := fresh "Hacc" in
  intros prev Hacc; cbv beta in Hacc; destruct_and?;
  repeat match goal with
         | Hin : _ ∈ [_] |- _ => apply list_elem_of_singleton in Hin
         end;
  simplify_eq;
  repeat match goal with
         | Hc : dict_getitem DEFAULT_CHUNK_SIZE _ = Ok _ |- _ =>
             apply default_chunk_size in Hc as [[? ->]|[? ->]];
             try discriminate
         end;
  first [ by left
        | right; do 2 eexists;
          split; [reflexivity|]; split; [reflexivity|];
          split; [eassumption|];
          unfold combined_from;
          repeat (first [ rewrite decide_True by first [done|compute_done]
                        | rewrite decide_False
                            by first [done|compute_done] ]);
          solve [eauto] ].

Lemma perform_combination_hands_on (version : string)
    (input_paths : list string) (output_path engine : string) :
  hands_on sonar_model (λ _, True)
    (perform_combination version sonar_model input_paths output_path engine)
    (λ _ _, True).
Proof.
  unfold perform_combination, combine_platform, combine_nmea.
  repeat lazymatch goal with
         | |- hands_on _ _ (bind (save_file _ _ _ _ _) _) _ =>
             eapply hands_on_bind;
             [apply hands_on_save_file; hands_on_write|intros ?]
         | |- hands_on _ _ (save_file _ _ _ _ _) _ =>
             apply hands_on_save_file; hands_on_write
         | |- hands_on _ _ (bind (assemble_combined_provenance _ _) _) _ =>
             eapply hands_on_bind; [apply hands_on_provenance|intros ?]
         | |- hands_on _ _ (bind (open_dataset _ _ _) _) _ =>
             eapply hands_on_bind; [apply hands_on_open_dataset|intros ?]
         | |- hands_on _ _ (bind (open_mfdataset _ _ _ _) _) _ =>
             eapply hands_on_bind; [apply hands_on_open_mfdataset|intros ?]
         | |- hands_on _ _ (bind (lift _) _) _ =>
             eapply hands_on_bind; [apply hands_on_lift|intros ?]
         | |- hands_on _ _ (bind now _) _ =>
             eapply hands_on_bind; [apply hands_on_now|intros ?]
         | |- hands_on _ _ (bind (print _) _) _ =>
             eapply hands_on_bind; [apply hands_on_print|intros ?]
         | |- hands_on _ _ (bind (if decide _ then _ else _) _) _ =>
             eapply hands_on_bind; [case_decide|intros ?]
         | |- hands_on _ _ (if decide _ then _ else _) _ => case_decide
         | |- hands_on _ _ (ret _) _ =>
             eapply hands_on_post; [apply hands_on_ret|done]
         | |- hands_on _ _ (print _) _ =>
             eapply hands_on_post; [apply hands_on_print|done]
         end.
Qed.
End HandsOnRules.

Lemma coerce_type_shape (sonar_model : string) (ds_r ds_c : Dataset) :
  coerce_type sonar_model ds_r "Beam" = Ok ds_c →
  ds_attrs ds_c = ds_attrs ds_r ∧
  ds_coord_names ds_c = ds_coord_names ds_r ∧
  ds_chunks ds_c = ds_chunks ds_r ∧
  dom (ds_variables ds_c) = dom (ds_variables ds_r) ∧
  (∀ name, name ∉ beam_text_fields sonar_model →
           ds_variables ds_c !! name = ds_variables ds_r !! name).
Proof.
  rewrite coerce_type_run. unfold beam_text_fields.
  repeat case_decide; [| |by intros [= <-]];
    (destruct (ds_variables ds_r !! _) as [v|] eqn:Hv; [|done]);
    (destruct (ds_variables ds_r !! "channel_id") as [c|] eqn:Hc; [|done]);
    intros [= <-]; cbn [ds_variables ds_coord_names ds_attrs ds_chunks];
    (split_and!; try done);
    first
      [ rewrite !dom_insert_L; apply elem_of_dom_2 in Hv, Hc;
        apply set_eq; intros k; rewrite !elem_of_union, !elem_of_singleton;
        split; [intros [->|[->|?]]; done|tauto]
      | intros name Hname; rewrite !elem_of_cons in Hname;
        rewrite !lookup_insert_ne; [done|intros <-; tauto..] ].
Qed.

(** What the changes between the read and the write leave as it was. *)
Lemma combined_from_shape (sonar_model : string) (group : option string)
    (ds_r ds : Dataset) :
  combined_from sonar_model group ds_r ds →
  ds_attrs ds = ds_attrs ds_r ∧
  ds_coord_names ds = ds_coord_names ds_r ∧
  dom (ds_variables ds) = dom (ds_variables ds_r) ∧
  (group ∉ [Some "Beam"; Some "Platform/NMEA"] →
   ds_variables ds = ds_variables ds_r) ∧
  (group = Some "Beam" →
   ∀ name, name ∉ beam_text_fields sonar_model →
           ds_variables ds !! name = ds_variables ds_r !! name) ∧
  (group = Some "Platform/NMEA" →
   ∀ name, name ∈ ds_coord_names ds_r →
           ds_variables ds !! name = ds_variables ds_r !! name).
Proof.
  unfold combined_from.
  destruct (decide (group = Some "Beam")) as [->|Hbeam].
  { intros (ds_c & Hco & [-> _]%chunk_ok).
    destruct (coerce_type_shape _ _ _ Hco) as (? & ? & ? & ? & Hrest).
    cbn [ds_variables ds_coord_names ds_attrs].
    split_and!; try done.
    rewrite !elem_of_cons. tauto. }
  destruct (decide (group = Some "Environment")) as [->|Henv].
  { intros [-> _]%chunk_ok. cbn [ds_variables ds_coord_names ds_attrs].
    split_and!; done. }
  destruct (decide (group = Some "Platform")) as [->|Hplat].
  { repeat case_decide; (intros [-> _]%chunk_ok || intros ->);
      cbn [ds_variables ds_coord_names ds_attrs];
      split_and!; done. }
  destruct (decide (group = Some "Platform/NMEA")) as [->|Hnmea].
  { intros (ds_c & [-> _]%chunk_ok & ->).
    cbn [ds_astype_str ds_variables ds_coord_names ds_attrs].
    split; [done|]. split; [done|]. split.
    { apply set_eq. intros k. rewrite !elem_of_dom, map_lookup_imap.
      destruct (ds_variables ds_r !! k); simpl; [|done].
      split; eauto. }
    split; [rewrite !elem_of_cons; tauto|]. split; [done|].
    intros _ name Hname. rewrite map_lookup_imap.
    destruct (ds_variables ds_r !! name); simpl; [|done].
    by rewrite decide_True. }
  intros ->. split_and!; done.
Qed.

(** X21: a combine writes what it read.  Every write of a combine, but
    the one of the Provenance group, comes right after the read of the same
    group and is of the dataset that read returned, changed in this way and
    no other: for Beam the coercion of the text fields and the chunk sizes,
    for Environment and for the Platform of EK60, EK80 and EA640 the chunk
    sizes, for Platform/NMEA the chunk sizes and the conversion to text,
    and for the top-level, Sonar, AZFP Platform and Vendor groups nothing.
    So the attributes, the coordinate names and the names of the variables
    of every group are written as read; the variables themselves are
    written as read but for the text fields of Beam and the data variables
    of Platform/NMEA. *)
Theorem combine_writes_what_it_read {W} `{Library W}
    (version sonar_model : string) (input_paths : list string)
    (output_path engine : string) (w : W) :
  let log :=
    (perform_combination version sonar_model input_paths output_path engine
                         w).2 in
  (∀ i ds path mode eng group,
     log !! i = Some (EvSaveFile ds path mode eng group) →
     group ≠ Some "Provenance" →
     ∃ j ev_r ds_r,
       i = S j ∧ log !! j = Some ev_r ∧ ev_group ev_r = group ∧
       returned (W:=W) ev_r ds_r ∧
       combined_from sonar_model group ds_r ds) ∧
  (∀ group ds_r ds,
     combined_from sonar_model group ds_r ds →
     ds_attrs ds = ds_attrs ds_r ∧
     ds_coord_names ds = ds_coord_names ds_r ∧
     dom (ds_variables ds) = dom (ds_variables ds_r) ∧
     (group ∉ [Some "Beam"; Some "Platform/NMEA"] →
      ds_variables ds = ds_variables ds_r) ∧
     (group = Some "Beam" →
      ∀ name, name ∉ beam_text_fields sonar_model →
              ds_variables ds !! name = ds_variables ds_r !! name) ∧
     (group = Some "Platform/NMEA" →
      ∀ name, name ∈ ds_coord_names ds_r →
              ds_variables ds !! name = ds_variables ds_r !! name)).
Proof.
  intros log. split; [|apply combined_from_shape].
  intros i ds path mode eng group Hev Hgroup.
  destruct (perform_combination_hands_on sonar_model version input_paths
              output_path engine None w I) as [Hj _].
  fold log in Hj.
  pose proof (justified_lookup sonar_model _ _ _ Hj Hev) as Hw.
  destruct Hw as [?|(ev_r & ds_r & Hprev & Hg & Hret & Hfrom)]; [done|].
  destruct i as [|j]; [done|].
  by exists j, ev_r, ds_r.
Qed.

(** The theorem at the combine of the two sample EK60 files: the tenth
    call writes the Environment group, and it is the group the ninth call
    read, with its chunk size and with its variables as they were read. *)
Lemma combine_writes_what_it_read_witness :
  let log :=
    (perform_combination "0.4.1" "EK60" Sample.inputs "leg1__combined.nc"
                         "netcdf4" Sample.ek60_world).2 in
  ∃ ds eng ev_r ds_r,
    log !! 9%nat
    = Some (EvSaveFile ds "leg1__combined.nc" "a" eng (Some "Environment")) ∧
    log !! 8%nat = Some ev_r ∧
    ev_group ev_r = Some "Environment" ∧
    returned (W:=SpecLibrary.World) ev_r ds_r ∧
    chunk ds_r {[ "ping_time" := 2500 ]} = Ok ds ∧
    ds_variables ds = ds_variables ds_r.
Proof.
  intros log.
  assert ((λ ev, (tag ev, path_written ev)) <$> log !! 9%nat
          = Some (TSave (Some "Environment") "a", Some "leg1__combined.nc"))
    as Hcall by compute_done.
  destruct (log !! 9%nat) as [ev|] eqn:Hev; [|discriminate Hcall].
  destruct ev as [|? ? ?|? ? ? ?|ds path mode eng group];
    simpl in Hcall; [discriminate Hcall..|].
  injection Hcall as -> -> ->.
  destruct (combine_writes_what_it_read "0.4.1" "EK60" Sample.inputs
              "leg1__combined.nc" "netcdf4" Sample.ek60_world)
    as [Hwrites Hshape].
  destruct (Hwrites _ _ _ _ _ _ Hev ltac:(discriminate))
    as (j & ev_r & ds_r & [= <-] & Hread & Hgroup & Hret & Hfrom).
  destruct (Hshape _ _ _ Hfrom) as (_ & _ & _ & Hvars & _).
  exists ds, eng, ev_r, ds_r.
  split; [reflexivity|]. split; [exact Hread|]. split; [exact Hgroup|].
  split; [exact Hret|]. split; [exact Hfrom|].
  apply Hvars. rewrite !elem_of_cons, elem_of_nil.
  intros [?|[?|[]]]; discriminate.
Defined.
